(** * The background service scheduler of OpenWebRX (owrx/service/schedule.py)

    A shallow embedding of [owrx/service/schedule.py]: schedule entries, the
    three schedule strategies (static, daylight, rotation), the configuration
    parser [Schedule.parse] and the control loop [ServiceScheduler].

    Conventions of the embedding.
    - A naive UTC [datetime] is an integer number of microseconds since the
      epoch; a [time] of day is the number of microseconds since midnight.
      The range limits of Python's [datetime] and [timedelta] (years 1..9999)
      are not modelled: instants are unbounded.
    - [datetime.utcnow()] is the argument [now] of the operation that reads
      it: one invocation of a method reads one clock value.
    - A call of a method runs to its end before the next call begins.
    - A Python exception is a value of [exn]; a call that can raise returns
      a [result]; a method that mutates [self] returns the new object next
      to its result, so mutations made before a raise are kept.
    - Configuration values (decoded JSON) are the type [value]; a dict is an
      association list in insertion order.  Strings are byte strings, read
      as Latin-1 text; floats occur only in the solar computation.

    The part "A finer model" lifts the conventions on the range of
    instants, on the clock and on the order of calls where a property
    depends on them. *)

From Stdlib Require Import ZArith Bool List String Ascii Lia PrimFloat.
From stdpp Require Import base list.
Import ListNotations.

Set Warnings "-register-all,-inexact-float".

Local Open Scope string_scope.
Local Open Scope Z_scope.

(** ** Python values, exceptions and results *)

Inductive exn : Type :=
| KeyError
| ValueError
| TypeError
| AttributeError
| IndexError
| RuntimeError
| OverflowError
| Diverged.   (* not an exception: a loop of the model used up its fuel *)

Inductive result (A : Type) : Type :=
| Ok (a : A)
| Raise (e : exn).
Arguments Ok {A} a.
Arguments Raise {A} e.

Definition rbind {A B} (r : result A) (k : A -> result B) : result B :=
  match r with
  | Ok a => k a
  | Raise e => Raise e
  end.

Declare Scope py_scope.
Delimit Scope py_scope with py.
Notation "'let?' x ':=' r 'in' k" := (rbind r (fun x => k))
  (at level 10, x pattern, r at level 100, k at level 200) : py_scope.
Local Open Scope py_scope.

Inductive value : Type :=
| VNone
| VBool (b : bool)
| VInt (n : Z)
| VStr (s : string)
| VList (l : list value)
| VDict (d : list (string * value)).

Definition dict : Type := list (string * value).

Fixpoint dict_get (k : string) (d : dict) : option value :=
  match d with
  | [] => None
  | (k', v) :: d' => if String.eqb k k' then Some v else dict_get k d'
  end.

Definition dict_has (k : string) (d : dict) : bool :=
  match dict_get k d with Some _ => true | None => false end.

(** [v == "s"] for a string literal: only a [str] can be equal to it. *)
Definition py_eq_str (v : value) (s : string) : bool :=
  match v with
  | VStr s' => String.eqb s' s
  | _ => false
  end.

(** [needle in haystack] on strings: substring test. *)
Fixpoint is_substring (needle hay : string) : bool :=
  if String.prefix needle hay then true
  else match hay with
       | EmptyString => false
       | String _ hay' => is_substring needle hay'
       end.

(** [k in v] for a string [k]: key test on a dict, substring test on a str,
    membership on a list; the other values are not containers. *)
Definition py_contains_str (k : string) (v : value) : result bool :=
  match v with
  | VDict d => Ok (dict_has k d)
  | VStr s => Ok (is_substring k s)
  | VList l => Ok (existsb (fun x => py_eq_str x k) l)
  | VNone | VBool _ | VInt _ => Raise TypeError
  end.

(** [v[k]] for a string [k]: only a dict can be indexed by a string. *)
Definition py_getitem_str (v : value) (k : string) : result value :=
  match v with
  | VDict d => match dict_get k d with
               | Some x => Ok x
               | None => Raise KeyError
               end
  | _ => Raise TypeError
  end.

(** Truth value of an object, as [if v] and [not v] test it. *)
Definition py_truth (v : value) : bool :=
  match v with
  | VNone => false
  | VBool b => b
  | VInt n => negb (n =? 0)
  | VStr s => negb (String.length s =? 0)%nat
  | VList l => match l with [] => false | _ => true end
  | VDict d => match d with [] => false | _ => true end
  end.

Definition py_len (v : value) : result Z :=
  match v with
  | VStr s => Ok (Z.of_nat (String.length s))
  | VList l => Ok (Z.of_nat (List.length l))
  | VDict d => Ok (Z.of_nat (List.length d))
  | VNone | VBool _ | VInt _ => Raise TypeError
  end.

(** Position of index [i] in a sequence of length [n]: negative indices
    count from the end. *)
Definition seq_position (n i : Z) : option nat :=
  if (0 <=? i) && (i <? n) then Some (Z.to_nat i)
  else if (- n <=? i) && (i <? 0) then Some (Z.to_nat (n + i))
  else None.

(** [v[i]] for an integer [i]. The keys of a [dict] here are strings, so an
    integer key is never found. *)
Definition py_getitem_int (v : value) (i : Z) : result value :=
  match v with
  | VList l =>
      match seq_position (Z.of_nat (List.length l)) i with
      | Some p => match nth_error l p with Some x => Ok x | None => Raise IndexError end
      | None => Raise IndexError
      end
  | VStr s =>
      match seq_position (Z.of_nat (String.length s)) i with
      | Some p => match String.get p s with
                  | Some c => Ok (VStr (String c EmptyString))
                  | None => Raise IndexError
                  end
      | None => Raise IndexError
      end
  | VDict _ => Raise KeyError
  | VNone | VBool _ | VInt _ => Raise TypeError
  end.

Fixpoint string_repeat (n : nat) (s : string) : string :=
  match n with
  | O => EmptyString
  | S n' => (s ++ string_repeat n' s)%string
  end.

Fixpoint list_repeat {A} (n : nat) (l : list A) : list A :=
  match n with
  | O => []
  | S n' => (l ++ list_repeat n' l)%list
  end.

(** [v * k] for an integer literal [k]: product of numbers ([bool] is an
    [int]), repetition of a sequence. *)
Definition py_mul_int (v : value) (k : Z) : result value :=
  match v with
  | VInt n => Ok (VInt (n * k))
  | VBool b => Ok (VInt ((if b then 1 else 0) * k))
  | VStr s => Ok (VStr (string_repeat (Z.to_nat k) s))
  | VList l => Ok (VList (list_repeat (Z.to_nat k) l))
  | VNone | VDict _ => Raise TypeError
  end.

(** ** Instants and times of day *)

Definition datetime : Type := Z.
Definition timeofday : Type := Z.

Definition us_per_second : Z := 1000000.
Definition us_per_day : Z := 86400 * us_per_second.

(** [timedelta(hours=h, minutes=m, seconds=s)] *)
Definition timedelta (h m s : Z) : Z := ((h * 60 + m) * 60 + s) * us_per_second.

(** [dt.time()] and midnight of [dt.date()] *)
Definition time_of (dt : datetime) : timeofday := dt mod us_per_day.
Definition date_of (dt : datetime) : datetime := (dt / us_per_day) * us_per_day.

(** [dt.combine(date=dt.date(), time=t)] *)
Definition combine (date : datetime) (t : timeofday) : datetime := date + t.

(** [time(hour, minute)] *)
Definition mk_time (hour minute : Z) : timeofday := timedelta hour minute 0.

(** [timedelta(seconds=v)]: the argument has to be a number. *)
Definition timedelta_seconds (v : value) : result Z :=
  match v with
  | VInt n => Ok (n * us_per_second)
  | VBool b => Ok ((if b then 1 else 0) * us_per_second)
  | _ => Raise TypeError
  end.

(** ** Schedule entries *)

(** The three concrete subclasses of [ScheduleEntry]; each carries the
    fields [startTime], [endTime] and [profile] of the base class. *)
Inductive ScheduleEntry : Type :=
| TimeScheduleEntry (startTime endTime : timeofday) (profile : value)
| DatetimeScheduleEntry (startTime endTime : datetime) (profile : value)
| RotationScheduleEntry (startTime endTime : datetime) (profile : value).

Definition getProfile (e : ScheduleEntry) : value :=
  match e with
  | TimeScheduleEntry _ _ p | DatetimeScheduleEntry _ _ p | RotationScheduleEntry _ _ p => p
  end.

Definition startTime (e : ScheduleEntry) : Z :=
  match e with
  | TimeScheduleEntry s _ _ | DatetimeScheduleEntry s _ _ | RotationScheduleEntry s _ _ => s
  end.

Definition endTime (e : ScheduleEntry) : Z :=
  match e with
  | TimeScheduleEntry _ t _ | DatetimeScheduleEntry _ t _ | RotationScheduleEntry _ t _ => t
  end.

(** [RotationScheduleEntry.__init__(profile, end_time)]: the start is the
    instant of construction. *)
Definition new_RotationScheduleEntry (now : datetime) (profile : value) (end_time : datetime)
  : ScheduleEntry :=
  RotationScheduleEntry now end_time profile.

Definition isCurrent (e : ScheduleEntry) (dt : datetime) : bool :=
  match e with
  | TimeScheduleEntry s t _ =>
      let time := time_of dt in
      if s <? t then (s <=? time) && (time <? t)
      else (s <=? time) || (time <? t)
  | DatetimeScheduleEntry s t _ => (s <=? dt) && (dt <? t)
  | RotationScheduleEntry s t _ => (s <=? dt) && (dt <? t)
  end.

(** [while x < now: x += timedelta(days=1)], with a bound on the number of
    iterations. *)
Fixpoint advance_days (fuel : nat) (x now : datetime) : option datetime :=
  if x <? now then
    match fuel with
    | O => None
    | S fuel' => advance_days fuel' (x + us_per_day) now
    end
  else Some x.

(** [x] starts on the day of [now], at a time of day: the loop above runs at
    most once (lemma [advance_days_today]); two rounds of fuel are enough and
    the default is never reached. *)
Definition next_occurrence (now : datetime) (t : timeofday) : datetime :=
  let x := combine (date_of now) t in
  match advance_days 2 x now with
  | Some r => r
  | None => x
  end.

Definition getScheduledEnd (e : ScheduleEntry) (now : datetime) : datetime :=
  match e with
  | TimeScheduleEntry _ t _ => next_occurrence now t
  | DatetimeScheduleEntry _ t _ => t
  | RotationScheduleEntry _ t _ => t
  end.

Definition getNextActivation (e : ScheduleEntry) (now : datetime) : datetime :=
  match e with
  | TimeScheduleEntry s _ _ => next_occurrence now s
  | DatetimeScheduleEntry s _ _ => s
  | RotationScheduleEntry _ t _ => t
  end.

(** ** [datetime.strptime(s, "%H%M")]

    The format compiles to the regular expression
    [(?P<H>2[0-3]|[0-1]\d|\d)(?P<M>[0-5]\d|\d)], matched at the start of the
    string; alternatives are tried from left to right, and text left over
    after the match is an error ("unconverted data remains"). *)

Definition digit_of (c : ascii) : option Z :=
  let n := Z.of_nat (nat_of_ascii c) in
  if (48 <=? n) && (n <=? 57) then Some (n - 48) else None.

(** The ways a field can match a prefix of [s], in the order the regular
    expression tries them: the number read and the rest of the string. *)
Definition match_H (s : string) : list (Z * string) :=
  (match s with
   | String c0 (String c1 r) =>
       match digit_of c0, digit_of c1 with
       | Some d0, Some d1 =>
           (if (d0 =? 2) && (d1 <=? 3) then [(20 + d1, r)] else []) ++
           (if d0 <=? 1 then [(10 * d0 + d1, r)] else [])
       | _, _ => []
       end
   | _ => []
   end) ++
  (match s with
   | String c0 r => match digit_of c0 with Some d0 => [(d0, r)] | None => [] end
   | EmptyString => []
   end).

Definition match_M (s : string) : list (Z * string) :=
  (match s with
   | String c0 (String c1 r) =>
       match digit_of c0, digit_of c1 with
       | Some d0, Some d1 => if d0 <=? 5 then [(10 * d0 + d1, r)] else []
       | _, _ => []
       end
   | _ => []
   end) ++
  (match s with
   | String c0 r => match digit_of c0 with Some d0 => [(d0, r)] | None => [] end
   | EmptyString => []
   end).

(** First match of the whole expression, by backtracking. *)
Definition match_HM (s : string) : option (Z * Z * string) :=
  hd_error
    (flat_map (fun hr : Z * string =>
                 map (fun mr : Z * string => (fst hr, fst mr, snd mr)) (match_M (snd hr)))
              (match_H s)).

(** [datetime.strptime(s, "%H%M").replace(tzinfo=timezone.utc).time()] *)
Definition strptime_HM (s : string) : result timeofday :=
  match match_HM s with
  | Some (h, m, EmptyString) => Ok (mk_time h m)
  | Some (_, _, String _ _) => Raise ValueError
  | None => Raise ValueError
  end.

(** ** Schedules *)

(** *** StaticSchedule *)

(** The loop of [StaticSchedule.__init__] over [scheduleDict.items()]. *)
Fixpoint static_entries (items : dict) : result (list ScheduleEntry) :=
  match items with
  | [] => Ok []
  | (time, profile) :: rest =>
      if negb (String.length time =? 9)%nat then
        (* logger.warning("invalid schedule spec: %s", time); continue *)
        static_entries rest
      else
        let? startTime := strptime_HM (String.substring 0 4 time) in
        let? endTime := strptime_HM (String.substring 5 4 time) in
        let? entries := static_entries rest in
        Ok (TimeScheduleEntry startTime endTime profile :: entries)
  end.

(** [StaticSchedule(scheduleDict)]: the field [entries] of the new object.
    Only a dict has [items()]. *)
Definition StaticSchedule_init (scheduleDict : value) : result (list ScheduleEntry) :=
  match scheduleDict with
  | VDict d => static_entries d
  | _ => Raise AttributeError
  end.

(** *** RotationSchedule *)

Record RotationSchedule : Type := mkRotation {
  profiles : value;
  interval : value;
  current_index : Z;
  current_end_time : option datetime
}.

(** [RotationSchedule(scheduleDict)] *)
Definition RotationSchedule_init (scheduleDict : value) : result RotationSchedule :=
  let? hasProfiles := py_contains_str "profiles" scheduleDict in
  let? ps := (if hasProfiles : bool then py_getitem_str scheduleDict "profiles" else Ok (VList [])) in
  let? hasInterval := py_contains_str "interval" scheduleDict in
  let? minutes := (if hasInterval : bool then py_getitem_str scheduleDict "interval" else Ok (VInt 5)) in
  let? seconds := py_mul_int minutes 60 in
  Ok (mkRotation ps seconds 0 None).

(** [RotationSchedule.getCurrentEntry]: the object after the call and the
    value returned. *)
Definition RotationSchedule_getCurrentEntry (self : RotationSchedule) (now : datetime)
  : RotationSchedule * result (option ScheduleEntry) :=
  if negb (py_truth (profiles self)) then (self, Ok None)
  else
    (* advance to the next profile when the current one has expired *)
    let expired := match current_end_time self with
                   | Some t => t <=? now
                   | None => false
                   end in
    let advanced : RotationSchedule * result unit :=
      if expired then
        match py_len (profiles self) with
        | Ok n =>
            (* a sequence that is true has a positive length: no division by zero *)
            (mkRotation (profiles self) (interval self)
                        ((current_index self + 1) mod n) None, Ok tt)
        | Raise e => (self, Raise e)
        end
      else (self, Ok tt) in
    match advanced with
    | (self1, Raise e) => (self1, Raise e)
    | (self1, Ok _) =>
        (* set the end time when there is none *)
        let armed : RotationSchedule * result datetime :=
          match current_end_time self1 with
          | None =>
              match timedelta_seconds (interval self1) with
              | Ok d =>
                  let self2 := mkRotation (profiles self1) (interval self1)
                                          (current_index self1) (Some (now + d)) in
                  (* the arguments of logger.info index the profile list *)
                  (self2,
                   let? _ := py_getitem_int (profiles self2) (current_index self2) in
                   Ok (now + d))
              | Raise e => (self1, Raise e)
              end
          | Some t => (self1, Ok t)
          end in
        match armed with
        | (self2, Raise e) => (self2, Raise e)
        | (self2, Ok end_time) =>
            (self2,
             let? profile := py_getitem_int (profiles self2) (current_index self2) in
             Ok (Some (new_RotationScheduleEntry now profile end_time)))
        end
    end.

(** [RotationSchedule.getNextEntry]: the object after the call and the value
    returned. *)
Definition RotationSchedule_getNextEntry (self : RotationSchedule) (now : datetime)
  : RotationSchedule * result (option ScheduleEntry) :=
  if negb (py_truth (profiles self)) then (self, Ok None)
  else
    (self,
     let? n := py_len (profiles self) in
     let next_index := (current_index self + 1) mod n in
     let next_start := match current_end_time self with
                       | Some t => t
                       | None => now
                       end in
     let? d := timedelta_seconds (interval self) in
     let next_end := next_start + d in
     let? profile := py_getitem_int (profiles self) next_index in
     Ok (Some (new_RotationScheduleEntry now profile next_end))).

(** *** Calendar and floating point, as the solar computation uses them *)

(** [date.timetuple().tm_yday] of the day that contains [dt]: the day of the
    year, 1 for the first of January (proleptic Gregorian calendar). *)
Definition is_leap (y : Z) : bool :=
  ((y mod 4 =? 0) && negb (y mod 100 =? 0)) || (y mod 400 =? 0).

Definition tm_yday (dt : datetime) : Z :=
  let z := dt / us_per_day + 719468 in        (* days since 0000-03-01 *)
  let era := z / 146097 in
  let doe := z - era * 146097 in
  let yoe := (doe - doe / 1460 + doe / 36524 - doe / 146096) / 365 in
  let doy := doe - (365 * yoe + yoe / 4 - yoe / 100) in   (* 0 on the first of March *)
  if doy <? 306 then doy + 60 + (if is_leap (yoe + era * 400) then 1 else 0)
  else doy - 305.

Local Open Scope float_scope.

Fixpoint float_of_pos (p : positive) : float :=
  match p with
  | xH => 1
  | xO q => 2 * float_of_pos q
  | xI q => 2 * float_of_pos q + 1
  end.

(** [float(n)], exact below 2^53 *)
Definition float_of_Z (n : Z) : float :=
  match n with
  | Z0 => 0
  | Zpos p => float_of_pos p
  | Zneg p => - float_of_pos p
  end.

(** [math.pi] *)
Definition math_pi : float := 0x1.921fb54442d18p+1.

(** [x] is outside the domain [-1, 1] of the arc cosine. *)
Definition outside_unit (x : float) : bool := (x <? -1) || (1 <? x).

(** The functions of Python's [math] module and the [timedelta(hours=h)]
    constructor for a float [h] (microseconds, rounded) are library code.
    They are taken as an interface; the one law recorded is the domain check
    of [math.acos], which raises [ValueError] ("math domain error") outside
    [-1, 1]. *)
Class PyMath : Type := {
  math_sin : float -> result float;
  math_cos : float -> result float;
  math_tan : float -> result float;
  math_asin : float -> result float;
  math_acos : float -> result float;
  timedelta_hours : float -> result Z;
  math_acos_domain : forall x, outside_unit x = true -> math_acos x = Raise ValueError
}.

(** *** DaylightSchedule *)

(** The argument handed to [math.acos] in [getSunTimes]:
    [-math.tan(lat * degtorad) * math.tan(declination)]. *)
Definition hour_angle_argument `{PyMath} (lat : float) (date : datetime) : result float :=
  let degtorad := math_pi / 180 in
  let days := tm_yday date in
  let b := 2 * math_pi * float_of_Z (days - 81) / 365 in
  let? s := math_sin (23.45 * degtorad) in
  let? sb := math_sin b in
  let? declination := math_asin (s * sb) in
  let? tl := math_tan (lat * degtorad) in
  let? td := math_tan declination in
  Ok (- tl * td).

(** [DaylightSchedule.getSunTimes(date)]; [lat] and [lng] are the entries
    [receiver_gps.lat] and [receiver_gps.lon] of the global configuration,
    [date] is midnight of the day. *)
Definition getSunTimes `{PyMath} (lat lng : float) (date : datetime)
  : result (datetime * datetime) :=
  let degtorad := math_pi / 180 in
  let radtodeg := 180 / math_pi in
  (* number of days since 01/01 *)
  let days := tm_yday date in
  (* longitudinal correction *)
  let longCorr := 4 * lng in
  (* calibrate for solstice *)
  let b := 2 * math_pi * float_of_Z (days - 81) / 365 in
  (* equation of time correction *)
  let? s2b := math_sin (2 * b) in
  let? cb := math_cos b in
  let? sb := math_sin b in
  let eoTCorr := 9.87 * s2b - 7.53 * cb - 1.5 * sb in
  (* solar correction *)
  let solarCorr := longCorr + eoTCorr in
  (* solar declination *)
  let? s := math_sin (23.45 * degtorad) in
  let? sb' := math_sin b in
  let? declination := math_asin (s * sb') in
  let? tl := math_tan (lat * degtorad) in
  let? td := math_tan declination in
  let? ha := math_acos (- tl * td) in
  let sunrise := 12 - ha * radtodeg / 15 - solarCorr / 60 in
  let? tl' := math_tan (lat * degtorad) in
  let? td' := math_tan declination in
  let? ha' := math_acos (- tl' * td') in
  let sunset := 12 + ha' * radtodeg / 15 - solarCorr / 60 in
  let midnight := date in
  let? dr := timedelta_hours sunrise in
  let? ds := timedelta_hours sunset in
  Ok ((midnight + dr)%Z, (midnight + ds)%Z).

Local Close Scope float_scope.

(** Latitude and longitude of the receiver, [Config.get()["receiver_gps"]]. *)
Class ReceiverConfig : Type := {
  receiver_gps_lat : float;
  receiver_gps_lon : float
}.

Inductive EventType : Type := sunrise_event | sunset_event.

Definition SunEvent : Type := (EventType * datetime)%type.

(** [sorted(l, key=key)]: stable insertion sort. *)
Fixpoint insert_by {A} (key : A -> Z) (x : A) (l : list A) : list A :=
  match l with
  | [] => [x]
  | y :: l' => if key x <=? key y then x :: y :: l' else y :: insert_by key x l'
  end.

Definition sorted_by {A} (key : A -> Z) (l : list A) : list A :=
  fold_right (insert_by key) [] l.

Definition greyLineTime : Z := timedelta 1 0 0.

(** The loop [while len(events) < 1] of [getEntries]: days are tried from
    [offset] on until one has an event that is still in the future. *)
Fixpoint future_events `{PyMath} `{ReceiverConfig} (fuel : nat)
    (date : datetime) (offset : Z) (delta : Z) (now : datetime) : result (list SunEvent) :=
  match fuel with
  | O => Raise Diverged
  | S fuel' =>
      let? times := getSunTimes receiver_gps_lat receiver_gps_lon (date + offset * us_per_day) in
      let (sunrise, sunset) := times : datetime * datetime in
      (* keep only events in the future *)
      let events := List.filter (fun v : SunEvent => now <? snd v + delta)
                                [(sunrise_event, sunrise); (sunset_event, sunset)] in
      match events with
      | [] => future_events fuel' date (offset + 1) delta now
      | _ :: _ => Ok events
      end
  end.

(** The loop [for event in events] of [getEntries]. *)
Fixpoint daylight_entries (schedule : value) (useGreyline : bool) (delta : Z) (now : datetime)
    (previousEvent : option datetime) (events : list SunEvent) : result (list ScheduleEntry) :=
  match events with
  | [] => Ok []
  | (ty, time) :: rest =>
      (* night profile _until_ sunrise, day profile _until_ sunset *)
      let stype := match ty with sunrise_event => "night" | sunset_event => "day" end in
      let? has := py_contains_str stype schedule in
      let? phase :=
        (if (has : bool) && (match previousEvent with Some _ => true | None => now <? time - delta end)
         then
           let start := match previousEvent with None => now | Some p => p end in
           let? profile := py_getitem_str schedule stype in
           Ok [DatetimeScheduleEntry start (time - delta) profile]
         else Ok []) in
      let? grey :=
        (if useGreyline
         then
           let? profile := py_getitem_str schedule "greyline" in
           Ok [DatetimeScheduleEntry (time - delta) (time + delta) profile]
         else Ok []) in
      let? entries := daylight_entries schedule useGreyline delta now (Some (time + delta)) rest in
      Ok (phase ++ grey ++ entries)%list
  end.

Definition daylight_fuel : nat := 366.

(** [DaylightSchedule.getEntries] *)
Definition DaylightSchedule_getEntries `{PyMath} `{ReceiverConfig}
    (schedule : value) (now : datetime) : result (list ScheduleEntry) :=
  let date := date_of now in
  (* greyline is optional, if it is set it will shorten the other profiles *)
  let? useGreyline := py_contains_str "greyline" schedule in
  let delta := if (useGreyline : bool) then greyLineTime else 0 in
  (* we need to start yesterday for longitudes close to the date line *)
  let? events := future_events daylight_fuel date (-1) delta now in
  let events := sorted_by snd events in
  daylight_entries schedule useGreyline delta now None events.

(** *** The schedule strategies and their factory *)

Inductive Schedule : Type :=
| StaticSchedule (entries : list ScheduleEntry)
| DaylightSchedule (schedule : value)
| Rotation (r : RotationSchedule).

(** [TimerangeSchedule.getCurrentEntry] and [getNextEntry], on the result of
    [getEntries()]. *)
Definition Timerange_getCurrentEntry (entries : list ScheduleEntry) (now : datetime)
  : option ScheduleEntry :=
  match List.filter (fun p => isCurrent p now) entries with
  | p :: _ => Some p
  | [] => None
  end.

Definition Timerange_getNextEntry (entries : list ScheduleEntry) (now : datetime)
  : option ScheduleEntry :=
  match sorted_by (fun e => getNextActivation e now) entries with
  | e :: _ => Some e
  | [] => None
  end.

(** [schedule.getCurrentEntry()] and [schedule.getNextEntry()], by dynamic
    dispatch: the schedule after the call and the value returned. *)
Definition Schedule_getCurrentEntry `{PyMath} `{ReceiverConfig} (s : Schedule) (now : datetime)
  : Schedule * result (option ScheduleEntry) :=
  match s with
  | StaticSchedule entries => (s, Ok (Timerange_getCurrentEntry entries now))
  | DaylightSchedule d =>
      (s, let? entries := DaylightSchedule_getEntries d now in
          Ok (Timerange_getCurrentEntry entries now))
  | Rotation r =>
      let (r', res) := RotationSchedule_getCurrentEntry r now in (Rotation r', res)
  end.

Definition Schedule_getNextEntry `{PyMath} `{ReceiverConfig} (s : Schedule) (now : datetime)
  : Schedule * result (option ScheduleEntry) :=
  match s with
  | StaticSchedule entries => (s, Ok (Timerange_getNextEntry entries now))
  | DaylightSchedule d =>
      (s, let? entries := DaylightSchedule_getEntries d now in
          Ok (Timerange_getNextEntry entries now))
  | Rotation r =>
      let (r', res) := RotationSchedule_getNextEntry r now in (Rotation r', res)
  end.

(** [Schedule.parse(props)]; [None] is the value of a call that falls off the
    end of the function. *)
Definition Schedule_parse (props : dict) : result (option Schedule) :=
  if dict_has "scheduler" props then
    let? sc := py_getitem_str (VDict props) "scheduler" in
    let? hasType := py_contains_str "type" sc in
    let? t := (if hasType : bool then py_getitem_str sc "type" else Ok (VStr "static")) in
    if py_eq_str t "static" then
      let? d := py_getitem_str sc "schedule" in
      let? entries := StaticSchedule_init d in
      Ok (Some (StaticSchedule entries))
    else if py_eq_str t "daylight" then
      let? d := py_getitem_str sc "schedule" in
      Ok (Some (DaylightSchedule d))
    else if py_eq_str t "rotation" then
      let? d := py_getitem_str sc "schedule" in
      let? r := RotationSchedule_init d in
      Ok (Some (Rotation r))
    else
      (* logger.warning("Invalid scheduler type: %s", t) *)
      Ok None
  (* downwards compatibility *)
  else if dict_has "schedule" props then
    let? d := py_getitem_str (VDict props) "schedule" in
    let? entries := StaticSchedule_init d in
    Ok (Some (StaticSchedule entries))
  else Ok None.

(** ** The managed source and the timer facility *)

(** Modelled from the spec: the enumerations of [owrx.source], which is not
    part of the sources at hand.  The scheduler only tests for [USER],
    [STOPPING] and [IDLE], and answers [INACTIVE] or [BACKGROUND]. *)
Inductive SdrClientClass : Type := INACTIVE | BACKGROUND | USER.
Inductive SdrSourceState : Type := STOPPED | STARTING | RUNNING | STOPPING | TUNING.
Inductive SdrBusyState : Type := IDLE | BUSY.

(** Modelled from the spec: the source object ([owrx.source.SdrSource]) the
    scheduler manages, at its interface.  Queries read the state of the
    source; commands change it and may raise.  [activateProfile] raises
    [KeyError] for a profile the source does not have. *)
Class SdrSource : Type := {
  source_state : Type;
  isEnabled : source_state -> bool;
  isFailed : source_state -> bool;
  hasClients : SdrClientClass -> source_state -> bool;
  getProps : source_state -> dict;
  activateProfile : value -> source_state -> source_state * result unit;
  start : source_state -> source_state * result unit;
  checkStatus : source_state -> source_state * result unit;
  removeClient : source_state -> source_state * result unit
}.

(** A [threading.Timer] that has been started: it waits [timer_interval]
    from the instant [timer_started], then runs its function unless it has
    been cancelled in between. *)
Inductive TimerStatus : Type := Armed | Cancelled | Fired.

Record Timer : Type := mkTimer {
  timer_interval : Z;
  timer_started : datetime;
  timer_status : TimerStatus
}.

(** [Timer.cancel()] stops a timer that is still waiting. *)
Definition Timer_cancel (t : Timer) : Timer :=
  match timer_status t with
  | Armed => mkTimer (timer_interval t) (timer_started t) Cancelled
  | _ => t
  end.

Definition Timer_fire (t : Timer) : Timer :=
  mkTimer (timer_interval t) (timer_started t) Fired.

Definition is_armed (t : Timer) : bool :=
  match timer_status t with Armed => true | _ => false end.

(** The instant an armed timer runs its function. *)
Definition timer_due (t : Timer) : datetime := timer_started t + timer_interval t.

(** The commands the scheduler sends to its collaborators, logged in the
    order they are sent. *)
Inductive Call : Type :=
| CallAddClient
| CallActivateProfile (profile : value)
| CallStart
| CallCheckStatus
| CallRemoveClient
| CallCancelSubscription (id : nat).

(** ** ServiceScheduler *)

Section ServiceScheduler.
Context `{Src : SdrSource} `{Mth : PyMath} `{Cfg : ReceiverConfig}.

(** The fields of a [ServiceScheduler] object, together with the objects it
    refers to: the source, the timers it has created (a timer is referred to
    by its position in [timers]) and the log of commands sent. *)
Record State : Type := mkState {
  source : source_state;
  selectionTimer : option nat;
  currentEntry : option ScheduleEntry;
  schedule : option Schedule;
  subscriptions : list nat;
  timers : list Timer;
  calls : list Call
}.

Definition set_source (x : source_state) (st : State) : State :=
  mkState x (selectionTimer st) (currentEntry st) (schedule st) (subscriptions st)
          (timers st) (calls st).
Definition set_selectionTimer (x : option nat) (st : State) : State :=
  mkState (source st) x (currentEntry st) (schedule st) (subscriptions st)
          (timers st) (calls st).
Definition set_currentEntry (x : option ScheduleEntry) (st : State) : State :=
  mkState (source st) (selectionTimer st) x (schedule st) (subscriptions st)
          (timers st) (calls st).
Definition set_schedule (x : option Schedule) (st : State) : State :=
  mkState (source st) (selectionTimer st) (currentEntry st) x (subscriptions st)
          (timers st) (calls st).
Definition set_subscriptions (x : list nat) (st : State) : State :=
  mkState (source st) (selectionTimer st) (currentEntry st) (schedule st) x
          (timers st) (calls st).
Definition set_timers (x : list Timer) (st : State) : State :=
  mkState (source st) (selectionTimer st) (currentEntry st) (schedule st) (subscriptions st)
          x (calls st).
Definition log_call (c : Call) (st : State) : State :=
  mkState (source st) (selectionTimer st) (currentEntry st) (schedule st) (subscriptions st)
          (timers st) (calls st ++ [c]).

(** A method: from the state before to the state after and the outcome. *)
Definition M (A : Type) : Type := State -> State * result A.

Definition ret {A} (a : A) : M A := fun st => (st, Ok a).

Definition bind {A B} (m : M A) (k : A -> M B) : M B :=
  fun st => match m st with
            | (st', Ok a) => k a st'
            | (st', Raise e) => (st', Raise e)
            end.

Definition gets {A} (f : State -> A) : M A := fun st => (st, Ok (f st)).
Definition modify (f : State -> State) : M unit := fun st => (f st, Ok tt).

Notation "x <- c1 ;; c2" := (bind c1 (fun x => c2))
  (at level 100, c1 at next level, c2 at level 200, right associativity).
Notation "c1 ;; c2" := (bind c1 (fun _ => c2))
  (at level 100, c2 at level 200, right associativity).

(** A command sent to the source. *)
Definition call_source (c : Call) (op : source_state -> source_state * result unit) : M unit :=
  fun st => let (s', r) := op (source st) in (set_source s' (log_call c st), r).

(** A method of [self.schedule]; there is no such method on [None]. *)
Definition call_schedule {A} (f : Schedule -> datetime -> Schedule * result A) (now : datetime)
  : M A :=
  fun st => match schedule st with
            | Some s => let (s', r) := f s now in (set_schedule (Some s') st, r)
            | None => (st, Raise AttributeError)
            end.

(** [try: body  except KeyError: pass] *)
Definition try_except_KeyError (body : M unit) : M unit :=
  fun st => match body st with
            | (st', Raise KeyError) => (st', Ok tt)
            | r => r
            end.

Definition cancelTimer : M unit :=
  t <- gets selectionTimer ;;
  match t with
  | Some i => modify (fun st => set_timers (alter Timer_cancel i (timers st)) st)
  | None => ret tt
  end.

(** [threading.Timer(seconds, self.selectProfile)] followed by [start()]:
    a new armed timer, kept in [self.selectionTimer]. *)
Definition start_timer (seconds : Z) (now : datetime) : M unit :=
  modify (fun st => set_selectionTimer (Some (length (timers st)))
                      (set_timers (timers st ++ [mkTimer seconds now Armed]) st)).

Definition scheduleSelection (time : option datetime) (now : datetime) : M unit :=
  enabled <- gets (fun st => isEnabled (source st)) ;;
  failed <- gets (fun st => isFailed (source st)) ;;
  if negb enabled || failed then ret tt
  else
    let seconds := match time with
                   | Some t => t - now
                   | None => timedelta 0 0 10
                   end in
    cancelTimer ;;
    start_timer seconds now.

Definition getClientClass (st : State) : SdrClientClass :=
  match currentEntry st with
  | None => INACTIVE
  | Some _ => BACKGROUND
  end.

Definition _setCurrentEntry (entry : option ScheduleEntry) (now : datetime) : M unit :=
  modify (set_currentEntry entry) ;;
  match entry with
  | Some e =>
      scheduleSelection (Some (getScheduledEnd e now)) now ;;
      try_except_KeyError
        (call_source (CallActivateProfile (getProfile e)) (activateProfile (getProfile e)) ;;
         call_source CallStart start)
  | None => ret tt
  end ;;
  (* tell the source to re-evaluate its current status *)
  call_source CallCheckStatus checkStatus.

Definition selectProfile (now : datetime) : M unit :=
  users <- gets (fun st => hasClients USER (source st)) ;;
  if users : bool then ret tt
  else
    sch <- gets schedule ;;
    match sch with
    | None => _setCurrentEntry None now
    | Some _ =>
        entry <- call_schedule Schedule_getCurrentEntry now ;;
        _setCurrentEntry entry now ;;
        cur <- gets currentEntry ;;
        match cur with
        | None =>
            nextEntry <- call_schedule Schedule_getNextEntry now ;;
            match nextEntry with
            | Some n => scheduleSelection (Some (getNextActivation n now)) now
            | None => ret tt
            end
        | Some _ => ret tt
        end
    end.

Definition parseSchedule (now : datetime) : M unit :=
  props <- gets (fun st => getProps (source st)) ;;
  parsed <- (fun st => (st, Schedule_parse props)) ;;
  modify (set_schedule parsed) ;;
  scheduleSelection None now.

(** [while self.subscriptions: self.subscriptions.pop().cancel()] *)
Fixpoint cancel_subscriptions (popped : list nat) : M unit :=
  match popped with
  | [] => ret tt
  | id :: rest =>
      modify (fun st => set_subscriptions (removelast (subscriptions st)) st) ;;
      modify (log_call (CallCancelSubscription id)) ;;
      cancel_subscriptions rest
  end.

Definition shutdown : M unit :=
  subs <- gets subscriptions ;;
  cancel_subscriptions (rev subs) ;;
  cancelTimer ;;
  call_source CallRemoveClient removeClient.

Definition onStateChange (state : SdrSourceState) (now : datetime) : M unit :=
  match state with
  | STOPPING => scheduleSelection None now
  | _ => ret tt
  end.

Definition onFail : M unit := shutdown.
Definition onShutdown : M unit := shutdown.
Definition onDisable : M unit := cancelTimer.
Definition onEnable (now : datetime) : M unit := scheduleSelection None now.

Definition onBusyStateChange (state : SdrBusyState) (now : datetime) : M unit :=
  match state with
  | IDLE => scheduleSelection None now
  | BUSY => ret tt
  end.

Definition onFrequencyChange (now : datetime) : M unit := scheduleSelection None now.

(** The thread of timer [i]: when the timer is still armed at the end of its
    wait, it runs [selectProfile]. *)
Definition timer_fires (i : nat) (now : datetime) : M unit :=
  fun st => match timers st !! i with
            | Some t =>
                if is_armed t
                then selectProfile now (set_timers (<[i := Timer_fire t]> (timers st)) st)
                else (st, Ok tt)
            | None => (st, Ok tt)
            end.

(** [ServiceScheduler(source)].  [__init__] registers the scheduler as a
    client of the source and wires [onFrequencyChange] (subscription 0);
    [wireProperty] then calls [parseSchedule] with the initial value, and the
    subscription it returns (subscription 1) is kept once that call is back.
    The source and the first subscription refer to the scheduler from then
    on, also when [parseSchedule] has raised. *)
Definition new_ServiceScheduler (src : source_state) : State :=
  mkState src None None None [0%nat] [] [CallAddClient].

Definition ServiceScheduler_init (src : source_state) (now : datetime) : State * result unit :=
  (parseSchedule now ;;
   modify (fun st => set_subscriptions (subscriptions st ++ [1%nat]) st))
    (new_ServiceScheduler src).

(** What can happen to a scheduler during its life: a call of one of its
    methods by the source, the property store or a timer thread, or a change
    of the source by somebody else. *)
Inductive Operation : Type :=
| OpParseSchedule
| OpSelectProfile
| OpShutdown
| OpOnStateChange (state : SdrSourceState)
| OpOnFail
| OpOnShutdown
| OpOnDisable
| OpOnEnable
| OpOnBusyStateChange (state : SdrBusyState)
| OpOnFrequencyChange
| OpTimerFires (i : nat)
| OpSourceChanges (src : source_state).

Definition run (op : Operation) (now : datetime) : M unit :=
  match op with
  | OpParseSchedule => parseSchedule now
  | OpSelectProfile => selectProfile now
  | OpShutdown => shutdown
  | OpOnStateChange state => onStateChange state now
  | OpOnFail => onFail
  | OpOnShutdown => onShutdown
  | OpOnDisable => onDisable
  | OpOnEnable => onEnable now
  | OpOnBusyStateChange state => onBusyStateChange state now
  | OpOnFrequencyChange => onFrequencyChange now
  | OpTimerFires i => timer_fires i now
  | OpSourceChanges src => modify (set_source src)
  end.

(** The states a scheduler can be in when its operations run one at a
    time: after construction, and after any operation, whether it returned
    or raised. *)
Inductive reachable : State -> Prop :=
| reachable_init src now : reachable (fst (ServiceScheduler_init src now))
| reachable_step st op now : reachable st -> reachable (fst (run op now st)).

(** The number of timers that are waiting to fire. *)
Definition armed_timers (st : State) : nat :=
  length (List.filter is_armed (timers st)).

(** Every timer that is waiting to fire is the one [selectionTimer] refers
    to. *)
Definition only_selection_armed (sel : option nat) (ts : list Timer) : Prop :=
  forall i t, ts !! i = Some t -> is_armed t = true -> sel = Some i.

Definition timer_invariant (st : State) : Prop :=
  only_selection_armed (selectionTimer st) (timers st).

(** The source is disabled or has failed. *)
Definition source_down (s : source_state) : bool := negb (isEnabled s) || isFailed s.

(** The commands of the source that the scheduler sends. *)
Inductive source_command : (source_state -> source_state * result unit) -> Prop :=
| command_activateProfile p : source_command (activateProfile p)
| command_start : source_command start
| command_checkStatus : source_command checkStatus
| command_removeClient : source_command removeClient.


(** The timers after [cancelTimer]. *)
Definition cancel_selection (st : State) : list Timer :=
  match selectionTimer st with
  | Some i => alter Timer_cancel i (timers st)
  | None => timers st
  end.

(** The state after [scheduleSelection(time)] on a source that is enabled
    and has not failed. *)
Definition selection_armed (time : option datetime) (now : datetime) (st : State) : State :=
  let seconds := match time with Some t => t - now | None => timedelta 0 0 10 end in
  set_selectionTimer (Some (length (cancel_selection st)))
    (set_timers (cancel_selection st ++ [mkTimer seconds now Armed]) st).

(** The activation of a profile in [_setCurrentEntry], from the [try]
    statement on. *)
Definition activation (profile : value) : M unit :=
  try_except_KeyError
    (call_source (CallActivateProfile profile) (activateProfile profile) ;;
     call_source CallStart start) ;;
  call_source CallCheckStatus checkStatus.


(** A method keeps a property of the state, whether it returns or raises. *)
Definition preserves {A} (P : State -> Prop) (m : M A) : Prop :=
  forall st, P st -> P (fst (m st)).

End ServiceScheduler.

(** ** Predicates used to state the properties *)

(** Both halves of a window token "HHMM-HHMM" are times [strptime] accepts. *)
Definition window_ok (time : string) : bool :=
  match strptime_HM (String.substring 0 4 time), strptime_HM (String.substring 5 4 time) with
  | Ok _, Ok _ => true
  | _, _ => false
  end.

(** A window token is either of the wrong length (and will be skipped) or
    of length nine with two valid times. *)
Definition window_accepted (item : string * value) : bool :=
  negb (String.length (fst item) =? 9)%nat || window_ok (fst item).

Definition has_window_length (item : string * value) : bool :=
  (String.length (fst item) =? 9)%nat.

(** A configuration with a window that ends at "2400". *)
Definition config_2400 : dict :=
  [("scheduler", VDict [("type", VStr "static");
                        ("schedule", VDict [("0600-2400", VStr "wfm")])])].

(** The rotation after [getCurrentEntry] has been read at each of [times],
    in this order. *)
Definition rotation_reads (rs : RotationSchedule) (times : list datetime) : RotationSchedule :=
  fold_left (fun r t => fst (RotationSchedule_getCurrentEntry r t)) times rs.

(** The instants [t0], [t0 + d], ..., [t0 + (k-1) d]. *)
Definition dwell_ends (t0 : datetime) (d : Z) (k : nat) : list datetime :=
  map (fun j => t0 + Z.of_nat j * d) (seq 0 k).

(** The rotation [{"profiles": ["a", "b"], "interval": 5}]. *)
Definition rotation_ab : value :=
  VDict [("profiles", VList [VStr "a"; VStr "b"]); ("interval", VInt 5)].

(** ** An implementation of the [math] interface

    Power series on binary64 floats, precise enough to run the solar
    computation on examples. *)

Local Open Scope float_scope.

(** [sum_(n < terms) term_n] where [term_(n+1) = term_n * ratio n]. *)
Fixpoint series (terms : nat) (n : Z) (term : float) (ratio : Z -> float) (acc : float) : float :=
  match terms with
  | O => acc
  | S terms' => series terms' (n + 1)%Z (term * ratio n) ratio (acc + term)
  end.

Definition series_sin (x : float) : float :=
  series 40 0 x (fun n => - (x * x) / float_of_Z ((2 * n + 2) * (2 * n + 3))) 0.

Definition series_cos (x : float) : float :=
  series 40 0 1 (fun n => - (x * x) / float_of_Z ((2 * n + 1) * (2 * n + 2))) 0.

Definition series_asin (x : float) : float :=
  series 200 0 x
         (fun n => x * x * float_of_Z ((2 * n + 1) * (2 * n + 1))
                   / float_of_Z ((2 * n + 2) * (2 * n + 3))) 0.

Definition finite_arg (f : float -> float) (x : float) : result float :=
  if PrimFloat.is_infinity x then Raise ValueError else Ok (f x).

Definition unit_arg (f : float -> float) (x : float) : result float :=
  if outside_unit x then Raise ValueError else Ok (f x).

(** The largest integer below [2^bits] whose float is at most [x]. *)
Fixpoint floor_bits (bits : nat) (acc : Z) (x : float) : Z :=
  match bits with
  | O => acc
  | S bits' =>
      let candidate := (acc + 2 ^ Z.of_nat bits')%Z in
      if float_of_Z candidate <=? x then floor_bits bits' candidate x
      else floor_bits bits' acc x
  end.

Definition round_hours (h : float) : result Z :=
  let us := h * 3600000000 in
  if PrimFloat.is_nan us then Raise ValueError
  else if 0 <=? us then Ok (floor_bits 50 0 (us + 0.5))
  else Ok (- floor_bits 50 0 (- us + 0.5))%Z.

#[local] Instance series_math : PyMath := {|
  math_sin := finite_arg series_sin;
  math_cos := finite_arg series_cos;
  math_tan := finite_arg (fun x => series_sin x / series_cos x);
  math_asin := unit_arg series_asin;
  math_acos := unit_arg (fun y => math_pi / 2 - series_asin y);
  timedelta_hours := round_hours;
  math_acos_domain := fun x H =>
    @eq_ind_r bool true
      (fun b : bool =>
         (if b then Raise ValueError else Ok (math_pi / 2 - series_asin x)) = Raise ValueError)
      eq_refl (outside_unit x) H
|}.

Local Close Scope float_scope.

(** Midnight of 2024-06-21 and of 2024-12-21. *)
Definition midsummer_2024 : datetime := 19895 * us_per_day.
Definition midwinter_2024 : datetime := 20078 * us_per_day.

(** ** A source to run the scheduler on

    A source that knows a list of profile names; [activateProfile] raises
    [KeyError] for any other profile, and [start] raises the error the
    source is set up with, if any. *)
Record ToySource : Type := mkToy {
  toy_enabled : bool;
  toy_failed : bool;
  toy_users : bool;
  toy_props : dict;
  toy_profiles : list string;
  toy_start_error : option exn
}.

Definition toy_activateProfile (p : value) (s : ToySource) : ToySource * result unit :=
  match p with
  | VStr name => if existsb (String.eqb name) (toy_profiles s) then (s, Ok tt)
                 else (s, Raise KeyError)
  | _ => (s, Raise KeyError)
  end.

Definition toy_start (s : ToySource) : ToySource * result unit :=
  match toy_start_error s with
  | Some e => (s, Raise e)
  | None => (s, Ok tt)
  end.

#[local] Instance toy_source : SdrSource := {|
  source_state := ToySource;
  isEnabled := toy_enabled;
  isFailed := toy_failed;
  hasClients := fun c s => match c with USER => toy_users s | _ => false end;
  getProps := toy_props;
  activateProfile := toy_activateProfile;
  start := toy_start;
  checkStatus := fun s => (s, Ok tt);
  removeClient := fun s => (s, Ok tt)
|}.

#[local] Instance london : ReceiverConfig := {|
  receiver_gps_lat := 51.5%float;
  receiver_gps_lon := (-0.13)%float
|}.

(** The static schedule [{"0600-1800": "wfm"}]. *)
Definition config_wfm : dict :=
  [("scheduler", VDict [("type", VStr "static");
                        ("schedule", VDict [("0600-1800", VStr "wfm")])])].

Definition entry_wfm : ScheduleEntry :=
  TimeScheduleEntry (mk_time 6 0) (mk_time 18 0) (VStr "wfm").

(** An idle, enabled source that has the profile "wfm". *)
Definition source_wfm : ToySource := mkToy true false false config_wfm ["wfm"] None.

(** Midnight of a day, and 07:00 and 18:00 on it. *)
Definition some_day : datetime := 20000 * us_per_day.
Definition at_0700 : datetime := some_day + timedelta 7 0 0.
Definition at_1800 : datetime := some_day + timedelta 18 0 0.

(** Variants of the source: a user is connected; the source is disabled; the
    source does not have the profile "wfm"; [start] fails with an error that
    is not a [KeyError]. *)
Definition source_busy : ToySource := mkToy true false true config_wfm ["wfm"] None.
Definition source_disabled : ToySource := mkToy false false false config_wfm ["wfm"] None.
Definition source_no_profile : ToySource := mkToy true false false config_wfm [] None.
Definition source_broken : ToySource :=
  mkToy true false false config_wfm ["wfm"] (Some RuntimeError).

(** A scheduler created ten seconds before 07:00 on the given source. *)
Definition at_0659_50 : datetime := at_0700 - timedelta 0 0 10.

Definition scheduler_on (src : ToySource) : State :=
  fst (ServiceScheduler_init src at_0659_50).

(** ** Further definitions used to state properties of the schedules *)

(** The two digits of a number below 100, as [%H] and [%M] are written. *)
Definition digit_char (d : Z) : ascii := ascii_of_nat (Z.to_nat (48 + d)).

Definition two_digits (n : Z) : string :=
  String (digit_char (n / 10)) (String (digit_char (n mod 10)) EmptyString).

(** A window token: two times of day and the character between them. *)
Definition window_token (h1 m1 : Z) (sep : ascii) (h2 m2 : Z) : string :=
  (two_digits h1 ++ two_digits m1 ++ String sep (two_digits h2 ++ two_digits m2))%string.

(** The result is the value [a]. *)
Definition result_is {A} (eqb : A -> A -> bool) (r : result A) (a : A) : bool :=
  match r with Ok x => eqb x a | Raise _ => false end.

(** The type of schedule a scheduler block asks for: the value of its
    [type] key, ["static"] when there is none. *)
Definition schedule_type (sc : dict) : value :=
  match dict_get "type" sc with
  | Some t => t
  | None => VStr "static"
  end.

Definition known_schedule_type (t : value) : bool :=
  py_eq_str t "static" || py_eq_str t "daylight" || py_eq_str t "rotation".

Definition is_dict (v : value) : bool :=
  match v with VDict _ => true | _ => false end.

(** A rotation over the list [ps] with an interval of [I] seconds whose
    cursor is inside the list. *)
Definition rotation_over (ps : list value) (I : Z) (rs : RotationSchedule) : Prop :=
  profiles rs = VList ps /\ interval rs = VInt I /\
  0 <= current_index rs < Z.of_nat (List.length ps).

(** The entries follow one another from [start] on: each one starts where
    the one before it ends. *)
Fixpoint chained (start : Z) (entries : list ScheduleEntry) : Prop :=
  match entries with
  | [] => True
  | e :: rest => startTime e = start /\ chained (endTime e) rest
  end.

(** A daylight schedule with the profiles of the three phases. *)
Definition daylight_config : dict :=
  [("day", VStr "hf_day"); ("night", VStr "hf_night"); ("greyline", VStr "hf_grey")].

(** The operations that ask for a re-evaluation in ten seconds. *)
Definition is_trigger `{Src : SdrSource} (op : @Operation Src) : bool :=
  match op with
  | OpOnEnable | OpOnFrequencyChange | OpOnBusyStateChange IDLE | OpOnStateChange STOPPING => true
  | _ => false
  end.

(** A time-of-day entry whose start and end are times of the day. *)
Definition time_entry_in_day (e : ScheduleEntry) : Prop :=
  match e with
  | TimeScheduleEntry s t _ => 0 <= s < us_per_day /\ 0 <= t < us_per_day
  | _ => False
  end.

(** ** A finer model: the range of instants, clock readings and threads

    The definitions above give each method call one clock value, leave the
    range of [datetime] out and run one call after the other.  The
    definitions of this part lift these conventions where a property
    depends on them.
    - An addition that leaves the range of [timedelta] or of [datetime]
      raises [OverflowError]; the rotation adds its interval, a value of the
      configuration, to the clock.
    - Every [datetime.utcnow()] of a call is a reading of its own: the
      readings of a call are [clock k], [clock (k + 1)], ... in the order
      the code takes them, and a function returns the number of the next
      reading along with its result.
    - The class has no lock: threads run [scheduleSelection] statement by
      statement, and another thread may run between two statements. *)

(** *** The range of [timedelta] and [datetime] *)

(** [datetime.min] and [datetime.max]: 0001-01-01 00:00:00 and
    9999-12-31 23:59:59.999999, in microseconds since 1970-01-01. *)
Definition datetime_min : datetime := -719162 * us_per_day.
Definition datetime_max : datetime := 2932897 * us_per_day - 1.

(** The microseconds a [timedelta] can hold: at most 999999999 days either
    way. *)
Definition timedelta_min : Z := -999999999 * us_per_day.
Definition timedelta_max : Z := 1000000000 * us_per_day - 1.

(** [timedelta(seconds=v)], with the limit of [timedelta]. *)
Definition timedelta_seconds_checked (v : value) : result Z :=
  let? d := timedelta_seconds v in
  if (timedelta_min <=? d) && (d <=? timedelta_max) then Ok d else Raise OverflowError.

(** [dt + delta]: the sum has to be a [datetime]. *)
Definition datetime_add (dt : datetime) (delta : Z) : result datetime :=
  if (datetime_min <=? dt + delta) && (dt + delta <=? datetime_max)
  then Ok (dt + delta)
  else Raise OverflowError.

(** [RotationSchedule.getCurrentEntry] with its two clock readings, [now]
    in the method and [start] in the constructor of the entry, and with the
    range of the sum [now + timedelta(seconds=self.interval)]. *)
Definition RotationSchedule_getCurrentEntry_clock
    (self : RotationSchedule) (now start : datetime)
  : RotationSchedule * result (option ScheduleEntry) :=
  if negb (py_truth (profiles self)) then (self, Ok None)
  else
    (* advance to the next profile when the current one has expired *)
    let expired := match current_end_time self with
                   | Some t => t <=? now
                   | None => false
                   end in
    let advanced : RotationSchedule * result unit :=
      if expired then
        match py_len (profiles self) with
        | Ok n =>
            (mkRotation (profiles self) (interval self)
                        ((current_index self + 1) mod n) None, Ok tt)
        | Raise e => (self, Raise e)
        end
      else (self, Ok tt) in
    match advanced with
    | (self1, Raise e) => (self1, Raise e)
    | (self1, Ok _) =>
        (* set the end time when there is none *)
        let armed : RotationSchedule * result datetime :=
          match current_end_time self1 with
          | None =>
              match (let? d := timedelta_seconds_checked (interval self1) in
                     datetime_add now d) with
              | Ok end_time =>
                  let self2 := mkRotation (profiles self1) (interval self1)
                                          (current_index self1) (Some end_time) in
                  (* the arguments of logger.info index the profile list *)
                  (self2,
                   let? _ := py_getitem_int (profiles self2) (current_index self2) in
                   Ok end_time)
              | Raise e => (self1, Raise e)
              end
          | Some t => (self1, Ok t)
          end in
        match armed with
        | (self2, Raise e) => (self2, Raise e)
        | (self2, Ok end_time) =>
            (self2,
             let? profile := py_getitem_int (profiles self2) (current_index self2) in
             Ok (Some (new_RotationScheduleEntry start profile end_time)))
        end
    end.

(** [RotationSchedule.getNextEntry] in the same way: [now] is read only
    when there is no end time. *)
Definition RotationSchedule_getNextEntry_clock
    (self : RotationSchedule) (now start : datetime)
  : RotationSchedule * result (option ScheduleEntry) :=
  if negb (py_truth (profiles self)) then (self, Ok None)
  else
    (self,
     let? n := py_len (profiles self) in
     let next_index := (current_index self + 1) mod n in
     let next_start := match current_end_time self with
                       | Some t => t
                       | None => now
                       end in
     let? d := timedelta_seconds_checked (interval self) in
     let? next_end := datetime_add next_start d in
     let? profile := py_getitem_int (profiles self) next_index in
     Ok (Some (new_RotationScheduleEntry start profile next_end))).

(** The rotation after a history of reads, each with its two readings. *)
Definition rotation_reads_clock (rs : RotationSchedule) (reads : list (datetime * datetime))
  : RotationSchedule :=
  fold_left (fun r t => fst (RotationSchedule_getCurrentEntry_clock r (fst t) (snd t))) reads rs.

(** The sum [now + timedelta(seconds=I)] exists. *)
Definition dwell_in_range (now : datetime) (I : Z) : Prop :=
  timedelta_min <= I * us_per_second <= timedelta_max /\
  datetime_min <= now + I * us_per_second <= datetime_max.

(** A read at [now] has to set a new end time: there is none, or the one
    there is has passed. *)
Definition starts_dwell (rs : RotationSchedule) (now : datetime) : Prop :=
  match current_end_time rs with
  | Some t => t <= now
  | None => True
  end.

(** *** The clock readings of a call *)

Section Clock.
Context `{Src : SdrSource} `{Mth : PyMath} `{Cfg : ReceiverConfig}.
Variable clock : nat -> datetime.

(** [entry.getScheduledEnd()] and [entry.getNextActivation()]: an entry of
    times of day reads the clock, the others do not. *)
Definition getScheduledEnd_clock (e : ScheduleEntry) (k : nat) : nat * datetime :=
  match e with
  | TimeScheduleEntry _ _ _ => (S k, getScheduledEnd e (clock k))
  | DatetimeScheduleEntry _ _ _ | RotationScheduleEntry _ _ _ =>
      (k, getScheduledEnd e (clock k))
  end.

Definition getNextActivation_clock (e : ScheduleEntry) (k : nat) : nat * datetime :=
  match e with
  | TimeScheduleEntry _ _ _ => (S k, getNextActivation e (clock k))
  | DatetimeScheduleEntry _ _ _ | RotationScheduleEntry _ _ _ =>
      (k, getNextActivation e (clock k))
  end.

(** [[p for p in entries if p.isCurrent(datetime.utcnow())]]: one reading
    for each entry. *)
Fixpoint current_entries (entries : list ScheduleEntry) (k : nat) : list ScheduleEntry :=
  match entries with
  | [] => []
  | p :: rest =>
      if isCurrent p (clock k) then p :: current_entries rest (S k)
      else current_entries rest (S k)
  end.

Definition Timerange_getCurrentEntry_clock (entries : list ScheduleEntry) (k : nat)
  : nat * option ScheduleEntry :=
  ((k + length entries)%nat,
   match current_entries entries k with
   | p :: _ => Some p
   | [] => None
   end).

(** The keys [e.getNextActivation()] that [sorted] computes, one entry after
    the other, before it sorts. *)
Fixpoint activation_keys (entries : list ScheduleEntry) (k : nat)
  : nat * list (datetime * ScheduleEntry) :=
  match entries with
  | [] => (k, [])
  | e :: rest =>
      let (k1, key) := getNextActivation_clock e k in
      let (k2, keyed) := activation_keys rest k1 in
      (k2, (key, e) :: keyed)
  end.

Definition Timerange_getNextEntry_clock (entries : list ScheduleEntry) (k : nat)
  : nat * option ScheduleEntry :=
  let (k', keyed) := activation_keys entries k in
  (k',
   match sorted_by fst keyed with
   | (_, e) :: _ => Some e
   | [] => None
   end).

(** [schedule.getCurrentEntry()] and [schedule.getNextEntry()]: the number
    of the next reading, the schedule after the call and the value
    returned.  [DaylightSchedule.getEntries] reads the clock once; a
    rotation reads it in the method and again when it constructs the
    entry. *)
Definition Schedule_getCurrentEntry_clock (s : Schedule) (k : nat)
  : nat * Schedule * result (option ScheduleEntry) :=
  match s with
  | StaticSchedule entries =>
      let (k', r) := Timerange_getCurrentEntry_clock entries k in (k', s, Ok r)
  | DaylightSchedule d =>
      match DaylightSchedule_getEntries d (clock k) with
      | Ok entries =>
          let (k', r) := Timerange_getCurrentEntry_clock entries (S k) in (k', s, Ok r)
      | Raise e => (S k, s, Raise e)
      end
  | Rotation r =>
      if negb (py_truth (profiles r)) then (k, s, Ok None)
      else
        let (r', res) := RotationSchedule_getCurrentEntry_clock r (clock k) (clock (S k)) in
        (match res with Ok _ => S (S k) | Raise _ => S k end, Rotation r', res)
  end.

Definition Schedule_getNextEntry_clock (s : Schedule) (k : nat)
  : nat * Schedule * result (option ScheduleEntry) :=
  match s with
  | StaticSchedule entries =>
      let (k', r) := Timerange_getNextEntry_clock entries k in (k', s, Ok r)
  | DaylightSchedule d =>
      match DaylightSchedule_getEntries d (clock k) with
      | Ok entries =>
          let (k', r) := Timerange_getNextEntry_clock entries (S k) in (k', s, Ok r)
      | Raise e => (S k, s, Raise e)
      end
  | Rotation r =>
      if negb (py_truth (profiles r)) then (k, s, Ok None)
      else
        (* the method reads the clock when there is no end time, after it
           has taken the length of the profile list *)
        let k1 := match current_end_time r, py_len (profiles r) with
                  | None, Ok _ => S k
                  | _, _ => k
                  end in
        let (r', res) := RotationSchedule_getNextEntry_clock r (clock k) (clock k1) in
        (match res with Ok _ => S k1 | Raise _ => k1 end, Rotation r', res)
  end.

(** A method that reads the clock: from the number of the next reading and
    the state before to those after and the outcome. *)
Definition K (A : Type) : Type := nat -> State -> nat * State * result A.

Definition kret {A} (a : A) : K A := fun k st => (k, st, Ok a).

Definition kbind {A B} (m : K A) (f : A -> K B) : K B :=
  fun k st => match m k st with
              | (k', st', Ok a) => f a k' st'
              | (k', st', Raise e) => (k', st', Raise e)
              end.

(** A method that does not read the clock. *)
Definition lift {A} (m : M A) : K A :=
  fun k st => let (st', r) := m st in (k, st', r).

(** [datetime.utcnow()] *)
Definition utcnow : K datetime := fun k st => (S k, st, Ok (clock k)).

(** A method of an entry. *)
Definition call_entry (f : nat -> nat * datetime) : K datetime :=
  fun k st => let (k', t) := f k in (k', st, Ok t).

(** A method of [self.schedule]; there is no such method on [None]. *)
Definition call_schedule_clock {A} (f : Schedule -> nat -> nat * Schedule * result A) : K A :=
  fun k st => match schedule st with
              | Some s =>
                  let (ks, r) := f s k in
                  let (k', s') := ks in
                  (k', set_schedule (Some s') st, r)
              | None => (k, st, Raise AttributeError)
              end.

Notation "x <- c1 ;; c2" := (kbind c1 (fun x => c2))
  (at level 100, c1 at next level, c2 at level 200, right associativity).
Notation "c1 ;; c2" := (kbind c1 (fun _ => c2))
  (at level 100, c2 at level 200, right associativity).

(** [scheduleSelection(time)]: the clock is read for [delta], and the timer
    starts to wait at the instant [start()] is called, a later reading. *)
Definition scheduleSelection_clock (time : option datetime) : K unit :=
  enabled <- lift (gets (fun st => isEnabled (source st))) ;;
  failed <- lift (gets (fun st => isFailed (source st))) ;;
  if negb enabled || failed then kret tt
  else
    seconds <- match time with
               | Some t => now <- utcnow ;; kret (t - now)
               | None => kret (timedelta 0 0 10)
               end ;;
    lift cancelTimer ;;
    started <- utcnow ;;
    lift (start_timer seconds started).

(** The state after [scheduleSelection(time)] has armed a timer: [now] is
    the reading for [delta], [started] the instant of [start()]. *)
Definition selection_armed_clock (time now started : datetime) (st : State) : State :=
  set_selectionTimer (Some (length (cancel_selection st)))
    (set_timers (cancel_selection st ++ [mkTimer (time - now) started Armed]) st).

(** [_setCurrentEntry(entry)]: [entry.getScheduledEnd()] is called for the
    log message and again for [scheduleSelection]. *)
Definition _setCurrentEntry_clock (entry : option ScheduleEntry) : K unit :=
  lift (modify (set_currentEntry entry)) ;;
  match entry with
  | Some e =>
      call_entry (getScheduledEnd_clock e) ;;
      time <- call_entry (getScheduledEnd_clock e) ;;
      scheduleSelection_clock (Some time) ;;
      lift (try_except_KeyError
              (bind (call_source (CallActivateProfile (getProfile e))
                                 (activateProfile (getProfile e)))
                    (fun _ => call_source CallStart start)))
  | None => kret tt
  end ;;
  (* tell the source to re-evaluate its current status *)
  lift (call_source CallCheckStatus checkStatus).

Definition selectProfile_clock : K unit :=
  users <- lift (gets (fun st => hasClients USER (source st))) ;;
  if users : bool then kret tt
  else
    sch <- lift (gets schedule) ;;
    match sch with
    | None => _setCurrentEntry_clock None
    | Some _ =>
        entry <- call_schedule_clock Schedule_getCurrentEntry_clock ;;
        _setCurrentEntry_clock entry ;;
        cur <- lift (gets currentEntry) ;;
        match cur with
        | None =>
            nextEntry <- call_schedule_clock Schedule_getNextEntry_clock ;;
            match nextEntry with
            | Some n =>
                time <- call_entry (getNextActivation_clock n) ;;
                scheduleSelection_clock (Some time)
            | None => kret tt
            end
        | Some _ => kret tt
        end
    end.

End Clock.

(** The clock does not go back. *)
Definition monotone (clock : nat -> datetime) : Prop :=
  forall i j, (i <= j)%nat -> clock i <= clock j.

(** A clock that shows [t0] at its first reading and a microsecond more at
    each reading after it. *)
Definition ticking (t0 : datetime) : nat -> datetime := fun k => t0 + Z.of_nat k.

(** *** Threads in [scheduleSelection] *)

Section Threads.
Context `{Src : SdrSource} `{Mth : PyMath} `{Cfg : ReceiverConfig}.

(** Where a thread is in [scheduleSelection(time)]: before the test of the
    source, before [self.cancelTimer()], before the new timer is created and
    started, and after the return.  [seconds] is its local variable. *)
Inductive SelectionThread : Type :=
| AtGuard (time : option datetime)
| AtCancel (seconds : Z)
| AtTimer (seconds : Z)
| Returned.

(** The next statement of a thread, at the instant [now]. *)
Definition thread_step (now : datetime) (th : SelectionThread) (st : State)
  : State * SelectionThread :=
  match th with
  | AtGuard time =>
      if negb (isEnabled (source st)) || isFailed (source st) then (st, Returned)
      else (st, AtCancel (match time with
                          | Some t => t - now
                          | None => timedelta 0 0 10
                          end))
  | AtCancel seconds => (fst (cancelTimer st), AtTimer seconds)
  | AtTimer seconds => (fst (start_timer seconds now st), Returned)
  | Returned => (st, Returned)
  end.

(** Two threads in [scheduleSelection] on one scheduler. *)
Inductive Turn : Type := First | Second.

Record Threads : Type := mkThreads {
  shared : State;
  first : SelectionThread;
  second : SelectionThread
}.

(** The thread whose turn it is runs one statement. *)
Definition turn_step (now : datetime) (t : Turn) (c : Threads) : Threads :=
  match t with
  | First => let (st', th) := thread_step now (first c) (shared c) in
             mkThreads st' th (second c)
  | Second => let (st', th) := thread_step now (second c) (shared c) in
              mkThreads st' (first c) th
  end.

Definition interleave (now : datetime) (turns : list Turn) (c : Threads) : Threads :=
  fold_left (fun c t => turn_step now t c) turns c.

End Threads.

(** * Properties *)

(** ** Times of day and entries *)

Example tm_yday_examples :
  tm_yday 0 = 1 /\                               (* 1970-01-01 *)
  tm_yday (-1) = 365 /\                          (* 1969-12-31 *)
  tm_yday (11017 * us_per_day) = 61 /\           (* 2000-03-01 *)
  tm_yday (19722 * us_per_day) = 365 /\          (* 2023-12-31 *)
  tm_yday (19723 * us_per_day) = 1 /\            (* 2024-01-01 *)
  tm_yday (19782 * us_per_day + 5) = 60 /\       (* 2024-02-29 *)
  tm_yday (20088 * us_per_day) = 366.            (* 2024-12-31 *)
Proof. repeat split. Qed.

Lemma us_per_day_pos : 0 < us_per_day.
Proof. reflexivity. Qed.

Lemma time_of_range dt : 0 <= time_of dt < us_per_day.
Proof. unfold time_of. apply Z.mod_pos_bound, us_per_day_pos. Qed.

Lemma date_time_split dt : dt = date_of dt + time_of dt.
Proof.
  unfold date_of, time_of.
  rewrite (Z.div_mod dt us_per_day) at 1 by (pose proof us_per_day_pos; lia). lia.
Qed.

(** The loop of [getScheduledEnd] and [getNextActivation] stops after at
    most one round; the fuel of [next_occurrence] is never used up. *)
Lemma advance_days_today now t :
  0 <= t < us_per_day ->
  advance_days 2 (combine (date_of now) t) now =
  Some (if combine (date_of now) t <? now
        then combine (date_of now) t + us_per_day
        else combine (date_of now) t).
Proof.
  intros Ht. unfold combine. cbn [advance_days].
  pose proof (time_of_range now) as Hr. pose proof (date_time_split now) as Hs.
  destruct (date_of now + t <? now) eqn:E1; [|reflexivity].
  destruct (date_of now + t + us_per_day <? now) eqn:E2; [|reflexivity].
  apply Z.ltb_lt in E2. lia.
Qed.

Lemma next_occurrence_spec now t :
  0 <= t < us_per_day ->
  now <= next_occurrence now t < now + us_per_day /\
  time_of (next_occurrence now t) = t.
Proof.
  intros Ht. unfold next_occurrence. rewrite advance_days_today by assumption.
  pose proof (time_of_range now) as Hr. pose proof (date_time_split now) as Hs.
  pose proof us_per_day_pos as Hd.
  assert (Hm : forall k, time_of (date_of now + k * us_per_day + t) = t).
  { intros k. unfold time_of, date_of.
    replace (now / us_per_day * us_per_day + k * us_per_day + t)
      with (t + (now / us_per_day + k) * us_per_day) by lia.
    rewrite Z.mod_add by lia. apply Z.mod_small. exact Ht. }
  unfold combine.
  destruct (date_of now + t <? now) eqn:E.
  - apply Z.ltb_lt in E. split; [lia|].
    specialize (Hm 1). rewrite Z.mul_1_l in Hm.
    replace (date_of now + t + us_per_day) with (date_of now + us_per_day + t) by lia.
    exact Hm.
  - apply Z.ltb_ge in E. split; [lia|].
    specialize (Hm 0). rewrite Z.mul_0_l, Z.add_0_r in Hm. exact Hm.
Qed.

(** C7. A time-of-day entry whose start is after its end (a window that
    wraps past midnight) is current at [dt] exactly when the time of day of
    [dt] is at or after the start, or strictly before the end. *)
Theorem TimeScheduleEntry_isCurrent_wraps (s t : timeofday) (p : value) (dt : datetime) :
  t < s ->
  isCurrent (TimeScheduleEntry s t p) dt = true <-> (s <= time_of dt \/ time_of dt < t).
Proof.
  intros Hwrap. cbn [isCurrent].
  destruct (s <? t) eqn:E.
  - apply Z.ltb_lt in E. lia.
  - rewrite orb_true_iff, Z.leb_le, Z.ltb_lt. reflexivity.
Qed.

(** The window "2300-0100", as [StaticSchedule] reads it from the
    configuration, on the day that starts at [day]: current at 23:30 and at
    00:30, not current at 12:00. *)
Lemma TimeScheduleEntry_isCurrent_wraps_witness :
  let e := TimeScheduleEntry (mk_time 23 0) (mk_time 1 0) (VStr "night") in
  let day := 20000 * us_per_day in
  StaticSchedule_init (VDict [("2300-0100", VStr "night")]) = Ok [e] /\
  isCurrent e (day + timedelta 23 30 0) = true /\
  isCurrent e (day + timedelta 0 30 0) = true /\
  isCurrent e (day + timedelta 12 0 0) = false.
Proof.
  intros e day.
  assert (Hwrap : mk_time 1 0 < mk_time 23 0) by reflexivity.
  split; [reflexivity|]. split; [|split].
  - apply (proj2 (TimeScheduleEntry_isCurrent_wraps _ _ (VStr "night") _ Hwrap)).
    left. vm_compute. discriminate.
  - apply (proj2 (TimeScheduleEntry_isCurrent_wraps _ _ (VStr "night") _ Hwrap)).
    right. vm_compute. reflexivity.
  - destruct (isCurrent e (day + timedelta 12 0 0)) eqn:E; [|reflexivity].
    apply (proj1 (TimeScheduleEntry_isCurrent_wraps _ _ (VStr "night") _ Hwrap)) in E.
    vm_compute in E. destruct E as [E|E]; [exfalso; apply E; reflexivity | discriminate E].
Defined.

(** ** Parsing the configuration *)

Example strptime_HM_examples :
  strptime_HM "0600" = Ok (mk_time 6 0) /\
  strptime_HM "2359" = Ok (mk_time 23 59) /\
  strptime_HM "123" = Ok (mk_time 12 3) /\
  strptime_HM "12" = Ok (mk_time 1 2) /\
  strptime_HM "2400" = Raise ValueError /\     (* unconverted data remains: 0 *)
  strptime_HM "0960" = Raise ValueError /\
  strptime_HM "6 00" = Raise ValueError /\
  strptime_HM "" = Raise ValueError.
Proof. repeat split. Qed.

Lemma strptime_HM_raises s e : strptime_HM s = Raise e -> e = ValueError.
Proof.
  unfold strptime_HM. destruct (match_HM s) as [[[h m] [|c r]]|]; congruence.
Qed.

Lemma static_entries_skip time profile rest :
  String.length time <> 9%nat ->
  static_entries ((time, profile) :: rest) = static_entries rest.
Proof.
  intros Hlen. cbn [static_entries].
  destruct (String.length time =? 9)%nat eqn:E; [|reflexivity].
  apply Nat.eqb_eq in E. contradiction.
Qed.

Lemma static_entries_accepted (d : dict) :
  forallb window_accepted d = true ->
  exists entries,
    static_entries d = Ok entries /\
    map getProfile entries = map snd (List.filter has_window_length d).
Proof.
  induction d as [|[time profile] rest IH]; intros Hall.
  - exists []. split; reflexivity.
  - cbn [forallb] in Hall. apply andb_true_iff in Hall as [Hitem Hrest].
    destruct (IH Hrest) as (entries & Hentries & Hprofiles).
    unfold window_accepted, window_ok in Hitem. cbn [fst] in Hitem.
    cbn [static_entries List.filter]. unfold has_window_length at 1. cbn [fst].
    destruct (String.length time =? 9)%nat.
    + cbn [negb orb] in Hitem.
      destruct (strptime_HM (substring 0 4 time)) as [s|]; [|discriminate].
      destruct (strptime_HM (substring 5 4 time)) as [t|]; [|discriminate].
      cbn [rbind]. rewrite Hentries. cbn [rbind].
      eexists. split; [reflexivity|]. cbn [map getProfile snd]. now rewrite Hprofiles.
    + cbn [negb]. exists entries. split; assumption.
Qed.

(** A nine-character token with a half that [strptime] rejects makes the
    constructor raise. *)
Lemma static_entries_rejected (d : dict) :
  forallb window_accepted d = false -> static_entries d = Raise ValueError.
Proof.
  induction d as [|[time profile] rest IH]; intros Hbad; [discriminate|].
  cbn [forallb] in Hbad. cbn [static_entries].
  unfold window_accepted, window_ok in Hbad. cbn [fst] in Hbad.
  destruct (String.length time =? 9)%nat.
  - cbn [negb orb] in Hbad. cbn [negb].
    destruct (strptime_HM (substring 0 4 time)) as [s|e] eqn:Es.
    + destruct (strptime_HM (substring 5 4 time)) as [t|e] eqn:Et.
      * cbn [andb] in Hbad. cbn [rbind]. now rewrite (IH Hbad).
      * cbn [rbind]. now rewrite (strptime_HM_raises _ _ Et).
    + cbn [rbind]. now rewrite (strptime_HM_raises _ _ Es).
  - cbn [negb orb andb] in Hbad. cbn [negb]. exact (IH Hbad).
Qed.

(** C3, as the code has it.  A window token of the wrong length is skipped;
    an unknown [type] gives no schedule; a bare top-level [schedule] is read
    as a static schedule; and a static schedule is built without an error,
    with one entry per nine-character token, when each of those tokens
    carries two times that [strptime] accepts. *)
Theorem Schedule_parse_malformed :
  (forall time profile rest,
      String.length time <> 9%nat ->
      static_entries ((time, profile) :: rest) = static_entries rest) /\
  (forall props sc t,
      dict_get "scheduler" props = Some (VDict sc) ->
      dict_get "type" sc = Some t ->
      py_eq_str t "static" = false ->
      py_eq_str t "daylight" = false ->
      py_eq_str t "rotation" = false ->
      Schedule_parse props = Ok None) /\
  (forall props d,
      dict_get "scheduler" props = None ->
      dict_get "schedule" props = Some d ->
      Schedule_parse props =
      (let? entries := StaticSchedule_init d in Ok (Some (StaticSchedule entries)))) /\
  (forall d,
      forallb window_accepted d = true ->
      exists entries,
        StaticSchedule_init (VDict d) = Ok entries /\
        map getProfile entries = map snd (List.filter has_window_length d)).
Proof.
  split; [exact static_entries_skip|]. split; [|split].
  - intros props sc t Hsc Ht Hs Hd Hr.
    unfold Schedule_parse, dict_has, py_getitem_str. rewrite Hsc. cbn [rbind].
    unfold py_contains_str, dict_has. rewrite Ht. cbn [rbind].
    now rewrite Hs, Hd, Hr.
  - intros props d Hsc Hd.
    unfold Schedule_parse, dict_has, py_getitem_str. rewrite Hsc, Hd. reflexivity.
  - intros d Hd. exact (static_entries_accepted d Hd).
Qed.

Lemma Schedule_parse_malformed_witness :
  static_entries [("0600-180", VStr "am"); ("0600-1800", VStr "wfm")] =
    static_entries [("0600-1800", VStr "wfm")] /\
  Schedule_parse [("scheduler", VDict [("type", VStr "weekly"); ("schedule", VDict [])])] =
    Ok None /\
  Schedule_parse [("schedule", VDict [("0600-1800", VStr "wfm")])] =
    Ok (Some (StaticSchedule [TimeScheduleEntry (mk_time 6 0) (mk_time 18 0) (VStr "wfm")])) /\
  (exists entries,
      StaticSchedule_init (VDict [("0600-180", VStr "am"); ("0600-1800", VStr "wfm")]) =
        Ok entries /\
      map getProfile entries = [VStr "wfm"]).
Proof.
  destruct Schedule_parse_malformed as (Hskip & Hunknown & Hbare & Hgood).
  split; [|split; [|split]].
  - apply Hskip. cbn. discriminate.
  - apply (Hunknown _ [("type", VStr "weekly"); ("schedule", VDict [])] (VStr "weekly"));
      reflexivity.
  - rewrite (Hbare _ (VDict [("0600-1800", VStr "wfm")])); reflexivity.
  - apply (Hgood [("0600-180", VStr "am"); ("0600-1800", VStr "wfm")]). reflexivity.
Defined.

(** C3 does not hold as a statement about every configuration: a window
    that is meant to end at midnight and is written "0600-2400" has the
    right length, and [strptime] rejects "2400". *)
Lemma Schedule_parse_raises_on_2400 :
  Schedule_parse config_2400 = Raise ValueError /\
  ~ (forall props, exists s, Schedule_parse props = Ok s).
Proof.
  assert (H : Schedule_parse config_2400 = Raise ValueError) by reflexivity.
  split; [exact H|].
  intros Hall. destruct (Hall config_2400) as [s Hs]. rewrite H in Hs. discriminate.
Qed.

(** ** Rotation *)

Lemma py_getitem_int_list (ps : list value) (i : Z) :
  0 <= i < Z.of_nat (List.length ps) ->
  exists p, nth_error ps (Z.to_nat i) = Some p /\ py_getitem_int (VList ps) i = Ok p.
Proof.
  intros Hi. unfold py_getitem_int, seq_position.
  replace ((0 <=? i) && (i <? Z.of_nat (List.length ps))) with true
    by (symmetry; apply andb_true_iff; split; [apply Z.leb_le | apply Z.ltb_lt]; lia).
  destruct (nth_error ps (Z.to_nat i)) as [p|] eqn:E.
  - exists p. split; reflexivity.
  - apply nth_error_None in E. lia.
Qed.

Lemma nonempty_length (ps : list value) : ps <> [] -> 0 < Z.of_nat (List.length ps).
Proof. destruct ps; [congruence | cbn; lia]. Qed.

Lemma py_truth_list (ps : list value) : ps <> [] -> py_truth (VList ps) = true.
Proof. destruct ps; [congruence | reflexivity]. Qed.

(** One read of a rotation that has no end time: the cursor stays, the end
    time is set one interval after the read. *)
Lemma getCurrentEntry_fresh (ps : list value) (I i now : Z) :
  ps <> [] -> 0 <= i < Z.of_nat (List.length ps) ->
  exists p,
    nth_error ps (Z.to_nat i) = Some p /\
    RotationSchedule_getCurrentEntry (mkRotation (VList ps) (VInt I) i None) now =
    (mkRotation (VList ps) (VInt I) i (Some (now + I * us_per_second)),
     Ok (Some (RotationScheduleEntry now (now + I * us_per_second) p))).
Proof.
  intros Hne Hi. destruct (py_getitem_int_list ps i Hi) as (p & Hnth & Hget).
  exists p. split; [exact Hnth|].
  unfold RotationSchedule_getCurrentEntry. cbn [profiles interval current_index current_end_time].
  rewrite (py_truth_list ps Hne). cbn [negb timedelta_seconds].
  cbn [profiles interval current_index current_end_time]. rewrite Hget. reflexivity.
Qed.

(** One read after the end time has passed: the cursor moves one step,
    whatever time has gone by, and a new dwell starts at the read. *)
Lemma getCurrentEntry_expired (ps : list value) (I i t now : Z) :
  ps <> [] -> t <= now ->
  RotationSchedule_getCurrentEntry (mkRotation (VList ps) (VInt I) i (Some t)) now =
  RotationSchedule_getCurrentEntry
    (mkRotation (VList ps) (VInt I) ((i + 1) mod Z.of_nat (List.length ps)) None) now.
Proof.
  intros Hne Ht.
  unfold RotationSchedule_getCurrentEntry. cbn [profiles interval current_index current_end_time].
  rewrite (py_truth_list ps Hne). cbn [negb py_len].
  replace (t <=? now) with true by (symmetry; apply Z.leb_le; exact Ht).
  reflexivity.
Qed.

(** One read before the end time: nothing changes. *)
Lemma getCurrentEntry_running (ps : list value) (I i t now : Z) :
  ps <> [] -> 0 <= i < Z.of_nat (List.length ps) -> now < t ->
  exists p,
    nth_error ps (Z.to_nat i) = Some p /\
    RotationSchedule_getCurrentEntry (mkRotation (VList ps) (VInt I) i (Some t)) now =
    (mkRotation (VList ps) (VInt I) i (Some t), Ok (Some (RotationScheduleEntry now t p))).
Proof.
  intros Hne Hi Ht. destruct (py_getitem_int_list ps i Hi) as (p & Hnth & Hget).
  exists p. split; [exact Hnth|].
  unfold RotationSchedule_getCurrentEntry. cbn [profiles interval current_index current_end_time].
  rewrite (py_truth_list ps Hne). cbn [negb].
  replace (t <=? now) with false by (symmetry; apply Z.leb_gt; exact Ht).
  cbn [profiles interval current_index current_end_time]. rewrite Hget. reflexivity.
Qed.

Lemma dwell_ends_snoc t0 d k :
  dwell_ends t0 d (S k) = (dwell_ends t0 d k ++ [t0 + Z.of_nat k * d])%list.
Proof. unfold dwell_ends. rewrite seq_S, map_app. reflexivity. Qed.

(** The rotation after reads at the first [k] dwell ends. *)
Lemma rotation_reads_dwell_ends (ps : list value) (I t0 : Z) (k : nat) :
  ps <> [] ->
  rotation_reads (mkRotation (VList ps) (VInt I) 0 None)
                 (dwell_ends t0 (I * us_per_second) (S k)) =
  mkRotation (VList ps) (VInt I) (Z.of_nat k mod Z.of_nat (List.length ps))
             (Some (t0 + Z.of_nat (S k) * (I * us_per_second))).
Proof.
  intros Hne. pose proof (nonempty_length ps Hne) as HN.
  induction k as [|k IH].
  - cbn [dwell_ends seq map rotation_reads fold_left].
    destruct (getCurrentEntry_fresh ps I 0 (t0 + Z.of_nat 0 * (I * us_per_second)) Hne)
      as (p & _ & Hread); [lia|].
    rewrite Hread. cbn [fst]. rewrite Z.mod_0_l by lia. f_equal. f_equal. lia.
  - rewrite dwell_ends_snoc. unfold rotation_reads in *. rewrite fold_left_app, IH.
    cbn [fold_left].
    rewrite getCurrentEntry_expired by (try assumption; lia).
    destruct (getCurrentEntry_fresh ps I
                ((Z.of_nat k mod Z.of_nat (List.length ps) + 1) mod Z.of_nat (List.length ps))
                (t0 + Z.of_nat (S k) * (I * us_per_second)) Hne)
      as (p & _ & Hread); [apply Z.mod_pos_bound; lia|].
    rewrite Hread. cbn [fst].
    rewrite Z.add_mod_idemp_l by lia.
    replace (Z.of_nat k + 1) with (Z.of_nat (S k)) by lia.
    f_equal. f_equal. lia.
Qed.

(** C4, as the code has it.  When [getCurrentEntry] of a fresh rotation over
    a non-empty list has been read at the first activation [t0] and at each
    dwell end after it, [t0 + I], ..., [t0 + (k-1) I], the read at
    [t0 + k I] selects [profiles[k mod N]], for a window that ends one
    interval later. *)
Theorem RotationSchedule_round_robin (ps : list value) (I t0 : Z) (k : nat) :
  ps <> [] ->
  let N := Z.of_nat (List.length ps) in
  let d := I * us_per_second in
  let rs := rotation_reads (mkRotation (VList ps) (VInt I) 0 None) (dwell_ends t0 d k) in
  let now := t0 + Z.of_nat k * d in
  exists p,
    nth_error ps (Z.to_nat (Z.of_nat k mod N)) = Some p /\
    RotationSchedule_getCurrentEntry rs now =
    (mkRotation (VList ps) (VInt I) (Z.of_nat k mod N) (Some (now + d)),
     Ok (Some (RotationScheduleEntry now (now + d) p))).
Proof.
  intros Hne N d rs now. subst N d rs now. pose proof (nonempty_length ps Hne) as HN.
  destruct k as [|k].
  - cbn [dwell_ends seq map rotation_reads fold_left].
    destruct (getCurrentEntry_fresh ps I 0 (t0 + Z.of_nat 0 * (I * us_per_second)) Hne)
      as (p & Hnth & Hread); [lia|].
    exists p. rewrite Z.mod_0_l by lia. split; [exact Hnth | exact Hread].
  - rewrite rotation_reads_dwell_ends by assumption.
    rewrite getCurrentEntry_expired by (try assumption; lia).
    rewrite Z.add_mod_idemp_l by lia.
    replace (Z.of_nat k + 1) with (Z.of_nat (S k)) by lia.
    destruct (getCurrentEntry_fresh ps I (Z.of_nat (S k) mod Z.of_nat (List.length ps))
                (t0 + Z.of_nat (S k) * (I * us_per_second)) Hne)
      as (p & Hnth & Hread); [apply Z.mod_pos_bound; lia|].
    exists p. split; [exact Hnth | exact Hread].
Qed.

(** The rotation of the configuration [rotation_ab], read at [t0 = 0] and at
    the dwell ends after 5 and 10 minutes: the read after 15 minutes selects
    "b", the profile at index [3 mod 2]. *)
Lemma RotationSchedule_round_robin_witness :
  RotationSchedule_init rotation_ab =
    Ok (mkRotation (VList [VStr "a"; VStr "b"]) (VInt 300) 0 None) /\
  RotationSchedule_getCurrentEntry
    (rotation_reads (mkRotation (VList [VStr "a"; VStr "b"]) (VInt 300) 0 None)
                    (dwell_ends 0 (300 * us_per_second) 3))
    (timedelta 0 15 0) =
  (mkRotation (VList [VStr "a"; VStr "b"]) (VInt 300) 1 (Some (timedelta 0 20 0)),
   Ok (Some (RotationScheduleEntry (timedelta 0 15 0) (timedelta 0 20 0) (VStr "b")))).
Proof.
  split; [reflexivity|].
  assert (Hne : [VStr "a"; VStr "b"] <> []) by discriminate.
  destruct (RotationSchedule_round_robin [VStr "a"; VStr "b"] 300 0 3 Hne)
    as (p & Hnth & Hread).
  cbn in Hnth. injection Hnth as <-. exact Hread.
Defined.

(** C4 does not hold for every history of reads: the cursor moves one step
    per read, and a dwell starts at the read that finds the previous one
    expired.  With the profiles "a", "b" and an interval of 5 minutes, a
    first read at [t0 = 0] and a read after 6 minutes, the read after
    10 minutes (two intervals) still selects "b", not [profiles[2 mod 2]].
    A single read two intervals after the first one selects "b" as well. *)
Lemma RotationSchedule_lazy_tick :
  let rs0 := mkRotation (VList [VStr "a"; VStr "b"]) (VInt 300) 0 None in
  snd (RotationSchedule_getCurrentEntry
         (rotation_reads rs0 [0; timedelta 0 6 0]) (timedelta 0 10 0)) =
    Ok (Some (RotationScheduleEntry (timedelta 0 10 0) (timedelta 0 11 0) (VStr "b"))) /\
  snd (RotationSchedule_getCurrentEntry
         (rotation_reads rs0 [0]) (timedelta 0 10 0)) =
    Ok (Some (RotationScheduleEntry (timedelta 0 10 0) (timedelta 0 15 0) (VStr "b"))) /\
  nth_error [VStr "a"; VStr "b"] (Z.to_nat (2 mod 2)) = Some (VStr "a") /\
  timedelta 0 10 0 = 0 + 2 * (300 * us_per_second).
Proof. repeat split. Qed.

(** C5, as the code has it.  [getNextEntry] of a rotation over a non-empty
    list leaves the rotation as it is and returns an entry for
    [profiles[(current_index + 1) mod N]] that ends one interval after the
    current end time (after the instant of the call when no end time is
    set).  The entry starts at the instant of the call, as every
    [RotationScheduleEntry] does. *)
Theorem RotationSchedule_getNextEntry_spec
    (ps : list value) (I i : Z) (e : option datetime) (now : datetime) :
  ps <> [] ->
  let N := Z.of_nat (List.length ps) in
  let rs := mkRotation (VList ps) (VInt I) i e in
  let next_start := match e with Some t => t | None => now end in
  exists p,
    nth_error ps (Z.to_nat ((i + 1) mod N)) = Some p /\
    RotationSchedule_getNextEntry rs now =
    (rs, Ok (Some (RotationScheduleEntry now (next_start + I * us_per_second) p))).
Proof.
  intros Hne N rs next_start. subst N rs next_start.
  pose proof (nonempty_length ps Hne) as HN.
  destruct (py_getitem_int_list ps ((i + 1) mod Z.of_nat (List.length ps)))
    as (p & Hnth & Hget); [apply Z.mod_pos_bound; lia|].
  exists p. split; [exact Hnth|].
  unfold RotationSchedule_getNextEntry.
  cbn [profiles interval current_index current_end_time].
  rewrite (py_truth_list ps Hne).
  cbn [negb py_len rbind timedelta_seconds]. rewrite Hget. reflexivity.
Qed.

Lemma RotationSchedule_getNextEntry_spec_witness :
  let rs := mkRotation (VList [VStr "a"; VStr "b"]) (VInt 300) 1 (Some (timedelta 0 5 0)) in
  RotationSchedule_getNextEntry rs (timedelta 0 2 0) =
  (rs, Ok (Some (RotationScheduleEntry (timedelta 0 2 0) (timedelta 0 10 0) (VStr "a")))).
Proof.
  assert (Hne : [VStr "a"; VStr "b"] <> []) by discriminate.
  destruct (RotationSchedule_getNextEntry_spec [VStr "a"; VStr "b"] 300 1
              (Some (timedelta 0 5 0)) (timedelta 0 2 0) Hne) as (p & Hnth & Hnext).
  cbn in Hnth. injection Hnth as <-. exact Hnext.
Defined.

(** C5 does not hold for the start of the window: with an end time of 5
    minutes and a call after 2 minutes, the entry returned starts after 2
    minutes, at the call, and its window is 8 minutes long, not one
    interval. *)
Lemma RotationSchedule_getNextEntry_starts_now :
  let rs := mkRotation (VList [VStr "a"; VStr "b"]) (VInt 300) 0 (Some (timedelta 0 5 0)) in
  exists entry,
    snd (RotationSchedule_getNextEntry rs (timedelta 0 2 0)) = Ok (Some entry) /\
    getProfile entry = VStr "b" /\
    startTime entry = timedelta 0 2 0 /\
    startTime entry <> timedelta 0 5 0 /\
    endTime entry = timedelta 0 10 0 /\
    endTime entry <> startTime entry + 300 * us_per_second.
Proof.
  eexists. split; [reflexivity|]. repeat split; discriminate.
Qed.

(** ** Solar geometry *)

(** The computation on an example: London (51.5 N, 0.13 W) on 2024-06-21.
    Sunrise falls between 03:30 and 04:00 UTC, sunset between 20:00 and
    20:30 UTC. *)
Example getSunTimes_London :
  tm_yday midsummer_2024 = 173 /\
  exists rise set,
    @getSunTimes series_math 51.5%float (-0.13)%float midsummer_2024 = Ok (rise, set) /\
    midsummer_2024 + timedelta 3 30 0 < rise < midsummer_2024 + timedelta 4 0 0 /\
    midsummer_2024 + timedelta 20 0 0 < set < midsummer_2024 + timedelta 20 30 0.
Proof.
  split; [reflexivity|].
  eexists. eexists. split; [vm_compute; reflexivity|]. vm_compute. repeat split.
Qed.

(** C9. When the argument of the arc cosine, [-tan(lat) * tan(declination)],
    is outside [-1, 1], [getSunTimes] raises: it returns no sunrise and
    sunset. *)
Theorem getSunTimes_polar `{PyMath} (lat lng : float) (date : datetime) (x : float) :
  hour_angle_argument lat date = Ok x ->
  outside_unit x = true ->
  exists e, getSunTimes lat lng date = Raise e.
Proof.
  unfold hour_angle_argument, getSunTimes. intros Harg Hout.
  destruct (math_sin (2 * (2 * math_pi * float_of_Z (tm_yday date - 81) / 365))%float)
    as [s2b|e]; [|now exists e].
  destruct (math_cos (2 * math_pi * float_of_Z (tm_yday date - 81) / 365)%float)
    as [cb|e]; [|now exists e].
  cbn [rbind].
  destruct (math_sin (23.45 * (math_pi / 180))%float) as [s|e]; [|discriminate].
  destruct (math_sin (2 * math_pi * float_of_Z (tm_yday date - 81) / 365)%float)
    as [sb|e]; [|discriminate].
  cbn [rbind] in *.
  destruct (math_asin (s * sb)%float) as [declination|e]; [|discriminate].
  cbn [rbind] in *.
  destruct (math_tan (lat * (math_pi / 180))%float) as [tl|e]; [|discriminate].
  cbn [rbind] in *.
  destruct (math_tan declination) as [td|e]; [|discriminate].
  cbn [rbind] in *.
  injection Harg as <-.
  rewrite (math_acos_domain _ Hout). now exists ValueError.
Qed.

(** Tromso (69.65 N) at midsummer and at midwinter 2024: the argument is
    below -1 (polar day) and above 1 (polar night). *)
Lemma getSunTimes_polar_witness :
  (exists x, @hour_angle_argument series_math 69.65%float midsummer_2024 = Ok x /\
             (x <? -1)%float = true) /\
  (exists x, @hour_angle_argument series_math 69.65%float midwinter_2024 = Ok x /\
             (1 <? x)%float = true) /\
  (exists e, @getSunTimes series_math 69.65%float 18.96%float midsummer_2024 = Raise e) /\
  (exists e, @getSunTimes series_math 69.65%float 18.96%float midwinter_2024 = Raise e).
Proof.
  split; [eexists; split; [vm_compute; reflexivity | vm_compute; reflexivity]|].
  split; [eexists; split; [vm_compute; reflexivity | vm_compute; reflexivity]|].
  split.
  - eapply (@getSunTimes_polar series_math 69.65%float 18.96%float midsummer_2024);
      [vm_compute; reflexivity | vm_compute; reflexivity].
  - eapply (@getSunTimes_polar series_math 69.65%float 18.96%float midwinter_2024);
      [vm_compute; reflexivity | vm_compute; reflexivity].
Defined.

(** ** The control loop *)

Section ServiceSchedulerProperties.
Context `{Src : SdrSource} `{Mth : PyMath} `{Cfg : ReceiverConfig}.

(** C1. With an interactive client on the source, [selectProfile] returns
    at once: the scheduler, its timers, the source and the log of commands
    are as before. *)
Theorem selectProfile_user_present (st : State) (now : datetime) :
  hasClients USER (source st) = true ->
  selectProfile now st = (st, Ok tt).
Proof.
  intros Huser. unfold selectProfile, bind, gets. rewrite Huser. reflexivity.
Qed.

Lemma scheduleSelection_down (st : State) (time : option datetime) (now : datetime) :
  source_down (source st) = true -> scheduleSelection time now st = (st, Ok tt).
Proof.
  intros Hdown. unfold scheduleSelection, bind, gets.
  unfold source_down in Hdown. rewrite Hdown. reflexivity.
Qed.

(** *** Properties kept by every method *)

Section Preservation.
Variable P : State -> Prop.

Lemma preserves_ret {A} (a : A) : preserves P (ret a).
Proof. intros st H. exact H. Qed.

Lemma preserves_gets {A} (f : State -> A) : preserves P (gets f).
Proof. intros st H. exact H. Qed.

Lemma preserves_bind {A B} (m : M A) (k : A -> M B) :
  preserves P m -> (forall a, preserves P (k a)) -> preserves P (bind m k).
Proof.
  intros Hm Hk st H. unfold bind. specialize (Hm st H).
  destruct (m st) as [st' [a|e]]; cbn [fst] in *; [apply Hk; exact Hm | exact Hm].
Qed.

Lemma preserves_modify (f : State -> State) :
  (forall st, P st -> P (f st)) -> preserves P (modify f).
Proof. intros Hf st H. apply Hf, H. Qed.

Lemma preserves_try_except_KeyError (body : M unit) :
  preserves P body -> preserves P (try_except_KeyError body).
Proof.
  intros Hb st H. unfold try_except_KeyError. specialize (Hb st H).
  destruct (body st) as [st' [a|[]]]; exact Hb.
Qed.

(** The state changes a method is made of: the fields other than the
    timers, and the two operations on timers. *)
Hypothesis P_command : forall c op, source_command op -> preserves P (call_source c op).
Hypothesis P_log : forall st c, P st -> P (log_call c st).
Hypothesis P_currentEntry : forall st e, P st -> P (set_currentEntry e st).
Hypothesis P_schedule : forall st s, P st -> P (set_schedule s st).
Hypothesis P_subscriptions : forall st l, P st -> P (set_subscriptions l st).
Hypothesis P_cancelTimer : preserves P cancelTimer.
Hypothesis P_scheduleSelection : forall time now, preserves P (scheduleSelection time now).

Lemma preserves_call_schedule {A} (f : Schedule -> datetime -> Schedule * result A) now :
  preserves P (call_schedule f now).
Proof.
  intros st H. unfold call_schedule. destruct (schedule st) as [s|]; [|exact H].
  destruct (f s now) as [s' r]. cbn [fst]. apply P_schedule, H.
Qed.

Lemma preserves_setCurrentEntry entry now : preserves P (_setCurrentEntry entry now).
Proof.
  unfold _setCurrentEntry.
  apply preserves_bind; [apply preserves_modify; intros; now apply P_currentEntry|intros _].
  apply preserves_bind; [|intros _; apply P_command; constructor].
  destruct entry as [e|]; [|apply preserves_ret].
  apply preserves_bind; [apply P_scheduleSelection|intros _].
  apply preserves_try_except_KeyError.
  apply preserves_bind; [|intros _]; apply P_command; constructor.
Qed.

Lemma preserves_selectProfile now : preserves P (selectProfile now).
Proof.
  unfold selectProfile.
  apply preserves_bind; [apply preserves_gets|intros users].
  destruct users; [apply preserves_ret|].
  apply preserves_bind; [apply preserves_gets|intros [s|]];
    [|apply preserves_setCurrentEntry].
  apply preserves_bind; [apply preserves_call_schedule|intros entry].
  apply preserves_bind; [apply preserves_setCurrentEntry|intros _].
  apply preserves_bind; [apply preserves_gets|intros [cur|]]; [apply preserves_ret|].
  apply preserves_bind; [apply preserves_call_schedule|intros [n|]];
    [apply P_scheduleSelection | apply preserves_ret].
Qed.

Lemma preserves_parseSchedule now : preserves P (parseSchedule now).
Proof.
  unfold parseSchedule.
  apply preserves_bind; [apply preserves_gets|intros props].
  apply preserves_bind; [intros st H; exact H|intros parsed].
  apply preserves_bind; [apply preserves_modify; intros; now apply P_schedule|intros _].
  apply P_scheduleSelection.
Qed.

Lemma preserves_cancel_subscriptions popped : preserves P (cancel_subscriptions popped).
Proof.
  induction popped as [|id rest IH]; cbn [cancel_subscriptions]; [apply preserves_ret|].
  apply preserves_bind; [apply preserves_modify; intros; now apply P_subscriptions|intros _].
  apply preserves_bind; [apply preserves_modify; intros; now apply P_log|intros _].
  exact IH.
Qed.

Lemma preserves_shutdown : preserves P shutdown.
Proof.
  unfold shutdown.
  apply preserves_bind; [apply preserves_gets|intros subs].
  apply preserves_bind; [apply preserves_cancel_subscriptions|intros _].
  apply preserves_bind; [apply P_cancelTimer|intros _].
  apply P_command; constructor.
Qed.

End Preservation.

(** *** At most one timer is armed *)

Lemma is_armed_cancel t : is_armed (Timer_cancel t) = false.
Proof. unfold Timer_cancel, is_armed. destruct (timer_status t) eqn:E; cbn; now try rewrite E. Qed.

(** After [cancelTimer] no timer at all is waiting. *)
Lemma cancel_selection_none_armed (i : nat) (ts : list Timer) :
  only_selection_armed (Some i) ts ->
  forall j t, alter Timer_cancel i ts !! j = Some t -> is_armed t = false.
Proof.
  intros Hinv j t Hj. destruct (decide (i = j)) as [->|Hne].
  - rewrite list_lookup_alter_eq in Hj.
    destruct (ts !! j) as [t0|]; [|discriminate]. cbn in Hj. injection Hj as <-.
    apply is_armed_cancel.
  - rewrite list_lookup_alter_ne in Hj by exact Hne.
    destruct (is_armed t) eqn:E; [|reflexivity].
    specialize (Hinv j t Hj E). congruence.
Qed.

Lemma none_armed_any_selection (sel : option nat) (ts : list Timer) :
  (forall j t, ts !! j = Some t -> is_armed t = false) -> only_selection_armed sel ts.
Proof. intros Hnone i t Hi Ha. rewrite (Hnone i t Hi) in Ha. discriminate. Qed.

(** A timer started when none is waiting is the only one that waits. *)
Lemma start_timer_only_armed (ts : list Timer) (t : Timer) :
  (forall j t', ts !! j = Some t' -> is_armed t' = false) ->
  only_selection_armed (Some (length ts)) (ts ++ [t]).
Proof.
  intros Hnone i t' Hi Ha.
  destruct (decide (i < length ts)%nat) as [Hlt|Hge].
  - rewrite lookup_app_l in Hi by exact Hlt. rewrite (Hnone i t' Hi) in Ha. discriminate.
  - apply lookup_lt_Some in Hi. rewrite length_app in Hi. cbn in Hi. f_equal. lia.
Qed.

Lemma timer_invariant_cancelTimer : preserves timer_invariant cancelTimer.
Proof.
  intros st H. unfold cancelTimer, bind, gets, modify, ret.
  unfold timer_invariant in *. destruct (selectionTimer st) as [i|] eqn:E; cbn.
  - rewrite E. apply none_armed_any_selection.
    apply cancel_selection_none_armed, H.
  - rewrite E. exact H.
Qed.

Lemma timer_invariant_scheduleSelection time now :
  preserves timer_invariant (scheduleSelection time now).
Proof.
  intros st H. unfold scheduleSelection, bind, gets, ret.
  destruct (negb (isEnabled (source st)) || isFailed (source st)); [exact H|].
  unfold cancelTimer, start_timer, bind, gets, modify, ret, timer_invariant in *.
  destruct (selectionTimer st) as [i|] eqn:E; cbn.
  - apply start_timer_only_armed. now apply cancel_selection_none_armed.
  - apply start_timer_only_armed. intros j t Hj.
    destruct (is_armed t) eqn:Ea; [|reflexivity]. specialize (H j t Hj Ea). congruence.
Qed.

Lemma timer_invariant_fire (st : State) (i : nat) (t : Timer) :
  timer_invariant st -> timer_invariant (set_timers (<[i := Timer_fire t]> (timers st)) st).
Proof.
  unfold timer_invariant. cbn. intros H j t' Hj Ha.
  destruct (decide (i = j)) as [->|Hne].
  - apply list_lookup_insert_Some in Hj as [(_ & <- & _)|(Hne & _)]; [discriminate Ha | congruence].
  - rewrite list_lookup_insert_ne in Hj by exact Hne. exact (H j t' Hj Ha).
Qed.

Lemma timer_invariant_command c op : preserves timer_invariant (call_source c op).
Proof.
  intros st H. unfold call_source. destruct (op (source st)) as [s' r]. exact H.
Qed.

Ltac timer_invariant_side :=
  first [ exact timer_invariant_scheduleSelection
        | exact timer_invariant_cancelTimer
        | exact (fun c op (_ : source_command op) => timer_invariant_command c op)
        | (intros; assumption) ].

Lemma timer_invariant_run (op : Operation) (now : datetime) :
  preserves timer_invariant (run op now).
Proof.
  assert (Hsel : preserves timer_invariant (selectProfile now))
    by (apply preserves_selectProfile; timer_invariant_side).
  assert (Hsh : preserves timer_invariant shutdown)
    by (apply preserves_shutdown; timer_invariant_side).
  destruct op; cbn [run].
  - apply preserves_parseSchedule; timer_invariant_side.
  - exact Hsel.
  - exact Hsh.
  - destruct state; cbn [onStateChange];
      first [apply timer_invariant_scheduleSelection | apply preserves_ret].
  - exact Hsh.
  - exact Hsh.
  - apply timer_invariant_cancelTimer.
  - apply timer_invariant_scheduleSelection.
  - destruct state; cbn [onBusyStateChange];
      first [apply timer_invariant_scheduleSelection | apply preserves_ret].
  - apply timer_invariant_scheduleSelection.
  - intros st H. unfold timer_fires.
    destruct (timers st !! i) as [t|]; [|exact H].
    destruct (is_armed t); [|exact H].
    apply Hsel, timer_invariant_fire, H.
  - intros st H. exact H.
Qed.

Lemma timer_invariant_reachable (st : State) : reachable st -> timer_invariant st.
Proof.
  induction 1 as [src now|st op now _ IH].
  - unfold ServiceScheduler_init.
    apply preserves_bind.
    + apply preserves_parseSchedule; timer_invariant_side.
    + intros _. apply preserves_modify. intros st H. exact H.
    + intros i t Hi. discriminate Hi.
  - apply timer_invariant_run, IH.
Qed.

Lemma filter_none_armed (ts : list Timer) :
  (forall j t, ts !! j = Some t -> is_armed t = false) -> List.filter is_armed ts = [].
Proof.
  induction ts as [|t ts IH]; intros Hnone; [reflexivity|].
  cbn [List.filter]. rewrite (Hnone 0%nat t eq_refl).
  apply IH. intros j t' Hj. exact (Hnone (S j) t' Hj).
Qed.

Lemma only_selection_armed_count (sel : option nat) (ts : list Timer) :
  only_selection_armed sel ts -> (length (List.filter is_armed ts) <= 1)%nat.
Proof.
  revert sel. induction ts as [|t ts IH]; intros sel H; [cbn; lia|].
  cbn [List.filter]. destruct (is_armed t) eqn:E.
  - rewrite filter_none_armed; [cbn; lia|].
    intros j t' Hj. destruct (is_armed t') eqn:E'; [|reflexivity].
    pose proof (H 0%nat t eq_refl E) as H0. pose proof (H (S j) t' Hj E') as H1. congruence.
  - apply (IH (pred <$> sel)). intros j t' Hj E'.
    rewrite (H (S j) t' Hj E'). reflexivity.
Qed.

(** C8, as the code has it.  In every state a scheduler can reach by
    operations that run one at a time, every timer that is waiting to fire
    is the one [selectionTimer] refers to, so at most one timer is armed;
    [scheduleSelection] keeps this, as it cancels the timer it refers to
    before it starts a new one, and so does every other operation, whether
    it returns or raises.  The class has no lock; calls that interleave do
    not keep the invariant (part "Threads in [scheduleSelection]"). *)
Theorem at_most_one_timer_armed (st : State) :
  reachable st ->
  (armed_timers st <= 1)%nat /\
  timer_invariant st /\
  (forall op now, timer_invariant (fst (run op now st)) /\
                  (armed_timers (fst (run op now st)) <= 1)%nat).
Proof.
  intros Hreach. pose proof (timer_invariant_reachable st Hreach) as Hinv.
  split; [exact (only_selection_armed_count _ _ Hinv)|]. split; [exact Hinv|].
  intros op now. pose proof (timer_invariant_run op now st Hinv) as Hstep.
  split; [exact Hstep | exact (only_selection_armed_count _ _ Hstep)].
Qed.

(** *** No timer is armed while the source is down *)

Section SourceDown.
Variable st0 : State.
Hypothesis commands_keep_down :
  forall op s, source_command op -> source_down s = true -> source_down (fst (op s)) = true.







End SourceDown.



(** *** Selecting and activating a profile *)

Lemma scheduleSelection_up (st : State) (time : option datetime) (now : datetime) :
  isEnabled (source st) = true -> isFailed (source st) = false ->
  scheduleSelection time now st = (selection_armed time now st, Ok tt).
Proof.
  intros Hen Hfail. unfold scheduleSelection, bind, gets. rewrite Hen, Hfail. cbn [negb orb].
  unfold cancelTimer, start_timer, selection_armed, cancel_selection, bind, gets, modify, ret.
  destruct (selectionTimer st); reflexivity.
Qed.

Lemma scheduleSelection_returns (st : State) (time : option datetime) (now : datetime) :
  snd (scheduleSelection time now st) = Ok tt.
Proof.
  unfold scheduleSelection, bind, gets, ret.
  destruct (negb (isEnabled (source st)) || isFailed (source st)); [reflexivity|].
  unfold cancelTimer, start_timer, bind, gets, modify, ret.
  destruct (selectionTimer st); reflexivity.
Qed.

(** [scheduleSelection] touches the timers only. *)
Lemma scheduleSelection_frame (st : State) (time : option datetime) (now : datetime) :
  let st' := fst (scheduleSelection time now st) in
  source st' = source st /\ currentEntry st' = currentEntry st /\
  schedule st' = schedule st /\ calls st' = calls st /\ subscriptions st' = subscriptions st.
Proof.
  unfold scheduleSelection, bind, gets, ret.
  destruct (negb (isEnabled (source st)) || isFailed (source st)); [cbn; tauto|].
  unfold cancelTimer, start_timer, bind, gets, modify, ret.
  destruct (selectionTimer st); cbn; tauto.
Qed.

Lemma setCurrentEntry_some (e : ScheduleEntry) (now : datetime) (st : State) :
  _setCurrentEntry (Some e) now st =
  activation (getProfile e)
    (fst (scheduleSelection (Some (getScheduledEnd e now)) now (set_currentEntry (Some e) st))).
Proof.
  unfold _setCurrentEntry, activation, bind at 1 2 3, modify at 1.
  pose proof (scheduleSelection_returns (set_currentEntry (Some e) st)
                (Some (getScheduledEnd e now)) now) as Hret.
  destruct (scheduleSelection (Some (getScheduledEnd e now)) now (set_currentEntry (Some e) st))
    as [st1 r]. cbn [snd fst] in *. subst r. reflexivity.
Qed.

(** The four ways the activation can go. *)
Lemma activation_KeyError_activate (p : value) (st : State) s1 :
  activateProfile p (source st) = (s1, Raise KeyError) ->
  activation p st =
  call_source CallCheckStatus checkStatus (set_source s1 (log_call (CallActivateProfile p) st)).
Proof.
  intros Hact. unfold activation, try_except_KeyError, bind, call_source at 1.
  rewrite Hact. reflexivity.
Qed.

Lemma activation_raise_activate (p : value) (st : State) s1 x :
  activateProfile p (source st) = (s1, Raise x) -> x <> KeyError ->
  activation p st = (set_source s1 (log_call (CallActivateProfile p) st), Raise x).
Proof.
  intros Hact Hx. unfold activation, try_except_KeyError, bind, call_source at 1.
  rewrite Hact. destruct x; congruence.
Qed.

Lemma activation_start (p : value) (st : State) s1 s2 r :
  activateProfile p (source st) = (s1, Ok tt) -> start s1 = (s2, r) ->
  r = Ok tt \/ r = Raise KeyError ->
  activation p st =
  call_source CallCheckStatus checkStatus
    (set_source s2 (log_call CallStart (set_source s1 (log_call (CallActivateProfile p) st)))).
Proof.
  intros Hact Hstart Hr. unfold activation, try_except_KeyError, bind, call_source at 1 2.
  rewrite Hact. cbn [source set_source]. rewrite Hstart.
  destruct Hr as [-> | ->]; reflexivity.
Qed.

Lemma activation_raise_start (p : value) (st : State) s1 s2 x :
  activateProfile p (source st) = (s1, Ok tt) -> start s1 = (s2, Raise x) -> x <> KeyError ->
  activation p st =
  (set_source s2 (log_call CallStart (set_source s1 (log_call (CallActivateProfile p) st))),
   Raise x).
Proof.
  intros Hact Hstart Hx. unfold activation, try_except_KeyError, bind, call_source at 1 2.
  rewrite Hact. cbn [source set_source]. rewrite Hstart. destruct x; congruence.
Qed.

(** The activation touches the source and the log only, and its first
    command is [activateProfile]. *)
Lemma activation_frame (p : value) (st : State) :
  let st' := fst (activation p st) in
  currentEntry st' = currentEntry st /\ schedule st' = schedule st /\
  selectionTimer st' = selectionTimer st /\ timers st' = timers st /\
  exists rest, calls st' = (calls st ++ CallActivateProfile p :: rest)%list.
Proof.
  unfold activation, try_except_KeyError, bind, call_source.
  destruct (activateProfile p (source st)) as [s1 [[]|x]]; cbn [source set_source log_call fst].
  - destruct (start s1) as [s2 [[]|x]]; cbn [source set_source log_call fst].
    + destruct (checkStatus s2) as [s3 r]. cbn. repeat split; try reflexivity.
      eexists. rewrite <- !app_assoc. reflexivity.
    + destruct x; cbn [source set_source log_call fst];
        try (cbn; repeat split; try reflexivity;
             eexists; rewrite <- !app_assoc; reflexivity).
      destruct (checkStatus s2) as [s3 r]. cbn. repeat split; try reflexivity.
      eexists. rewrite <- !app_assoc. reflexivity.
  - destruct x; cbn [source set_source log_call fst];
      try (cbn; repeat split; try reflexivity; eexists; reflexivity).
    destruct (checkStatus s1) as [s3 r]. cbn. repeat split; try reflexivity.
    eexists. rewrite <- !app_assoc. reflexivity.
Qed.

(** With no interactive client and an entry that is current, [selectProfile]
    is [_setCurrentEntry] on that entry: the entry stays the current one, so
    the search for a next entry is skipped. *)
Lemma selectProfile_some (st : State) (now : datetime) (s s' : Schedule) (e : ScheduleEntry) :
  hasClients USER (source st) = false ->
  schedule st = Some s ->
  Schedule_getCurrentEntry s now = (s', Ok (Some e)) ->
  selectProfile now st = _setCurrentEntry (Some e) now (set_schedule (Some s') st).
Proof.
  intros Huser Hsched Hget.
  unfold selectProfile, bind at 1 2 3, gets at 1 2. rewrite Huser, Hsched.
  unfold call_schedule. rewrite Hsched, Hget.
  unfold bind at 1.
  pose proof (setCurrentEntry_some e now (set_schedule (Some s') st)) as Heq.
  pose proof (activation_frame (getProfile e)
                (fst (scheduleSelection (Some (getScheduledEnd e now)) now
                        (set_currentEntry (Some e) (set_schedule (Some s') st))))) as Hfr.
  pose proof (scheduleSelection_frame (set_currentEntry (Some e) (set_schedule (Some s') st))
                (Some (getScheduledEnd e now)) now) as Hfr2.
  cbv zeta in Hfr, Hfr2. rewrite <- Heq in Hfr.
  destruct (_setCurrentEntry (Some e) now (set_schedule (Some s') st)) as [st2 [[]|x]];
    [|reflexivity].
  cbn [fst] in Hfr. destruct Hfr as (Hcur & _). destruct Hfr2 as (_ & Hcur2 & _).
  unfold bind, gets. rewrite Hcur, Hcur2. reflexivity.
Qed.

(** C2, as the code has it.  In [_setCurrentEntry], a [KeyError] raised by
    [activateProfile] or by [start] is swallowed: the method goes on to
    [checkStatus].  Any other exception raised by one of the two is not
    caught: it leaves [_setCurrentEntry] before [checkStatus] is called, and
    leaves [selectProfile], the function the timer thread runs.  The current
    entry and the timers are then as they were set before the activation. *)
Theorem setCurrentEntry_exceptions (e : ScheduleEntry) (now : datetime) (st : State) :
  let p := getProfile e in
  let st1 := fst (scheduleSelection (Some (getScheduledEnd e now)) now
                                    (set_currentEntry (Some e) st)) in
  (forall s1,
      activateProfile p (source st) = (s1, Raise KeyError) ->
      _setCurrentEntry (Some e) now st =
      call_source CallCheckStatus checkStatus
                  (set_source s1 (log_call (CallActivateProfile p) st1))) /\
  (forall s1 s2,
      activateProfile p (source st) = (s1, Ok tt) ->
      start s1 = (s2, Raise KeyError) ->
      _setCurrentEntry (Some e) now st =
      call_source CallCheckStatus checkStatus
                  (set_source s2 (log_call CallStart
                     (set_source s1 (log_call (CallActivateProfile p) st1))))) /\
  (forall s1 x,
      activateProfile p (source st) = (s1, Raise x) -> x <> KeyError ->
      _setCurrentEntry (Some e) now st =
      (set_source s1 (log_call (CallActivateProfile p) st1), Raise x)) /\
  (forall s1 s2 x,
      activateProfile p (source st) = (s1, Ok tt) ->
      start s1 = (s2, Raise x) -> x <> KeyError ->
      _setCurrentEntry (Some e) now st =
      (set_source s2 (log_call CallStart
         (set_source s1 (log_call (CallActivateProfile p) st1))), Raise x)) /\
  (forall s s' x,
      hasClients USER (source st) = false ->
      schedule st = Some s ->
      Schedule_getCurrentEntry s now = (s', Ok (Some e)) ->
      snd (_setCurrentEntry (Some e) now (set_schedule (Some s') st)) = Raise x ->
      snd (selectProfile now st) = Raise x).
Proof.
  intros p st1. subst p st1.
  pose proof (scheduleSelection_frame (set_currentEntry (Some e) st)
                (Some (getScheduledEnd e now)) now) as (Hsrc & _).
  cbn [source set_currentEntry] in Hsrc.
  rewrite setCurrentEntry_some.
  split; [|split; [|split; [|split]]].
  - intros s1 Hact. apply activation_KeyError_activate. now rewrite Hsrc.
  - intros s1 s2 Hact Hstart. apply (activation_start _ _ s1 s2 (Raise KeyError)); auto.
    now rewrite Hsrc.
  - intros s1 x Hact Hx. apply activation_raise_activate; [now rewrite Hsrc | exact Hx].
  - intros s1 s2 x Hact Hstart Hx.
    apply (activation_raise_start _ _ s1 s2 x); [now rewrite Hsrc | exact Hstart | exact Hx].
  - intros s s' x Huser Hsched Hget Hraise.
    now rewrite (selectProfile_some st now s s' e Huser Hsched Hget).
Qed.

(** C6, as the code has it.  When no interactive client is present and the
    schedule returns a current entry, [selectProfile] makes that entry the
    current one; on a source that is enabled and has not failed it cancels
    the timer it refers to and arms a new one that is due at the scheduled
    end of the entry, on any other source it leaves the timers alone; it then
    sends [activateProfile] and, when that returns, [start]; a [KeyError]
    from either is swallowed and the method ends with [checkStatus]. *)
Theorem selectProfile_current_entry
    (st : State) (now : datetime) (s s' : Schedule) (e : ScheduleEntry) :
  hasClients USER (source st) = false ->
  schedule st = Some s ->
  Schedule_getCurrentEntry s now = (s', Ok (Some e)) ->
  let p := getProfile e in
  let st' := fst (selectProfile now st) in
  let n := length (timers st) in
  currentEntry st' = Some e /\
  (isEnabled (source st) = true -> isFailed (source st) = false ->
   selectionTimer st' = Some n /\
   timers st' =
     (cancel_selection st ++ [mkTimer (getScheduledEnd e now - now) now Armed])%list /\
   exists tm, timers st' !! n = Some tm /\ is_armed tm = true /\
              timer_due tm = getScheduledEnd e now) /\
  (isEnabled (source st) = false \/ isFailed (source st) = true ->
   selectionTimer st' = selectionTimer st /\ timers st' = timers st) /\
  (exists rest, calls st' = (calls st ++ CallActivateProfile p :: rest)%list) /\
  (forall s1 s2 r,
      activateProfile p (source st) = (s1, Ok tt) ->
      start s1 = (s2, r) ->
      r = Ok tt \/ r = Raise KeyError ->
      calls st' = (calls st ++ [CallActivateProfile p; CallStart; CallCheckStatus])%list /\
      snd (selectProfile now st) = snd (checkStatus s2)) /\
  (forall s1,
      activateProfile p (source st) = (s1, Raise KeyError) ->
      calls st' = (calls st ++ [CallActivateProfile p; CallCheckStatus])%list /\
      snd (selectProfile now st) = snd (checkStatus s1)).
Proof.
  intros Huser Hsched Hget p st' n. subst p st' n.
  rewrite (selectProfile_some st now s s' e Huser Hsched Hget), setCurrentEntry_some.
  set (st0 := set_currentEntry (Some e) (set_schedule (Some s') st)).
  pose proof (scheduleSelection_frame st0 (Some (getScheduledEnd e now)) now)
    as (Hsrc1 & Hcur1 & _ & Hcalls1 & _).
  set (st1 := fst (scheduleSelection (Some (getScheduledEnd e now)) now st0)) in *.
  change (source st0) with (source st) in Hsrc1.
  change (calls st0) with (calls st) in Hcalls1.
  change (currentEntry st0) with (Some e) in Hcur1.
  pose proof (activation_frame (getProfile e) st1) as (Hcur & _ & Hsel & Htim & Hcalls).
  split; [now rewrite Hcur|].
  split; [|split; [|split; [|split]]].
  - intros Hen Hfail. rewrite Hsel, Htim. unfold st1.
    rewrite scheduleSelection_up by assumption. cbn [fst].
    unfold selection_armed. cbn [selectionTimer timers set_selectionTimer set_timers].
    change (cancel_selection st0) with (cancel_selection st).
    assert (Hlen : length (cancel_selection st) = length (timers st)).
    { unfold cancel_selection. destruct (selectionTimer st); [apply length_alter | reflexivity]. }
    rewrite Hlen. split; [reflexivity|]. split; [reflexivity|].
    eexists. split; [|split].
    + rewrite lookup_app_r by lia. rewrite Hlen, Nat.sub_diag. reflexivity.
    + reflexivity.
    + unfold timer_due. cbn. lia.
  - intros Hdown. rewrite Hsel, Htim. unfold st1.
    rewrite scheduleSelection_down; [split; reflexivity|].
    unfold source_down. change (source st0) with (source st).
    destruct Hdown as [H|H]; rewrite H; [reflexivity | apply orb_true_r].
  - rewrite <- Hcalls1. exact Hcalls.
  - intros s1 s2 r Hact Hstart Hr. rewrite <- Hsrc1 in Hact.
    rewrite (activation_start _ st1 s1 s2 r Hact Hstart Hr).
    unfold call_source. cbn [source set_source log_call calls].
    destruct (checkStatus s2) as [s3 r3]. cbn. rewrite Hcalls1. split; [|reflexivity].
    rewrite <- !app_assoc. reflexivity.
  - intros s1 Hact. rewrite <- Hsrc1 in Hact.
    rewrite (activation_KeyError_activate _ st1 s1 Hact).
    unfold call_source. cbn [source set_source log_call calls].
    destruct (checkStatus s1) as [s3 r3]. cbn. rewrite Hcalls1. split; [|reflexivity].
    rewrite <- !app_assoc. reflexivity.
Qed.

End ServiceSchedulerProperties.

(** ** The properties on the example source *)

Lemma selectProfile_user_present_witness :
  hasClients USER (source (scheduler_on source_busy)) = true /\
  selectProfile at_0700 (scheduler_on source_busy) = (scheduler_on source_busy, Ok tt).
Proof.
  split; [reflexivity|].
  apply selectProfile_user_present. reflexivity.
Defined.



(** A scheduler on the idle source: its first timer fires at 07:00 and
    selects "wfm" until 18:00; a change of frequency then asks for a
    re-evaluation in ten seconds.  Three timers have been created, one is
    armed. *)
Lemma at_most_one_timer_armed_witness :
  let st1 := fst (run (OpTimerFires 0) at_0700 (scheduler_on source_wfm)) in
  let st2 := fst (run OpOnFrequencyChange (at_0700 + timedelta 0 0 5) st1) in
  reachable st2 /\
  length (timers st2) = 3%nat /\
  armed_timers st2 = 1%nat /\
  (armed_timers st2 <= 1)%nat.
Proof.
  intros st1 st2.
  assert (Hreach : reachable st2).
  { apply reachable_step. apply reachable_step. apply reachable_init. }
  split; [exact Hreach|]. split; [reflexivity|]. split; [reflexivity|].
  exact (proj1 (at_most_one_timer_armed st2 Hreach)).
Defined.

(** The static schedule [{"0600-1800": "wfm"}] at 07:00: the current entry
    is "wfm", and the timer is due at 18:00 the same day. *)
Lemma selectProfile_current_entry_witness :
  let st := scheduler_on source_wfm in
  let st' := fst (selectProfile at_0700 st) in
  Schedule_parse config_wfm = Ok (Some (StaticSchedule [entry_wfm])) /\
  schedule st = Some (StaticSchedule [entry_wfm]) /\
  currentEntry st' = Some entry_wfm /\
  getProfile entry_wfm = VStr "wfm" /\
  getScheduledEnd entry_wfm at_0700 = at_1800 /\
  selectionTimer st' = Some 1%nat /\
  timers st' = [mkTimer (timedelta 0 0 10) at_0659_50 Cancelled;
                mkTimer (timedelta 11 0 0) at_0700 Armed] /\
  (exists tm, timers st' !! 1%nat = Some tm /\ is_armed tm = true /\ timer_due tm = at_1800) /\
  calls st' = [CallAddClient; CallActivateProfile (VStr "wfm"); CallStart; CallCheckStatus] /\
  snd (selectProfile at_0700 st) = Ok tt.
Proof.
  intros st st'.
  destruct (selectProfile_current_entry st at_0700
              (StaticSchedule [entry_wfm]) (StaticSchedule [entry_wfm]) entry_wfm)
    as (Hcur & Harmed & _ & _ & Hcalls & _); try reflexivity.
  destruct Harmed as (Hsel & Htimers & Hdue); [reflexivity | reflexivity |].
  destruct (Hcalls source_wfm source_wfm (Ok tt)) as [Hlog Hres];
    [reflexivity | reflexivity | left; reflexivity |].
  split; [reflexivity|]. split; [reflexivity|]. split; [exact Hcur|].
  split; [reflexivity|]. split; [reflexivity|]. split; [exact Hsel|].
  split; [exact Htimers|]. split; [exact Hdue|]. split; [exact Hlog | exact Hres].
Defined.

(** C6 does not hold on a source that is disabled: the entry is made the
    current one and the profile is activated, but no timer is armed for its
    end.  The state is one the scheduler can reach: the source is disabled
    while the first timer is waiting, and the timer fires before [onDisable]
    has cancelled it. *)
Lemma selectProfile_disabled_arms_nothing :
  let st := fst (run (OpSourceChanges source_disabled) at_0700 (scheduler_on source_wfm)) in
  let st' := fst (run (OpTimerFires 0) at_0700 st) in
  reachable st /\
  hasClients USER (source st) = false /\
  schedule st = Some (StaticSchedule [entry_wfm]) /\
  Schedule_getCurrentEntry (StaticSchedule [entry_wfm]) at_0700 =
    (StaticSchedule [entry_wfm], Ok (Some entry_wfm)) /\
  currentEntry st' = Some entry_wfm /\
  calls st' = [CallAddClient; CallActivateProfile (VStr "wfm"); CallStart; CallCheckStatus] /\
  armed_timers st' = 0%nat /\
  timers st' = [mkTimer (timedelta 0 0 10) at_0659_50 Fired].
Proof.
  intros st st'. split; [apply reachable_step, reachable_init|]. repeat split.
Qed.

(** On the source without the profile "wfm" the [KeyError] is swallowed and
    [start] is not sent; on the source whose [start] fails with a
    [RuntimeError] the exception leaves [_setCurrentEntry] and
    [selectProfile], and [checkStatus] is not sent. *)
Lemma setCurrentEntry_exceptions_witness :
  _setCurrentEntry (Some entry_wfm) at_0700 (scheduler_on source_no_profile) =
    call_source CallCheckStatus checkStatus
      (set_source source_no_profile
         (log_call (CallActivateProfile (VStr "wfm"))
            (fst (scheduleSelection (Some at_1800) at_0700
                    (set_currentEntry (Some entry_wfm) (scheduler_on source_no_profile)))))) /\
  calls (fst (_setCurrentEntry (Some entry_wfm) at_0700 (scheduler_on source_no_profile))) =
    [CallAddClient; CallActivateProfile (VStr "wfm"); CallCheckStatus] /\
  snd (_setCurrentEntry (Some entry_wfm) at_0700 (scheduler_on source_broken)) =
    Raise RuntimeError /\
  snd (selectProfile at_0700 (scheduler_on source_broken)) = Raise RuntimeError.
Proof.
  destruct (setCurrentEntry_exceptions entry_wfm at_0700 (scheduler_on source_no_profile))
    as (Hkey & _).
  destruct (setCurrentEntry_exceptions entry_wfm at_0700 (scheduler_on source_broken))
    as (_ & _ & _ & Hstart & Hsel).
  split; [apply (Hkey source_no_profile); reflexivity|].
  split; [reflexivity|].
  assert (Hraise : snd (_setCurrentEntry (Some entry_wfm) at_0700 (scheduler_on source_broken)) =
                   Raise RuntimeError).
  { rewrite (Hstart source_broken source_broken RuntimeError);
      [reflexivity | reflexivity | reflexivity | discriminate]. }
  split; [exact Hraise|].
  apply (Hsel (StaticSchedule [entry_wfm]) (StaticSchedule [entry_wfm]) RuntimeError);
    try reflexivity.
Defined.

(** C2 does not hold for exceptions other than [KeyError]: on the source
    whose [start] fails with a [RuntimeError], the thread of the first timer
    ends with that exception, raised out of [selectProfile]; [checkStatus]
    has not been called. *)
Lemma timer_thread_raises :
  let st := scheduler_on source_broken in
  let st' := fst (timer_fires 0 at_0700 st) in
  timers st = [mkTimer (timedelta 0 0 10) at_0659_50 Armed] /\
  snd (timer_fires 0 at_0700 st) = Raise RuntimeError /\
  snd (selectProfile at_0700 st) = Raise RuntimeError /\
  calls st' = [CallAddClient; CallActivateProfile (VStr "wfm"); CallStart] /\
  currentEntry st' = Some entry_wfm.
Proof. repeat split. Qed.

(** * Further properties of the schedules and of the control loop *)

(** ** Time-of-day entries *)

Lemma time_of_unique (k r : Z) : 0 <= r < us_per_day -> time_of (k * us_per_day + r) = r.
Proof.
  intros Hr. unfold time_of. pose proof us_per_day_pos.
  rewrite Z.add_comm, Z.mod_add by lia. apply Z.mod_small, Hr.
Qed.

Lemma isCurrent_time_spec (s t : timeofday) (p : value) (dt : datetime) :
  isCurrent (TimeScheduleEntry s t p) dt = true <->
  (s < t /\ s <= time_of dt < t) \/ (t <= s /\ (s <= time_of dt \/ time_of dt < t)).
Proof.
  cbn [isCurrent]. destruct (s <? t) eqn:E.
  - apply Z.ltb_lt in E. rewrite andb_true_iff, Z.leb_le, Z.ltb_lt. lia.
  - apply Z.ltb_ge in E. rewrite orb_true_iff, Z.leb_le, Z.ltb_lt. lia.
Qed.

Lemma next_occurrence_cases (now : datetime) (t : timeofday) :
  0 <= t < us_per_day ->
  (time_of now <= t /\ next_occurrence now t = date_of now + t) \/
  (t < time_of now /\ next_occurrence now t = date_of now + us_per_day + t).
Proof.
  intros Ht. unfold next_occurrence. rewrite advance_days_today by exact Ht.
  pose proof (date_time_split now) as Hs. unfold combine.
  destruct (date_of now + t <? now) eqn:E.
  - apply Z.ltb_lt in E. right. split; lia.
  - apply Z.ltb_ge in E. left. split; [lia | reflexivity].
Qed.

(** The time of day of an instant of today or of tomorrow. *)
Lemma time_of_near (now dt : datetime) :
  date_of now <= dt < date_of now + 2 * us_per_day ->
  (dt < date_of now + us_per_day /\ time_of dt = dt - date_of now) \/
  (date_of now + us_per_day <= dt /\ time_of dt = dt - date_of now - us_per_day).
Proof.
  intros Hdt. unfold date_of in *.
  destruct (Z_lt_le_dec dt (now / us_per_day * us_per_day + us_per_day)) as [Hlt|Hge].
  - left. split; [exact Hlt|].
    replace dt with (now / us_per_day * us_per_day + (dt - now / us_per_day * us_per_day))
      at 1 by lia.
    apply time_of_unique. lia.
  - right. split; [exact Hge|].
    replace dt with ((now / us_per_day + 1) * us_per_day +
                     (dt - now / us_per_day * us_per_day - us_per_day)) at 1 by lia.
    apply time_of_unique. lia.
Qed.

(** A window that is current stays current until its scheduled end. *)
Lemma time_entry_until_end
    (s t : timeofday) (p : value) (now : datetime) :
  0 <= s < us_per_day ->
  0 <= t < us_per_day ->
  isCurrent (TimeScheduleEntry s t p) now = true ->
  let e := TimeScheduleEntry s t p in
  now <= getScheduledEnd e now <= now + us_per_day /\
  (forall dt, now <= dt < getScheduledEnd e now -> isCurrent e dt = true) /\
  (s <> t -> now < getScheduledEnd e now /\ isCurrent e (getScheduledEnd e now) = false).
Proof.
  intros Hs Ht Hcur e. subst e. cbn [getScheduledEnd].
  pose proof (time_of_range now) as Hx. pose proof (date_time_split now) as Hsplit.
  pose proof (next_occurrence_spec now t Ht) as (Hbound & Hend).
  apply isCurrent_time_spec in Hcur.
  split; [lia|]. split.
  - intros dt Hdt. apply isCurrent_time_spec.
    destruct (time_of_near now dt) as [(Hd & Htm)|(Hd & Htm)]; [lia| |];
      destruct (next_occurrence_cases now t Ht) as [(Hc & Hn)|(Hc & Hn)]; lia.
  - intros Hne.
    assert (Hlt : now < next_occurrence now t).
    { destruct (next_occurrence_cases now t Ht) as [(Hc & Hn)|(Hc & Hn)]; lia. }
    split; [exact Hlt|].
    destruct (isCurrent (TimeScheduleEntry s t p) (next_occurrence now t)) eqn:E; [|reflexivity].
    apply isCurrent_time_spec in E. rewrite Hend in E. lia.
Qed.

(** X1. A time-of-day entry that is current at [now] stays current at every
    instant before its scheduled end, which is at most a day away; unless
    the window is the full day ([startTime = endTime]), the end is strictly
    after [now] and the entry is no longer current at it. *)
Theorem TimeScheduleEntry_current_until_end
    (s t : timeofday) (p : value) (now : datetime) :
  0 <= s < us_per_day ->
  0 <= t < us_per_day ->
  isCurrent (TimeScheduleEntry s t p) now = true ->
  let e := TimeScheduleEntry s t p in
  now <= getScheduledEnd e now <= now + us_per_day /\
  (forall dt, now <= dt < getScheduledEnd e now -> isCurrent e dt = true) /\
  (s <> t -> now < getScheduledEnd e now /\ isCurrent e (getScheduledEnd e now) = false).
Proof.
  intros Hs Ht Hcur.
  apply (time_entry_until_end s t p now Hs Ht Hcur).
Qed.

Lemma TimeScheduleEntry_current_until_end_witness :
  getScheduledEnd entry_wfm at_0700 = at_1800 /\
  (forall dt, at_0700 <= dt < at_1800 -> isCurrent entry_wfm dt = true) /\
  isCurrent entry_wfm at_1800 = false.
Proof.
  assert (Hs : 0 <= mk_time 6 0 < us_per_day) by (split; [discriminate | reflexivity]).
  assert (Ht : 0 <= mk_time 18 0 < us_per_day) by (split; [discriminate | reflexivity]).
  assert (Hcur : isCurrent (TimeScheduleEntry (mk_time 6 0) (mk_time 18 0) (VStr "wfm")) at_0700
                 = true) by reflexivity.
  destruct (TimeScheduleEntry_current_until_end _ _ _ _ Hs Ht Hcur) as (_ & Hstay & Hend).
  split; [reflexivity|]. split; [exact Hstay|].
  apply Hend. discriminate.
Defined.

(** X2. The next activation of a time-of-day entry is the first instant at
    or after [now] whose time of day is the start of the window: it is less
    than a day away, and the entry is current at it. *)
Theorem TimeScheduleEntry_next_activation
    (s t : timeofday) (p : value) (now : datetime) :
  0 <= s < us_per_day ->
  let e := TimeScheduleEntry s t p in
  now <= getNextActivation e now < now + us_per_day /\
  time_of (getNextActivation e now) = s /\
  isCurrent e (getNextActivation e now) = true /\
  (forall dt, now <= dt < getNextActivation e now -> time_of dt <> s).
Proof.
  intros Hs e. subst e. cbn [getNextActivation].
  pose proof (time_of_range now) as Hx. pose proof (date_time_split now) as Hsplit.
  pose proof (next_occurrence_spec now s Hs) as (Hbound & Hstart).
  split; [exact Hbound|]. split; [exact Hstart|]. split.
  - apply isCurrent_time_spec. rewrite Hstart. lia.
  - intros dt Hdt.
    destruct (time_of_near now dt) as [(Hd & Htm)|(Hd & Htm)]; [lia| |];
      destruct (next_occurrence_cases now s Hs) as [(Hc & Hn)|(Hc & Hn)]; lia.
Qed.

Lemma TimeScheduleEntry_next_activation_witness :
  getNextActivation entry_wfm at_0700 = some_day + us_per_day + timedelta 6 0 0 /\
  isCurrent entry_wfm (getNextActivation entry_wfm at_0700) = true.
Proof.
  assert (Hs : 0 <= mk_time 6 0 < us_per_day) by (split; [discriminate | reflexivity]).
  destruct (TimeScheduleEntry_next_activation (mk_time 6 0) (mk_time 18 0) (VStr "wfm")
              at_0700 Hs) as (_ & _ & Hcur & _).
  split; [reflexivity | exact Hcur].
Defined.

(** ** Time-range schedules *)

(** X3. [TimerangeSchedule.getCurrentEntry] returns the first entry, in the
    order of the schedule, that is current: the entries before it are not
    current, and it returns [None] only when no entry is current. *)
Theorem Timerange_getCurrentEntry_first_match
    (entries : list ScheduleEntry) (now : datetime) :
  match Timerange_getCurrentEntry entries now with
  | Some e =>
      exists before after,
        entries = (before ++ e :: after)%list /\
        isCurrent e now = true /\
        Forall (fun x => isCurrent x now = false) before
  | None => Forall (fun x => isCurrent x now = false) entries
  end.
Proof.
  unfold Timerange_getCurrentEntry.
  induction entries as [|x entries IH]; cbn [List.filter]; [constructor|].
  destruct (isCurrent x now) eqn:E.
  - exists [], entries. split; [reflexivity|]. split; [exact E | constructor].
  - destruct (List.filter (fun p => isCurrent p now) entries) as [|e rest].
    + constructor; assumption.
    + destruct IH as (before & after & -> & Hcur & Hbefore).
      exists (x :: before), after. split; [reflexivity|]. split; [exact Hcur|].
      constructor; assumption.
Qed.

Lemma sorted_by_head {A} (key : A -> Z) (l : list A) :
  match sorted_by key l with
  | e :: _ =>
      exists before after,
        l = (before ++ e :: after)%list /\
        Forall (fun x => key e < key x) before /\
        Forall (fun x => key e <= key x) after
  | [] => l = []
  end.
Proof.
  induction l as [|x l IH]; [reflexivity|].
  cbn [sorted_by fold_right]. fold (sorted_by key l).
  destruct (sorted_by key l) as [|e rest]; cbn [insert_by].
  - subst l. exists [], []. split; [reflexivity|]. split; constructor.
  - destruct IH as (before & after & -> & Hbefore & Hafter).
    destruct (key x <=? key e) eqn:E.
    + apply Z.leb_le in E. exists [], (before ++ e :: after)%list.
      split; [reflexivity|]. split; [constructor|].
      apply Forall_app. split.
      * eapply Forall_impl; [exact Hbefore|]. cbn. intros; lia.
      * constructor; [exact E|]. eapply Forall_impl; [exact Hafter|]. cbn. intros; lia.
    + apply Z.leb_gt in E. exists (x :: before), after.
      split; [reflexivity|]. split; [|exact Hafter].
      constructor; [exact E | exact Hbefore].
Qed.

(** X4. [TimerangeSchedule.getNextEntry] returns the entry with the earliest
    next activation, the first one in the order of the schedule when several
    are equally early; it returns [None] only for a schedule without
    entries. *)
Theorem Timerange_getNextEntry_earliest
    (entries : list ScheduleEntry) (now : datetime) :
  match Timerange_getNextEntry entries now with
  | Some e =>
      exists before after,
        entries = (before ++ e :: after)%list /\
        Forall (fun x => getNextActivation e now < getNextActivation x now) before /\
        Forall (fun x => getNextActivation e now <= getNextActivation x now) after
  | None => entries = []
  end.
Proof.
  unfold Timerange_getNextEntry.
  pose proof (sorted_by_head (fun e => getNextActivation e now) entries) as H.
  destruct (sorted_by (fun e => getNextActivation e now) entries); exact H.
Qed.

(** ** Window tokens *)

Lemma in_Z_range (n x : Z) : 0 <= x < n -> In x (map Z.of_nat (seq 0 (Z.to_nat n))).
Proof.
  intros Hx. apply in_map_iff. exists (Z.to_nat x). split; [lia|].
  apply in_seq. lia.
Qed.

Lemma strptime_HM_two_digits (h m : Z) :
  0 <= h <= 23 -> 0 <= m <= 59 ->
  strptime_HM (two_digits h ++ two_digits m) = Ok (mk_time h m).
Proof.
  intros Hh Hm.
  assert (Hall : forallb (fun h => forallb (fun m =>
                   result_is Z.eqb (strptime_HM (two_digits h ++ two_digits m)) (mk_time h m))
                   (map Z.of_nat (seq 0 60))) (map Z.of_nat (seq 0 24)) = true)
    by (vm_compute; reflexivity).
  rewrite forallb_forall in Hall. specialize (Hall h (in_Z_range 24 h ltac:(lia))).
  rewrite forallb_forall in Hall. specialize (Hall m (in_Z_range 60 m ltac:(lia))).
  unfold result_is in Hall.
  destruct (strptime_HM (two_digits h ++ two_digits m)) as [x|]; [|discriminate].
  apply Z.eqb_eq in Hall. now subst x.
Qed.

Lemma digit_of_char (c : ascii) (d : Z) :
  digit_of c = Some d -> 0 <= d <= 9 /\ c = digit_char d.
Proof.
  unfold digit_of, digit_char. intros H.
  destruct ((48 <=? Z.of_nat (nat_of_ascii c)) && (Z.of_nat (nat_of_ascii c) <=? 57)) eqn:E;
    [|discriminate].
  apply andb_true_iff in E as [E1 E2]. apply Z.leb_le in E1, E2.
  injection H as <-. split; [lia|].
  replace (Z.to_nat (48 + (Z.of_nat (nat_of_ascii c) - 48))) with (nat_of_ascii c) by lia.
  symmetry. apply ascii_nat_embedding.
Qed.

Lemma digits_div_mod (d0 d1 : Z) :
  0 <= d0 <= 9 -> 0 <= d1 <= 9 ->
  (10 * d0 + d1) / 10 = d0 /\ (10 * d0 + d1) mod 10 = d1.
Proof.
  intros H0 H1. split; symmetry.
  - apply (Z.div_unique _ 10 d0 d1); lia.
  - apply (Z.mod_unique _ 10 d0 d1); lia.
Qed.

Lemma two_digits_digits (d0 d1 : Z) :
  0 <= d0 <= 9 -> 0 <= d1 <= 9 ->
  two_digits (10 * d0 + d1) = String (digit_char d0) (String (digit_char d1) EmptyString).
Proof.
  intros H0 H1. unfold two_digits.
  destruct (digits_div_mod d0 d1 H0 H1) as [-> ->]. reflexivity.
Qed.

(** Four characters that [strptime] accepts are two digits of an hour up to
    23 and two digits of a minute up to 59. *)
Lemma strptime_HM_four (a b c d : ascii) (x : timeofday) :
  strptime_HM (String a (String b (String c (String d EmptyString)))) = Ok x ->
  exists h m,
    0 <= h <= 23 /\ 0 <= m <= 59 /\
    String a (String b (String c (String d EmptyString))) = (two_digits h ++ two_digits m)%string /\
    x = mk_time h m.
Proof.
  intros Hparse.
  assert (Hdigits : exists d0 d1 d2 d3,
             digit_of a = Some d0 /\ digit_of b = Some d1 /\
             digit_of c = Some d2 /\ digit_of d = Some d3 /\
             10 * d0 + d1 <= 23 /\ d2 <= 5 /\ x = mk_time (10 * d0 + d1) (10 * d2 + d3)).
  { revert Hparse. unfold strptime_HM, match_HM, match_H, match_M.
    destruct (digit_of a) as [d0|] eqn:Ea; [|discriminate].
    destruct (digit_of b) as [d1|] eqn:Eb;
      [|cbn; rewrite ?Eb; cbn; discriminate].
    destruct ((d0 =? 2) && (d1 <=? 3)) eqn:E20; destruct (d0 <=? 1) eqn:E01;
      destruct (digit_of c) as [d2|] eqn:Ec; destruct (digit_of d) as [d3|] eqn:Ed;
      cbn; rewrite ?Eb, ?Ec, ?Ed; cbn; rewrite ?Ec, ?Ed; cbn;
      try destruct (d2 <=? 5) eqn:E5; cbn; rewrite ?Eb, ?Ec, ?Ed; cbn;
      try destruct (d1 <=? 5) eqn:E15; cbn; rewrite ?Eb, ?Ec, ?Ed; cbn;
      try discriminate.
    all: intros [= <-]; exists d0, d1, d2, d3;
      apply digit_of_char in Ea as [Ha _], Eb as [Hb _];
      try (apply andb_true_iff in E20 as [E2 E3]; apply Z.eqb_eq in E2; apply Z.leb_le in E3);
      try apply Z.leb_le in E01; apply Z.leb_le in E5;
      repeat split; try reflexivity; try lia; f_equal; lia. }
  destruct Hdigits as (d0 & d1 & d2 & d3 & Ea & Eb & Ec & Ed & Hh & Hm & ->).
  apply digit_of_char in Ea as [Ha ->], Eb as [Hb ->], Ec as [Hc ->], Ed as [Hd ->].
  exists (10 * d0 + d1), (10 * d2 + d3).
  split; [lia|]. split; [lia|]. split; [|reflexivity].
  rewrite !two_digits_digits by assumption. reflexivity.
Qed.

(** X5. A window token made of two times of day with hours up to 23 and
    minutes up to 59, four digits each, is read as an entry with exactly
    those times; the character between the two times is not looked at. *)
Theorem static_entries_window_token
    (h1 m1 h2 m2 : Z) (sep : ascii) (profile : value) (rest : dict) :
  0 <= h1 <= 23 -> 0 <= m1 <= 59 -> 0 <= h2 <= 23 -> 0 <= m2 <= 59 ->
  static_entries ((window_token h1 m1 sep h2 m2, profile) :: rest) =
  (let? entries := static_entries rest in
   Ok (TimeScheduleEntry (mk_time h1 m1) (mk_time h2 m2) profile :: entries)).
Proof.
  intros Hh1 Hm1 Hh2 Hm2.
  pose proof (strptime_HM_two_digits h1 m1 Hh1 Hm1) as H1.
  pose proof (strptime_HM_two_digits h2 m2 Hh2 Hm2) as H2.
  unfold static_entries; fold static_entries.
  unfold window_token, two_digits in *.
  cbn [String.append String.length Nat.eqb negb String.substring] in *.
  rewrite H1, H2. reflexivity.
Qed.

Lemma static_entries_window_token_witness :
  window_token 23 0 "/" 1 30 = "2300/0130" /\
  static_entries [("2300/0130", VStr "night")] =
    Ok [TimeScheduleEntry (mk_time 23 0) (mk_time 1 30) (VStr "night")].
Proof.
  split; [reflexivity|].
  apply (static_entries_window_token 23 0 1 30 "/" (VStr "night") []); lia.
Defined.

(** What an accepted nine-character token looks like. *)
Lemma static_entries_window_inv
    (time : string) (profile : value) (rest : dict) (entries : list ScheduleEntry) :
  String.length time = 9%nat ->
  static_entries ((time, profile) :: rest) = Ok entries ->
  exists h1 m1 sep h2 m2 tail,
    0 <= h1 <= 23 /\ 0 <= m1 <= 59 /\ 0 <= h2 <= 23 /\ 0 <= m2 <= 59 /\
    time = window_token h1 m1 sep h2 m2 /\
    static_entries rest = Ok tail /\
    entries = TimeScheduleEntry (mk_time h1 m1) (mk_time h2 m2) profile :: tail.
Proof.
  intros Hlen Hok.
  destruct time as [|c1 [|c2 [|c3 [|c4 [|c5 [|c6 [|c7 [|c8 [|c9 [|c10 r]]]]]]]]]];
    try discriminate Hlen.
  unfold static_entries in Hok; fold static_entries in Hok.
  cbn [String.length Nat.eqb negb String.substring] in Hok.
  destruct (strptime_HM (String c1 (String c2 (String c3 (String c4 EmptyString)))))
    as [s|] eqn:Es; [|discriminate].
  destruct (strptime_HM (String c6 (String c7 (String c8 (String c9 EmptyString)))))
    as [t|] eqn:Et; [|discriminate].
  cbn [rbind] in Hok.
  destruct (static_entries rest) as [tail|] eqn:Erest; [|discriminate].
  cbn [rbind] in Hok. injection Hok as <-.
  apply strptime_HM_four in Es as (h1 & m1 & Hh1 & Hm1 & E1 & ->).
  apply strptime_HM_four in Et as (h2 & m2 & Hh2 & Hm2 & E2 & ->).
  exists h1, m1, c5, h2, m2, tail. repeat split; try lia.
  unfold window_token. unfold two_digits in *.
  cbn [String.append] in *. injection E1 as -> -> -> ->. injection E2 as -> -> -> ->.
  reflexivity.
Qed.

(** X6. A nine-character token for which the constructor does not raise is
    made of two times of day, four digits each with the hour up to 23 and
    the minute up to 59, around one character; the entry built from it has
    those times and the profile of the token, and comes first. *)
Theorem static_entries_accepts_windows_only
    (time : string) (profile : value) (rest : dict) (entries : list ScheduleEntry) :
  String.length time = 9%nat ->
  static_entries ((time, profile) :: rest) = Ok entries ->
  exists h1 m1 sep h2 m2 tail,
    0 <= h1 <= 23 /\ 0 <= m1 <= 59 /\ 0 <= h2 <= 23 /\ 0 <= m2 <= 59 /\
    time = window_token h1 m1 sep h2 m2 /\
    static_entries rest = Ok tail /\
    entries = TimeScheduleEntry (mk_time h1 m1) (mk_time h2 m2) profile :: tail.
Proof.
  intros Hlen Hok.
  apply (static_entries_window_inv time profile rest entries Hlen Hok).
Qed.

Lemma static_entries_accepts_windows_only_witness :
  exists h1 m1 sep h2 m2 tail,
    0 <= h1 <= 23 /\ 0 <= m1 <= 59 /\ 0 <= h2 <= 23 /\ 0 <= m2 <= 59 /\
    "0600-1800" = window_token h1 m1 sep h2 m2 /\
    static_entries [] = Ok tail /\
    [entry_wfm] = TimeScheduleEntry (mk_time h1 m1) (mk_time h2 m2) (VStr "wfm") :: tail.
Proof.
  apply (static_entries_accepts_windows_only "0600-1800" (VStr "wfm") [] [entry_wfm]);
    reflexivity.
Defined.

(** ** Errors of the configuration parser *)

(** X7. A scheduler block that asks for a static, daylight or rotation
    schedule, or names no type, and has no [schedule] member makes
    [Schedule.parse] raise [KeyError]. *)
Theorem Schedule_parse_missing_schedule (props sc : dict) :
  dict_get "scheduler" props = Some (VDict sc) ->
  known_schedule_type (schedule_type sc) = true ->
  dict_get "schedule" sc = None ->
  Schedule_parse props = Raise KeyError.
Proof.
  intros Hsc Hknown Hmissing.
  unfold Schedule_parse, dict_has, py_getitem_str. rewrite Hsc. cbn [rbind].
  unfold py_contains_str, dict_has, known_schedule_type, schedule_type in *.
  destruct (dict_get "type" sc) as [t|]; cbn [rbind] in *.
  - destruct (py_eq_str t "static"); [now rewrite Hmissing|].
    destruct (py_eq_str t "daylight"); [now rewrite Hmissing|].
    destruct (py_eq_str t "rotation"); [now rewrite Hmissing|discriminate].
  - now rewrite Hmissing.
Qed.

Lemma Schedule_parse_missing_schedule_witness :
  Schedule_parse [("scheduler", VDict [("type", VStr "rotation")])] = Raise KeyError /\
  Schedule_parse [("scheduler", VDict [])] = Raise KeyError.
Proof.
  split.
  - apply (Schedule_parse_missing_schedule _ [("type", VStr "rotation")]); reflexivity.
  - apply (Schedule_parse_missing_schedule _ []); reflexivity.
Defined.

(** X8. A scheduler block that is not a mapping makes [Schedule.parse] raise
    [TypeError], whatever else the properties hold. *)
Theorem Schedule_parse_block_not_a_dict (props : dict) (sc : value) :
  dict_get "scheduler" props = Some sc ->
  is_dict sc = false ->
  Schedule_parse props = Raise TypeError.
Proof.
  intros Hsc Hnot.
  unfold Schedule_parse, dict_has, py_getitem_str at 1. rewrite Hsc. cbn [rbind].
  destruct sc as [| b | n | s | l | d]; try discriminate Hnot; try reflexivity.
  - cbn [py_contains_str rbind]. destruct (is_substring "type" s); reflexivity.
  - cbn [py_contains_str rbind].
    destruct (existsb (fun x => py_eq_str x "type") l); reflexivity.
Qed.

Lemma Schedule_parse_block_not_a_dict_witness :
  Schedule_parse [("scheduler", VStr "rotation"); ("schedule", VDict [])] = Raise TypeError /\
  Schedule_parse [("scheduler", VNone)] = Raise TypeError.
Proof.
  split.
  - apply (Schedule_parse_block_not_a_dict _ (VStr "rotation")); reflexivity.
  - apply (Schedule_parse_block_not_a_dict _ VNone); reflexivity.
Defined.

(** ** Rotation *)

(** X9. A rotation block with a non-empty list of profiles and an interval
    of [m] minutes (5 when the block names none) is parsed into a rotation
    whose first read selects the first profile of the list, from the read
    until [m] minutes later. *)
Theorem Schedule_parse_rotation_first_read
    (props sc d : dict) (p0 : value) (ps : list value) (m : Z) (now : datetime) :
  dict_get "scheduler" props = Some (VDict sc) ->
  dict_get "type" sc = Some (VStr "rotation") ->
  dict_get "schedule" sc = Some (VDict d) ->
  dict_get "profiles" d = Some (VList (p0 :: ps)) ->
  dict_get "interval" d = Some (VInt m) \/ (dict_get "interval" d = None /\ m = 5) ->
  let r := mkRotation (VList (p0 :: ps)) (VInt (m * 60)) 0 None in
  Schedule_parse props = Ok (Some (Rotation r)) /\
  RotationSchedule_getCurrentEntry r now =
    (mkRotation (VList (p0 :: ps)) (VInt (m * 60)) 0 (Some (now + timedelta 0 m 0)),
     Ok (Some (RotationScheduleEntry now (now + timedelta 0 m 0) p0))).
Proof.
  intros Hsc Htype Hsched Hps Hint r. subst r. split.
  - unfold Schedule_parse, dict_has, py_getitem_str. rewrite Hsc. cbn [rbind].
    unfold py_contains_str, dict_has. rewrite Htype. cbn [rbind py_eq_str String.eqb].
    cbn. rewrite Hsched. cbn [rbind].
    unfold RotationSchedule_init, py_contains_str, py_getitem_str, dict_has.
    rewrite Hps. cbn [rbind].
    destruct Hint as [Hint | [Hint ->]]; rewrite Hint; reflexivity.
  - destruct (getCurrentEntry_fresh (p0 :: ps) (m * 60) 0 now) as (p & Hnth & Hread);
      [discriminate | cbn [List.length]; lia |].
    cbn in Hnth. injection Hnth as <-. rewrite Hread.
    unfold timedelta. replace (m * 60 * us_per_second) with (((0 * 60 + m) * 60 + 0) * us_per_second)
      by lia. reflexivity.
Qed.

Lemma Schedule_parse_rotation_first_read_witness :
  Schedule_parse [("scheduler", VDict [("type", VStr "rotation"); ("schedule", rotation_ab)])] =
    Ok (Some (Rotation (mkRotation (VList [VStr "a"; VStr "b"]) (VInt 300) 0 None))) /\
  snd (RotationSchedule_getCurrentEntry
         (mkRotation (VList [VStr "a"; VStr "b"]) (VInt 300) 0 None) at_0700) =
    Ok (Some (RotationScheduleEntry at_0700 (at_0700 + timedelta 0 5 0) (VStr "a"))).
Proof.
  destruct (Schedule_parse_rotation_first_read
              [("scheduler", VDict [("type", VStr "rotation"); ("schedule", rotation_ab)])]
              [("type", VStr "rotation"); ("schedule", rotation_ab)]
              [("profiles", VList [VStr "a"; VStr "b"]); ("interval", VInt 5)]
              (VStr "a") [VStr "b"] 5 at_0700) as [Hparse Hread];
    try reflexivity; [left; reflexivity|].
  split; [exact Hparse | exact (f_equal snd Hread)].
Defined.

(** One read of a rotation whose cursor is inside the list: it returns an
    entry for a profile of the list, the cursor stays or moves one step, and
    the end time is the one it had, when that is still ahead, or one
    interval after the read. *)
Lemma getCurrentEntry_step (ps : list value) (I i : Z) (e : option datetime) (now : datetime) :
  ps <> [] -> 0 <= i < Z.of_nat (List.length ps) ->
  exists i' t p,
    0 <= i' < Z.of_nat (List.length ps) /\
    nth_error ps (Z.to_nat i') = Some p /\
    RotationSchedule_getCurrentEntry (mkRotation (VList ps) (VInt I) i e) now =
      (mkRotation (VList ps) (VInt I) i' (Some t),
       Ok (Some (RotationScheduleEntry now t p))) /\
    (0 < I -> now < t) /\
    (match e with
     | Some t0 => if t0 <=? now then i' = (i + 1) mod Z.of_nat (List.length ps) /\
                                     t = now + I * us_per_second
                  else i' = i /\ t = t0
     | None => i' = i /\ t = now + I * us_per_second
     end).
Proof.
  intros Hne Hi. pose proof (nonempty_length ps Hne) as HN.
  assert (Hus : 0 < us_per_second) by reflexivity.
  destruct e as [t0|].
  - destruct (t0 <=? now) eqn:E.
    + apply Z.leb_le in E. rewrite getCurrentEntry_expired by assumption.
      destruct (getCurrentEntry_fresh ps I ((i + 1) mod Z.of_nat (List.length ps)) now Hne)
        as (p & Hnth & Hread); [apply Z.mod_pos_bound; lia|].
      exists ((i + 1) mod Z.of_nat (List.length ps)), (now + I * us_per_second), p.
      split; [apply Z.mod_pos_bound; lia|]. split; [exact Hnth|]. split; [exact Hread|].
      split; [nia | split; reflexivity].
    + apply Z.leb_gt in E.
      destruct (getCurrentEntry_running ps I i t0 now Hne Hi E) as (p & Hnth & Hread).
      exists i, t0, p. split; [exact Hi|]. split; [exact Hnth|]. split; [exact Hread|].
      split; [intros _; exact E | split; reflexivity].
  - destruct (getCurrentEntry_fresh ps I i now Hne Hi) as (p & Hnth & Hread).
    exists i, (now + I * us_per_second), p.
    split; [exact Hi|]. split; [exact Hnth|]. split; [exact Hread|].
    split; [nia | split; reflexivity].
Qed.

Lemma rotation_over_read (ps : list value) (I : Z) (rs : RotationSchedule) (now : datetime) :
  ps <> [] -> rotation_over ps I rs ->
  rotation_over ps I (fst (RotationSchedule_getCurrentEntry rs now)).
Proof.
  intros Hne (Hps & HI & Hi). destruct rs as [ps' I' i e]. cbn in Hps, HI, Hi. subst ps' I'.
  destruct (getCurrentEntry_step ps I i e now Hne Hi) as (i' & t & p & Hi' & _ & Hread & _).
  rewrite Hread. cbn [fst]. repeat split; cbn; lia.
Qed.

Lemma rotation_over_reads (ps : list value) (I : Z) (times : list datetime) :
  forall rs, ps <> [] -> rotation_over ps I rs -> rotation_over ps I (rotation_reads rs times).
Proof.
  induction times as [|t times IH]; intros rs Hne Hrs; [exact Hrs|].
  cbn [rotation_reads fold_left]. apply IH; [exact Hne|]. now apply rotation_over_read.
Qed.

(** X11. Reads during a dwell change nothing: after a read of a rotation
    with a positive interval, every read before the end time of the entry it
    returned - a second read at the same instant included - leaves the
    rotation as it is and returns the same profile and the same end time. *)
Theorem RotationSchedule_read_again
    (ps : list value) (I i : Z) (e : option datetime) (now : datetime) :
  ps <> [] -> 0 <= i < Z.of_nat (List.length ps) -> 0 < I ->
  exists rs' t p,
    RotationSchedule_getCurrentEntry (mkRotation (VList ps) (VInt I) i e) now =
      (rs', Ok (Some (RotationScheduleEntry now t p))) /\
    now < t /\
    forall now', now' < t ->
      RotationSchedule_getCurrentEntry rs' now' =
        (rs', Ok (Some (RotationScheduleEntry now' t p))).
Proof.
  intros Hne Hi HI.
  destruct (getCurrentEntry_step ps I i e now Hne Hi)
    as (i' & t & p & Hi' & Hnth & Hread & Hpos & _).
  exists (mkRotation (VList ps) (VInt I) i' (Some t)), t, p.
  split; [exact Hread|]. split; [exact (Hpos HI)|].
  intros now' Hnow'.
  destruct (getCurrentEntry_running ps I i' t now' Hne Hi' Hnow') as (p' & Hnth' & Hread').
  rewrite Hnth in Hnth'. injection Hnth' as <-. exact Hread'.
Qed.

Lemma RotationSchedule_read_again_witness :
  let rs := mkRotation (VList [VStr "a"; VStr "b"]) (VInt 300) 0 (Some (timedelta 0 5 0)) in
  exists rs',
    RotationSchedule_getCurrentEntry rs (timedelta 0 6 0) =
      (rs', Ok (Some (RotationScheduleEntry (timedelta 0 6 0) (timedelta 0 11 0) (VStr "b")))) /\
    RotationSchedule_getCurrentEntry rs' (timedelta 0 6 0) =
      (rs', Ok (Some (RotationScheduleEntry (timedelta 0 6 0) (timedelta 0 11 0) (VStr "b")))).
Proof.
  intros rs.
  assert (Hne : [VStr "a"; VStr "b"] <> []) by discriminate.
  destruct (RotationSchedule_read_again [VStr "a"; VStr "b"] 300 0
              (Some (timedelta 0 5 0)) (timedelta 0 6 0) Hne)
    as (rs' & t & p & Hread & Hlt & Hagain); [cbn; lia | lia |].
  exists rs'.
  assert (Hval : (rs', Ok (Some (RotationScheduleEntry (timedelta 0 6 0) t p))) =
                 RotationSchedule_getCurrentEntry rs (timedelta 0 6 0)) by (symmetry; exact Hread).
  vm_compute in Hval. injection Hval as -> -> ->.
  split; [reflexivity|]. apply (Hagain (timedelta 0 6 0)). reflexivity.
Defined.

(** X12. The profile that [getNextEntry] previews is the one the next
    advancing read selects: for a rotation whose dwell ends at [t], the
    preview names the profile that [getCurrentEntry] returns at any read at
    or after [t].  The preview ends one interval after [t], the entry that
    is then selected one interval after the read. *)
Theorem RotationSchedule_preview_is_next
    (ps : list value) (I i t : Z) (now now' : datetime) :
  ps <> [] -> t <= now' ->
  let rs := mkRotation (VList ps) (VInt I) i (Some t) in
  exists q,
    In q ps /\
    RotationSchedule_getNextEntry rs now =
      (rs, Ok (Some (RotationScheduleEntry now (t + I * us_per_second) q))) /\
    snd (RotationSchedule_getCurrentEntry rs now') =
      Ok (Some (RotationScheduleEntry now' (now' + I * us_per_second) q)).
Proof.
  intros Hne Hexp rs. subst rs. pose proof (nonempty_length ps Hne) as HN.
  assert (Hi : 0 <= (i + 1) mod Z.of_nat (List.length ps) < Z.of_nat (List.length ps))
    by (apply Z.mod_pos_bound; lia).
  destruct (getCurrentEntry_fresh ps I _ now' Hne Hi) as (q & Hnth & Hread).
  destruct (py_getitem_int_list ps _ Hi) as (q' & Hnth' & Hget).
  rewrite Hnth in Hnth'. injection Hnth' as <-.
  exists q. split; [eapply nth_error_In; exact Hnth|]. split.
  - unfold RotationSchedule_getNextEntry.
    cbn [profiles interval current_index current_end_time].
    rewrite (py_truth_list ps Hne).
    cbn [negb py_len rbind timedelta_seconds]. rewrite Hget. reflexivity.
  - rewrite getCurrentEntry_expired by assumption. now rewrite Hread.
Qed.

Lemma RotationSchedule_preview_is_next_witness :
  let rs := mkRotation (VList [VStr "a"; VStr "b"]) (VInt 300) 0 (Some (timedelta 0 5 0)) in
  exists q,
    snd (RotationSchedule_getNextEntry rs (timedelta 0 2 0)) =
      Ok (Some (RotationScheduleEntry (timedelta 0 2 0) (timedelta 0 10 0) q)) /\
    snd (RotationSchedule_getCurrentEntry rs (timedelta 0 6 0)) =
      Ok (Some (RotationScheduleEntry (timedelta 0 6 0) (timedelta 0 11 0) q)).
Proof.
  intros rs.
  assert (Hne : [VStr "a"; VStr "b"] <> []) by discriminate.
  destruct (RotationSchedule_preview_is_next [VStr "a"; VStr "b"] 300 0 (timedelta 0 5 0)
              (timedelta 0 2 0) (timedelta 0 6 0) Hne) as (q & _ & Hnext & Hread);
    [vm_compute; discriminate|].
  exists q. split; [exact (f_equal snd Hnext) | exact Hread].
Defined.

(** ** Daylight schedules *)

Lemma insert_by_In {A} (key : A -> Z) (x y : A) (l : list A) :
  In y (insert_by key x l) <-> y = x \/ In y l.
Proof.
  induction l as [|z l IH]; cbn [insert_by].
  - cbn. intuition.
  - destruct (key x <=? key z); cbn [In]; [intuition|].
    rewrite IH. cbn [In]. intuition.
Qed.

Lemma sorted_by_In {A} (key : A -> Z) (y : A) (l : list A) :
  In y (sorted_by key l) <-> In y l.
Proof.
  induction l as [|x l IH]; [reflexivity|].
  cbn [sorted_by fold_right]. fold (sorted_by key l).
  rewrite insert_by_In, IH. cbn [In]. intuition.
Qed.

(** The events [getEntries] works with: at least one, each with its
    grey-line window not yet over. *)
Lemma future_events_spec `{PyMath} `{ReceiverConfig}
    (fuel : nat) (date : datetime) (offset delta : Z) (now : datetime) (events : list SunEvent) :
  future_events fuel date offset delta now = Ok events ->
  events <> [] /\ forall ev, In ev events -> now < snd ev + delta.
Proof.
  revert offset. induction fuel as [|fuel IH]; intros offset Hev; [discriminate|].
  cbn [future_events] in Hev.
  destruct (getSunTimes receiver_gps_lat receiver_gps_lon (date + offset * us_per_day))
    as [[rise set]|]; [|discriminate].
  cbn [rbind] in Hev.
  destruct (List.filter (fun v : SunEvent => now <? snd v + delta)
                        [(sunrise_event, rise); (sunset_event, set)]) as [|ev0 rest] eqn:E.
  - exact (IH _ Hev).
  - injection Hev as <-. split; [discriminate|].
    intros ev Hin. rewrite <- E in Hin. apply filter_In in Hin as [_ Hlt].
    apply Z.ltb_lt in Hlt. exact Hlt.
Qed.

Lemma phase_lookup (d : dict) (ty : EventType) :
  dict_has "day" d = true -> dict_has "night" d = true ->
  let stype := match ty with sunrise_event => "night" | sunset_event => "day" end in
  py_contains_str stype (VDict d) = Ok true /\
  exists profile, py_getitem_str (VDict d) stype = Ok profile.
Proof.
  intros has_day has_night.
  destruct ty; cbn; [rewrite has_night | rewrite has_day]; (split; [reflexivity|]).
  - unfold dict_has in has_night. destruct (dict_get "night" d) as [v|]; [|discriminate].
    now exists v.
  - unfold dict_has in has_day. destruct (dict_get "day" d) as [v|]; [|discriminate].
    now exists v.
Qed.

Lemma greyline_lookup (d : dict) :
  dict_has "greyline" d = true -> exists g, py_getitem_str (VDict d) "greyline" = Ok g.
Proof.
  intros Hug. unfold dict_has in Hug. cbn.
  destruct (dict_get "greyline" d) as [v|]; [|discriminate]. now exists v.
Qed.

Lemma daylight_entries_cons (schedule : value) (ug : bool) (delta : Z) (now : datetime)
    (prev : option datetime) (ty : EventType) (time : datetime) (rest : list SunEvent) :
  daylight_entries schedule ug delta now prev ((ty, time) :: rest) =
  (let stype := match ty with sunrise_event => "night" | sunset_event => "day" end in
   let? has := py_contains_str stype schedule in
   let? phase :=
     (if (has : bool) && (match prev with Some _ => true | None => now <? time - delta end)
      then
        let start := match prev with None => now | Some p => p end in
        let? profile := py_getitem_str schedule stype in
        Ok [DatetimeScheduleEntry start (time - delta) profile]
      else Ok []) in
   let? grey :=
     (if ug
      then
        let? profile := py_getitem_str schedule "greyline" in
        Ok [DatetimeScheduleEntry (time - delta) (time + delta) profile]
      else Ok []) in
   let? entries := daylight_entries schedule ug delta now (@Some datetime (time + delta)) rest in
   Ok (phase ++ grey ++ entries)%list).
Proof. reflexivity. Qed.

(** After the first event the entries go on without a gap. *)
Lemma daylight_entries_chain (d : dict) (now : datetime) (events : list SunEvent) :
  dict_has "day" d = true -> dict_has "night" d = true ->
  let useGreyline := dict_has "greyline" d in
  let delta := if useGreyline then greyLineTime else 0 in
  forall start,
  exists entries,
    daylight_entries (VDict d) useGreyline delta now (Some start) events = Ok entries /\
    chained start entries.
Proof.
  intros has_day has_night useGreyline delta. subst useGreyline delta.
  induction events as [|[ty time] events IH]; intros start.
  - exists []. split; [reflexivity | exact I].
  - destruct (phase_lookup d ty has_day has_night) as (Hhas & profile & Hprofile).
    rewrite daylight_entries_cons. cbv zeta in Hhas, Hprofile |- *.
    rewrite Hhas. cbn [rbind andb]. rewrite Hprofile. cbn [rbind].
    destruct (IH (time + (if dict_has "greyline" d then greyLineTime else 0)))
      as (tail & Htail & Hchain).
    rewrite Htail. clear IH Htail.
    destruct (dict_has "greyline" d) eqn:Hug.
    + destruct (greyline_lookup d Hug) as (g & Hg). rewrite Hg. cbn [rbind].
      eexists. split; [reflexivity|]. cbn. repeat split. exact Hchain.
    + cbn [rbind]. eexists. split; [reflexivity|].
      cbn. split; [reflexivity|].
      replace (time - 0) with (time + 0) by lia. exact Hchain.
Qed.

(** The entries from the first event on: the first entry is current at
    [now], and the entries go on without a gap. *)
Lemma daylight_entries_first (d : dict) (now : datetime) (ev : SunEvent) (events : list SunEvent) :
  dict_has "day" d = true -> dict_has "night" d = true ->
  let useGreyline := dict_has "greyline" d in
  let delta := if useGreyline then greyLineTime else 0 in
  now < snd ev + delta ->
  exists e rest,
    daylight_entries (VDict d) useGreyline delta now None (ev :: events) = Ok (e :: rest) /\
    isCurrent e now = true /\
    chained (startTime e) (e :: rest).
Proof.
  intros has_day has_night useGreyline delta.
  destruct ev as [ty time]. cbn [snd]. intros Hfuture.
  destruct (phase_lookup d ty has_day has_night) as (Hhas & profile & Hprofile).
  pose proof (daylight_entries_chain d now events has_day has_night) as Hrest.
  cbv zeta in Hrest. subst useGreyline delta.
  rewrite daylight_entries_cons. cbv zeta in Hhas, Hprofile |- *.
  rewrite Hhas. cbn [rbind andb].
  destruct (Hrest (time + (if dict_has "greyline" d then greyLineTime else 0)))
    as (tail & Htail & Hchain).
  rewrite Htail. clear Hrest Htail.
  destruct (dict_has "greyline" d) eqn:Hug.
  - destruct (greyline_lookup d Hug) as (g & Hg). rewrite Hg.
    destruct (now <? time - greyLineTime) eqn:E.
    + apply Z.ltb_lt in E. rewrite Hprofile. cbn [rbind].
      eexists. eexists. split; [reflexivity|]. split.
      * cbn. apply andb_true_iff. split; [apply Z.leb_le; lia | apply Z.ltb_lt; exact E].
      * cbn. repeat split. exact Hchain.
    + apply Z.ltb_ge in E. cbn [rbind].
      eexists. eexists. split; [reflexivity|]. split.
      * cbn. apply andb_true_iff. split; [apply Z.leb_le; lia | apply Z.ltb_lt; lia].
      * cbn. repeat split. exact Hchain.
  - destruct (now <? time - 0) eqn:E.
    + apply Z.ltb_lt in E. rewrite Hprofile. cbn [rbind].
      eexists. eexists. split; [reflexivity|]. split.
      * cbn. apply andb_true_iff. split; [apply Z.leb_le; lia | apply Z.ltb_lt; exact E].
      * cbn. repeat split. replace (time - 0) with (time + 0) by lia. exact Hchain.
    + apply Z.ltb_ge in E. lia.
Qed.

(** X13. A daylight schedule with a "day" and a "night" profile (the
    grey-line profile is optional) always has an entry for the present: when
    [getEntries] returns, its first entry is current at [now], so
    [getCurrentEntry] returns it; and the entries follow one another without
    a gap, each one starting where the one before it ends. *)
Theorem DaylightSchedule_covers_now `{PyMath} `{ReceiverConfig}
    (d : dict) (now : datetime) (entries : list ScheduleEntry) :
  dict_has "day" d = true ->
  dict_has "night" d = true ->
  DaylightSchedule_getEntries (VDict d) now = Ok entries ->
  exists e rest,
    entries = e :: rest /\
    isCurrent e now = true /\
    Timerange_getCurrentEntry entries now = Some e /\
    chained (startTime e) entries.
Proof.
  intros Hday Hnight Hentries. unfold DaylightSchedule_getEntries in Hentries.
  cbn [py_contains_str rbind] in Hentries.
  destruct (future_events daylight_fuel (date_of now) (-1)
              (if dict_has "greyline" d then greyLineTime else 0) now) as [events|] eqn:Eev;
    [|discriminate].
  cbn [rbind] in Hentries.
  apply future_events_spec in Eev as (Hne & Hfuture).
  destruct (sorted_by snd events) as [|ev sorted] eqn:Esorted.
  { pose proof (sorted_by_head snd events) as Hhead. rewrite Esorted in Hhead. contradiction. }
  assert (Hev : now < snd ev + (if dict_has "greyline" d then greyLineTime else 0)).
  { apply Hfuture. apply (sorted_by_In snd). rewrite Esorted. left. reflexivity. }
  destruct (daylight_entries_first d now ev sorted Hday Hnight Hev)
    as (e & rest & Heq & Hcur & Hchain).
  assert (Hsame : Ok (e :: rest) = Ok entries) by (rewrite <- Heq; exact Hentries).
  injection Hsame as <-.
  exists e, rest. split; [reflexivity|]. split; [exact Hcur|]. split; [|exact Hchain].
  unfold Timerange_getCurrentEntry. cbn [List.filter]. now rewrite Hcur.
Qed.

(** London at 07:00 UTC on 2024-10-04, 45 minutes after sunrise: the first
    entry is the grey-line window around sunrise, followed by the day and by
    the grey-line window around sunset. *)
Lemma DaylightSchedule_covers_now_witness :
  exists e rest,
    @DaylightSchedule_getEntries series_math london (VDict daylight_config) at_0700 =
      Ok (e :: rest) /\
    getProfile e = VStr "hf_grey" /\
    map getProfile rest = [VStr "hf_day"; VStr "hf_grey"] /\
    isCurrent e at_0700 = true /\
    chained (startTime e) (e :: rest).
Proof.
  destruct (@DaylightSchedule_getEntries series_math london (VDict daylight_config) at_0700)
    as [entries|] eqn:E; [|vm_compute in E; discriminate E].
  destruct (@DaylightSchedule_covers_now series_math london daylight_config at_0700 entries)
    as (e & rest & -> & Hcur & _ & Hchain); [reflexivity | reflexivity | exact E |].
  exists e, rest. split; [reflexivity|].
  vm_compute in E. injection E as <- <-.
  split; [reflexivity|]. split; [reflexivity|]. split; [exact Hcur | exact Hchain].
Defined.

(** ** The control loop: standing by, triggers, teardown *)

Section ServiceSchedulerMore.
Context `{Src : SdrSource} `{Mth : PyMath} `{Cfg : ReceiverConfig}.

Lemma none_armed_count (ts : list Timer) :
  (forall j t, ts !! j = Some t -> is_armed t = false) ->
  length (List.filter is_armed ts) = 0%nat.
Proof. intros H. now rewrite filter_none_armed. Qed.

Lemma filter_armed_app (l1 l2 : list Timer) :
  List.filter is_armed (l1 ++ l2) = (List.filter is_armed l1 ++ List.filter is_armed l2)%list.
Proof. apply List.filter_app. Qed.

(** Under the invariant no timer waits once the selection has been
    cancelled. *)
Lemma cancel_selection_none_waiting (st : State) :
  timer_invariant st ->
  forall j t, cancel_selection st !! j = Some t -> is_armed t = false.
Proof.
  unfold timer_invariant, cancel_selection. intros Hinv.
  destruct (selectionTimer st) as [i|].
  - now apply cancel_selection_none_armed.
  - intros j t Hj. destruct (is_armed t) eqn:E; [|reflexivity].
    specialize (Hinv j t Hj E). discriminate.
Qed.

Lemma cancelTimer_state (st : State) :
  cancelTimer st = (set_timers (cancel_selection st) st, Ok tt) \/
  (selectionTimer st = None /\ cancelTimer st = (st, Ok tt)).
Proof.
  unfold cancelTimer, cancel_selection, bind, gets, modify, ret.
  destruct (selectionTimer st) as [i|]; [left | right]; auto.
Qed.

Lemma cancelTimer_timers (st : State) :
  let st' := fst (cancelTimer st) in
  timers st' = cancel_selection st /\ selectionTimer st' = selectionTimer st /\
  source st' = source st /\ currentEntry st' = currentEntry st /\
  schedule st' = schedule st /\ calls st' = calls st /\
  subscriptions st' = subscriptions st /\ snd (cancelTimer st) = Ok tt.
Proof.
  unfold cancelTimer, cancel_selection, bind, gets, modify, ret.
  destruct (selectionTimer st) as [i|] eqn:E; cbn; rewrite ?E; repeat split; reflexivity.
Qed.

(** X14. [onDisable] cancels the timer: in a state the scheduler can reach,
    no timer is waiting afterwards and none of the timers created so far
    will run [selectProfile]; the current entry, the schedule, the source
    and the log of commands are as before. *)
Theorem onDisable_cancels (st : State) :
  reachable st ->
  let st' := fst (onDisable st) in
  armed_timers st' = 0%nat /\
  (forall i now, timer_fires i now st' = (st', Ok tt)) /\
  currentEntry st' = currentEntry st /\ schedule st' = schedule st /\
  source st' = source st /\ calls st' = calls st /\
  snd (onDisable st) = Ok tt.
Proof.
  intros Hreach. pose proof (timer_invariant_reachable st Hreach) as Hinv.
  pose proof (cancel_selection_none_waiting st Hinv) as Hnone.
  unfold onDisable. destruct (cancelTimer_timers st) as (Ht & _ & Hs & Hc & Hsch & Hcalls & _ & Hr).
  cbv zeta. split; [|split].
  - unfold armed_timers. rewrite Ht. now apply none_armed_count.
  - intros i now. unfold timer_fires. rewrite Ht.
    destruct (cancel_selection st !! i) as [t|] eqn:E; [|reflexivity].
    now rewrite (Hnone i t E).
  - repeat split; assumption.
Qed.


(** X15. A request for re-evaluation on a source that is enabled and has not
    failed leaves exactly one timer waiting, due at the instant asked for,
    or ten seconds after the request when none is given.  This is what the
    triggers do: [onEnable], [onFrequencyChange], [onBusyStateChange] with
    [IDLE] and [onStateChange] with [STOPPING]. *)
Theorem scheduleSelection_one_timer (st : State) (time : option datetime) (now : datetime) :
  reachable st ->
  isEnabled (source st) = true ->
  isFailed (source st) = false ->
  let st' := fst (scheduleSelection time now st) in
  let due := match time with Some t => t | None => now + timedelta 0 0 10 end in
  armed_timers st' = 1%nat /\
  (exists i tm, selectionTimer st' = Some i /\ timers st' !! i = Some tm /\
                is_armed tm = true /\ timer_due tm = due) /\
  (forall op : @Operation Src, is_trigger op = true -> time = None ->
              run op now st = scheduleSelection time now st).
Proof.
  intros Hreach Hen Hfail st' due. subst st' due.
  pose proof (timer_invariant_reachable st Hreach) as Hinv.
  pose proof (cancel_selection_none_waiting st Hinv) as Hnone.
  assert (Htriggers : forall op : @Operation Src, is_trigger op = true -> time = None ->
                        run op now st = scheduleSelection time now st).
  { intros op Htrig ->. destruct op; try discriminate Htrig; try reflexivity.
    - destruct state; try discriminate Htrig. reflexivity.
    - destruct state; try discriminate Htrig. reflexivity. }
  split; [|split; [|exact Htriggers]]; clear Htriggers;
    rewrite scheduleSelection_up by assumption; cbn [fst];
    unfold selection_armed, armed_timers;
    cbn [timers selectionTimer set_selectionTimer set_timers].
  - rewrite filter_armed_app, length_app, (none_armed_count _ Hnone). reflexivity.
  - eexists. eexists. split; [reflexivity|]. split.
    + rewrite lookup_app_r by lia. rewrite Nat.sub_diag. reflexivity.
    + split; [reflexivity|]. unfold timer_due. cbn. destruct time; lia.
Qed.


(** [selectProfile] when the schedule has no entry for the present and
    [checkStatus] returns. *)
Lemma selectProfile_no_entry_eq
    (st : State) (now : datetime) (s s1 s2 : Schedule) (src1 : source_state)
    (next : option ScheduleEntry) :
  hasClients USER (source st) = false ->
  schedule st = Some s ->
  Schedule_getCurrentEntry s now = (s1, Ok None) ->
  checkStatus (source st) = (src1, Ok tt) ->
  Schedule_getNextEntry s1 now = (s2, Ok next) ->
  let st3 := set_schedule (Some s2)
               (set_source src1 (log_call CallCheckStatus
                  (set_currentEntry None (set_schedule (Some s1) st)))) in
  selectProfile now st =
  match next with
  | Some n => scheduleSelection (Some (getNextActivation n now)) now st3
  | None => (st3, Ok tt)
  end.
Proof.
  intros Huser Hsched Hget Hcheck Hnext st3. subst st3.
  unfold selectProfile, bind at 1 2 3, gets at 1 2. rewrite Huser, Hsched.
  unfold call_schedule at 1. rewrite Hsched, Hget.
  unfold bind at 1. unfold _setCurrentEntry, bind, modify, ret, call_source, gets.
  cbn [source set_currentEntry set_schedule]. rewrite Hcheck.
  cbn [currentEntry set_source log_call set_currentEntry].
  unfold call_schedule. cbn [schedule set_source log_call set_currentEntry set_schedule].
  rewrite Hnext. destruct next; reflexivity.
Qed.

(** X16. When the schedule has no entry for the present, [selectProfile]
    clears the current entry and asks the source to re-evaluate its status,
    and nothing else is sent to the source.  It then looks for the next
    entry: when there is one and the source, as [checkStatus] left it, is
    enabled and has not failed, the timer is re-armed for the next activation
    of that entry; otherwise the timers stay as they are. *)
Theorem selectProfile_no_current_entry
    (st : State) (now : datetime) (s s1 s2 : Schedule) (src1 : source_state)
    (next : option ScheduleEntry) :
  hasClients USER (source st) = false ->
  schedule st = Some s ->
  Schedule_getCurrentEntry s now = (s1, Ok None) ->
  checkStatus (source st) = (src1, Ok tt) ->
  Schedule_getNextEntry s1 now = (s2, Ok next) ->
  let st' := fst (selectProfile now st) in
  snd (selectProfile now st) = Ok tt /\
  currentEntry st' = None /\
  getClientClass st' = INACTIVE /\
  calls st' = (calls st ++ [CallCheckStatus])%list /\
  source st' = src1 /\
  schedule st' = Some s2 /\
  match next with
  | Some n =>
      if source_down src1
      then timers st' = timers st /\ selectionTimer st' = selectionTimer st
      else timers st' =
             (cancel_selection st ++ [mkTimer (getNextActivation n now - now) now Armed])%list /\
           selectionTimer st' = Some (length (timers st))
  | None => timers st' = timers st /\ selectionTimer st' = selectionTimer st
  end.
Proof.
  intros Huser Hsched Hget Hcheck Hnext st'. subst st'.
  pose proof (selectProfile_no_entry_eq st now s s1 s2 src1 next
                Huser Hsched Hget Hcheck Hnext) as Heq.
  cbv zeta in Heq. rewrite Heq. clear Heq.
  set (st3 := set_schedule (Some s2)
                (set_source src1 (log_call CallCheckStatus
                   (set_currentEntry None (set_schedule (Some s1) st))))).
  destruct next as [n|].
  - pose proof (scheduleSelection_returns st3 (Some (getNextActivation n now)) now) as Hret.
    pose proof (scheduleSelection_frame st3 (Some (getNextActivation n now)) now)
      as (Hsrc & Hcur & Hsch & Hcalls & _).
    split; [exact Hret|]. split; [now rewrite Hcur|].
    split; [unfold getClientClass; now rewrite Hcur|].
    split; [now rewrite Hcalls|]. split; [now rewrite Hsrc|]. split; [now rewrite Hsch|].
    destruct (source_down src1) eqn:Hdown.
    + rewrite scheduleSelection_down by exact Hdown. split; reflexivity.
    + unfold source_down in Hdown. apply orb_false_iff in Hdown as [Hen Hfail].
      apply negb_false_iff in Hen.
      rewrite scheduleSelection_up by assumption. cbn [fst].
      unfold selection_armed. cbn [timers selectionTimer set_selectionTimer set_timers].
      change (cancel_selection st3) with (cancel_selection st).
      split; [reflexivity|]. f_equal.
      unfold cancel_selection. destruct (selectionTimer st); [apply length_alter | reflexivity].
  - repeat split; reflexivity.
Qed.

(** A timer that fires under the invariant was the only one waiting. *)
Lemma fired_none_waiting (st : State) (i : nat) (t : Timer) :
  timer_invariant st -> timers st !! i = Some t -> is_armed t = true ->
  forall j t', <[i := Timer_fire t]> (timers st) !! j = Some t' -> is_armed t' = false.
Proof.
  intros Hinv Hi Ha j t' Hj.
  destruct (decide (i = j)) as [->|Hne].
  - apply list_lookup_insert_Some in Hj as [(_ & <- & _)|(Hne & _)]; [reflexivity | congruence].
  - rewrite list_lookup_insert_ne in Hj by exact Hne.
    destruct (is_armed t') eqn:E; [|reflexivity].
    pose proof (Hinv i t Hi Ha) as H1. pose proof (Hinv j t' Hj E) as H2. congruence.
Qed.

Lemma selectProfile_no_schedule (st : State) (now : datetime) :
  hasClients USER (source st) = false ->
  schedule st = None ->
  selectProfile now st = call_source CallCheckStatus checkStatus (set_currentEntry None st).
Proof.
  intros Huser Hsched. unfold selectProfile, bind at 1 2, gets at 1 2.
  rewrite Huser, Hsched. unfold _setCurrentEntry, bind, modify, ret.
  destruct (call_source CallCheckStatus checkStatus (set_currentEntry None st)); reflexivity.
Qed.

(** X17. With no schedule configured the scheduler stands by: when its
    timer fires, and no interactive client is present, it clears the current
    entry, asks the source to re-evaluate its status and arms nothing - no
    timer is waiting afterwards, so only an event from outside starts the
    next evaluation. *)
Theorem timer_fires_without_schedule (st : State) (i : nat) (t : Timer) (now : datetime) :
  reachable st ->
  timers st !! i = Some t -> is_armed t = true ->
  schedule st = None ->
  hasClients USER (source st) = false ->
  let st' := fst (timer_fires i now st) in
  armed_timers st' = 0%nat /\
  currentEntry st' = None /\
  getClientClass st' = INACTIVE /\
  calls st' = (calls st ++ [CallCheckStatus])%list /\
  snd (timer_fires i now st) = snd (checkStatus (source st)).
Proof.
  intros Hreach Hi Ha Hsched Huser st'. subst st'.
  pose proof (timer_invariant_reachable st Hreach) as Hinv.
  pose proof (fired_none_waiting st i t Hinv Hi Ha) as Hnone.
  unfold timer_fires. rewrite Hi, Ha.
  rewrite selectProfile_no_schedule by assumption.
  unfold call_source. cbn [source set_currentEntry set_timers].
  destruct (checkStatus (source st)) as [src1 r]. cbn.
  split; [|repeat split; reflexivity].
  unfold armed_timers. cbn. now apply none_armed_count.
Qed.

(** [parseSchedule] reads the configuration before it touches the
    scheduler: an error of [Schedule.parse] leaves the state as it was. *)
Lemma parseSchedule_outcome (st : State) (now : datetime) :
  match Schedule_parse (getProps (source st)) with
  | Raise e => parseSchedule now st = (st, Raise e)
  | Ok parsed => parseSchedule now st = scheduleSelection None now (set_schedule parsed st)
  end.
Proof.
  unfold parseSchedule, bind, gets, modify. cbv beta.
  destruct (Schedule_parse (getProps (source st))) as [parsed|e]; reflexivity.
Qed.

(** X18. A new static configuration with a nine-character window token
    that [strptime] rejects changes nothing: [parseSchedule] raises
    [ValueError] and the schedule that was in place, the current entry and
    the timers stay as they were.  A configuration whose tokens are all
    accepted replaces the schedule by the static schedule of its windows
    and, on a source that is enabled and has not failed, asks for a
    re-evaluation in ten seconds. *)
Theorem parseSchedule_static (st : State) (now : datetime) (sc d : dict) :
  dict_get "scheduler" (getProps (source st)) = Some (VDict sc) ->
  py_eq_str (schedule_type sc) "static" = true ->
  dict_get "schedule" sc = Some (VDict d) ->
  if forallb window_accepted d
  then exists entries,
         static_entries d = Ok entries /\
         map getProfile entries = map snd (List.filter has_window_length d) /\
         parseSchedule now st =
           scheduleSelection None now (set_schedule (Some (StaticSchedule entries)) st)
  else parseSchedule now st = (st, Raise ValueError).
Proof.
  intros Hsc Htype Hd.
  assert (Hparse : Schedule_parse (getProps (source st)) =
                   (let? entries := static_entries d in Ok (Some (StaticSchedule entries)))).
  { unfold Schedule_parse, dict_has, py_getitem_str. rewrite Hsc. cbn [rbind].
    unfold py_contains_str, dict_has, schedule_type in *.
    destruct (dict_get "type" sc) as [t|]; cbn [rbind] in *.
    - rewrite Htype, Hd. reflexivity.
    - rewrite Hd. reflexivity. }
  pose proof (parseSchedule_outcome st now) as Hout. rewrite Hparse in Hout.
  destruct (forallb window_accepted d) eqn:Hacc.
  - destruct (static_entries_accepted d Hacc) as (entries & Hentries & Hprofiles).
    exists entries. rewrite Hentries in Hout. cbn [rbind] in Hout.
    split; [exact Hentries|]. split; [exact Hprofiles | exact Hout].
  - rewrite (static_entries_rejected d Hacc) in Hout. exact Hout.
Qed.

Lemma cancel_subscriptions_spec (popped : list nat) :
  forall (st : State) (keep : list nat),
    subscriptions st = (keep ++ rev popped)%list ->
    let st' := fst (cancel_subscriptions popped st) in
    subscriptions st' = keep /\
    calls st' = (calls st ++ map CallCancelSubscription popped)%list /\
    timers st' = timers st /\ selectionTimer st' = selectionTimer st /\
    source st' = source st /\ currentEntry st' = currentEntry st /\
    schedule st' = schedule st /\
    snd (cancel_subscriptions popped st) = Ok tt.
Proof.
  induction popped as [|id rest IH]; intros st keep Hsubs.
  - cbn in *. rewrite app_nil_r in *. repeat split; auto.
  - cbn [cancel_subscriptions]. unfold bind at 1 2, modify at 1 2.
    cbn [rev] in Hsubs. rewrite app_assoc in Hsubs.
    set (st1 := log_call (CallCancelSubscription id)
                  (set_subscriptions (removelast (subscriptions st)) st)).
    assert (Hsubs1 : subscriptions st1 = (keep ++ rev rest)%list).
    { cbn. rewrite Hsubs. apply removelast_last. }
    destruct (IH st1 keep Hsubs1) as (H1 & H2 & H3 & H4 & H5 & H6 & H7 & H8).
    cbv zeta in *. repeat split; try assumption.
    etransitivity; [exact H2|]. cbn. now rewrite <- app_assoc.
Qed.

Lemma is_armed_status_cancel (t : Timer) :
  timer_status (Timer_cancel t) = match timer_status t with Armed => Cancelled | x => x end.
Proof. unfold Timer_cancel. destruct (timer_status t) eqn:E; cbn; now rewrite ?E. Qed.

Lemma Timer_cancel_twice (t : Timer) : Timer_cancel (Timer_cancel t) = Timer_cancel t.
Proof.
  unfold Timer_cancel at 1. rewrite is_armed_status_cancel.
  destruct (timer_status t); reflexivity.
Qed.

Lemma alter_cancel_twice (i : nat) (ts : list Timer) :
  alter Timer_cancel i (alter Timer_cancel i ts) = alter Timer_cancel i ts.
Proof.
  apply list_eq. intros j. destruct (decide (i = j)) as [->|Hne].
  - rewrite !list_lookup_alter_eq. destruct (ts !! j) as [t|]; [|reflexivity]. cbn.
    f_equal. apply Timer_cancel_twice.
  - now rewrite !list_lookup_alter_ne.
Qed.

(** X19. [shutdown], which [onFail] and [onShutdown] run, cancels every
    subscription, the last one first, cancels the timer and deregisters the
    scheduler from the source.  In a state the scheduler can reach, no timer
    is waiting afterwards and none of its timers will run [selectProfile];
    the current entry is not cleared.  A second [shutdown] only sends
    [removeClient] once more. *)
Theorem shutdown_tears_down (st : State) :
  reachable st ->
  let st' := fst (shutdown st) in
  let st'' := fst (shutdown st') in
  subscriptions st' = [] /\
  armed_timers st' = 0%nat /\
  (forall i now, timer_fires i now st' = (st', Ok tt)) /\
  calls st' = (calls st ++ map CallCancelSubscription (rev (subscriptions st))
                        ++ [CallRemoveClient])%list /\
  currentEntry st' = currentEntry st /\
  snd (shutdown st) = snd (removeClient (source st)) /\
  onFail st = shutdown st /\ onShutdown st = shutdown st /\
  subscriptions st'' = [] /\ timers st'' = timers st' /\
  calls st'' = (calls st' ++ [CallRemoveClient])%list.
Proof.
  intros Hreach.
  pose proof (timer_invariant_reachable st Hreach) as Hinv.
  assert (Hshape : forall s0 : State,
             let s1 := fst (shutdown s0) in
             subscriptions s1 = [] /\ timers s1 = cancel_selection s0 /\
             selectionTimer s1 = selectionTimer s0 /\
             calls s1 = (calls s0 ++ map CallCancelSubscription (rev (subscriptions s0))
                                  ++ [CallRemoveClient])%list /\
             currentEntry s1 = currentEntry s0 /\
             snd (shutdown s0) = snd (removeClient (source s0))).
  { intros s0.
    pose proof (cancel_subscriptions_spec (rev (subscriptions s0)) s0 []) as Hc.
    rewrite rev_involutive in Hc. specialize (Hc eq_refl). cbv zeta in Hc.
    destruct Hc as (C1 & C2 & C3 & C4 & C5 & C6 & _ & C8).
    set (sa := fst (cancel_subscriptions (rev (subscriptions s0)) s0)) in *.
    destruct (cancelTimer_timers sa) as (T1 & T2 & T3 & T4 & _ & T6 & T7 & T8).
    set (sb := fst (cancelTimer sa)) in *.
    assert (Heq : shutdown s0 = call_source CallRemoveClient removeClient sb).
    { unfold shutdown, bind, gets. unfold sb, sa in *.
      destruct (cancel_subscriptions (rev (subscriptions s0)) s0) as [xa ra].
      cbn [fst snd] in *. subst ra.
      destruct (cancelTimer xa) as [xb rb]. cbn [fst snd] in *. subst rb. reflexivity. }
    cbv zeta. rewrite Heq. unfold call_source.
    assert (Hcs : cancel_selection sa = cancel_selection s0)
      by (unfold cancel_selection; now rewrite C3, C4).
    rewrite T3, C5. destruct (removeClient (source s0)) as [sc rc].
    cbn [fst snd subscriptions timers selectionTimer calls currentEntry set_source log_call].
    rewrite T7, C1, T1, Hcs, T2, C4, T4, C6, T6, C2.
    repeat split; try reflexivity. now rewrite <- app_assoc. }
  cbv zeta. destruct (Hshape st) as (S1 & S2 & S3 & S4 & S5 & S6).
  destruct (Hshape (fst (shutdown st))) as (R1 & R2 & _ & R4 & _).
  pose proof (cancel_selection_none_waiting st Hinv) as Hnone.
  split; [exact S1|]. split; [unfold armed_timers; rewrite S2; now apply none_armed_count|].
  split.
  { intros i now. unfold timer_fires. rewrite S2.
    destruct (cancel_selection st !! i) as [t|] eqn:E; [|reflexivity].
    now rewrite (Hnone i t E). }
  split; [exact S4|]. split; [exact S5|]. split; [exact S6|].
  split; [reflexivity|]. split; [reflexivity|]. split; [exact R1|].
  split.
  - rewrite R2. unfold cancel_selection. rewrite S3, S2. unfold cancel_selection.
    destruct (selectionTimer st); [apply alter_cancel_twice | reflexivity].
  - rewrite R4, S1. reflexivity.
Qed.

Lemma mk_time_in_day (h m : Z) :
  0 <= h <= 23 -> 0 <= m <= 59 -> 0 <= mk_time h m < us_per_day.
Proof.
  intros Hh Hm. unfold mk_time, timedelta, us_per_day, us_per_second. lia.
Qed.

(** The entries of a static schedule are windows between times of the
    day. *)
Lemma static_entries_in_day (d : dict) :
  forall entries, static_entries d = Ok entries -> Forall time_entry_in_day entries.
Proof.
  induction d as [|[time profile] rest IH]; intros entries Hok.
  - injection Hok as <-. constructor.
  - destruct (String.length time =? 9)%nat eqn:Hlen.
    + apply Nat.eqb_eq in Hlen.
      destruct (static_entries_window_inv time profile rest entries Hlen Hok)
        as (h1 & m1 & sep & h2 & m2 & tail & Hh1 & Hm1 & Hh2 & Hm2 & _ & Htail & ->).
      constructor; [|exact (IH tail Htail)].
      split; apply mk_time_in_day; assumption.
    + apply Nat.eqb_neq in Hlen. rewrite static_entries_skip in Hok by exact Hlen.
      exact (IH entries Hok).
Qed.

Lemma Timerange_getCurrentEntry_In (entries : list ScheduleEntry) (now : datetime)
    (e : ScheduleEntry) :
  Timerange_getCurrentEntry entries now = Some e -> In e entries /\ isCurrent e now = true.
Proof.
  unfold Timerange_getCurrentEntry. intros H.
  destruct (List.filter (fun p => isCurrent p now) entries) as [|x l] eqn:E; [discriminate|].
  injection H as ->.
  assert (Hin : In e (List.filter (fun p => isCurrent p now) entries))
    by (rewrite E; left; reflexivity).
  apply filter_In in Hin. exact Hin.
Qed.

(** The state after [selectProfile] has selected an entry on a source that
    is enabled and has not failed: the entry and the new timer. *)
Lemma selectProfile_arms (st : State) (now : datetime) (s s' : Schedule) (e : ScheduleEntry) :
  hasClients USER (source st) = false ->
  schedule st = Some s ->
  Schedule_getCurrentEntry s now = (s', Ok (Some e)) ->
  isEnabled (source st) = true ->
  isFailed (source st) = false ->
  let st' := fst (selectProfile now st) in
  currentEntry st' = Some e /\
  selectionTimer st' = Some (length (timers st)) /\
  timers st' !! length (timers st) =
    Some (mkTimer (getScheduledEnd e now - now) now Armed).
Proof.
  intros Huser Hsched Hget Hen Hfail st'. subst st'.
  rewrite (selectProfile_some st now s s' e Huser Hsched Hget), setCurrentEntry_some.
  rewrite scheduleSelection_up by assumption. cbn [fst].
  set (st1 := selection_armed _ _ _).
  pose proof (activation_frame (getProfile e) st1) as (Hcur & _ & Hsel & Htim & _).
  assert (Hlen : length (cancel_selection st) = length (timers st)).
  { unfold cancel_selection. destruct (selectionTimer st); [apply length_alter | reflexivity]. }
  rewrite Hcur, Hsel, Htim. unfold st1, selection_armed.
  cbn [currentEntry selectionTimer timers set_selectionTimer set_timers set_currentEntry].
  change (cancel_selection (set_currentEntry (Some e) (set_schedule (Some s') st)))
    with (cancel_selection st).
  rewrite Hlen. split; [reflexivity|]. split; [reflexivity|].
  rewrite lookup_app_r by lia. rewrite Hlen, Nat.sub_diag. reflexivity.
Qed.

Lemma Timerange_getCurrentEntry_first_match_none (entries : list ScheduleEntry) (now : datetime) :
  Timerange_getCurrentEntry entries now = None ->
  Forall (fun x => isCurrent x now = false) entries.
Proof.
  unfold Timerange_getCurrentEntry.
  induction entries as [|x entries IH]; cbn [List.filter]; [constructor|].
  destruct (isCurrent x now) eqn:E; [discriminate|].
  intros H. constructor; [exact E | exact (IH H)].
Qed.

Lemma Timerange_getNextEntry_In (entries : list ScheduleEntry) (now : datetime)
    (n : ScheduleEntry) :
  Timerange_getNextEntry entries now = Some n -> In n entries.
Proof.
  unfold Timerange_getNextEntry. intros H.
  pose proof (sorted_by_In (fun e => getNextActivation e now) n entries) as Hin.
  destruct (sorted_by (fun e => getNextActivation e now) entries) as [|x l]; [discriminate|].
  injection H as ->. apply Hin. left. reflexivity.
Qed.

(** X21. On a static schedule with no window open at present, the timer
    that [selectProfile] arms is due when the next window opens: at that
    instant, less than a day ahead and after the present, the schedule has a
    current entry again. *)
Theorem static_schedule_timer_at_window_start
    (st : State) (now : datetime) (d : dict) (entries : list ScheduleEntry)
    (src1 : source_state) :
  static_entries d = Ok entries ->
  entries <> [] ->
  schedule st = Some (StaticSchedule entries) ->
  hasClients USER (source st) = false ->
  Timerange_getCurrentEntry entries now = None ->
  checkStatus (source st) = (src1, Ok tt) ->
  isEnabled src1 = true ->
  isFailed src1 = false ->
  let st' := fst (selectProfile now st) in
  currentEntry st' = None /\
  exists i tm n,
    selectionTimer st' = Some i /\ timers st' !! i = Some tm /\ is_armed tm = true /\
    now < timer_due tm < now + us_per_day /\
    In n entries /\ isCurrent n (timer_due tm) = true /\
    Timerange_getCurrentEntry entries (timer_due tm) <> None.
Proof.
  intros Hparse Hne Hsched Huser Hnone Hcheck Hen Hfail st'. subst st'.
  pose proof (static_entries_in_day d entries Hparse) as Hday.
  rewrite Forall_forall in Hday.
  destruct (Timerange_getNextEntry entries now) as [n|] eqn:Hnext.
  2:{ unfold Timerange_getNextEntry in Hnext.
      pose proof (sorted_by_head (fun e => getNextActivation e now) entries) as H.
      destruct (sorted_by (fun e => getNextActivation e now) entries);
        [contradiction | discriminate]. }
  pose proof (Timerange_getNextEntry_In entries now n Hnext) as Hin.
  pose proof (Hday n (proj2 (list_elem_of_In _ _) Hin)) as Hn.
  destruct n as [s t p| |]; try contradiction. destruct Hn as [Hs Ht].
  assert (Hget : Schedule_getCurrentEntry (StaticSchedule entries) now =
                 (StaticSchedule entries, Ok None))
    by (cbn [Schedule_getCurrentEntry]; now rewrite Hnone).
  assert (Hgetn : Schedule_getNextEntry (StaticSchedule entries) now =
                  (StaticSchedule entries, Ok (Some (TimeScheduleEntry s t p))))
    by (cbn [Schedule_getNextEntry]; now rewrite Hnext).
  pose proof (selectProfile_no_entry_eq st now _ _ _ src1 _ Huser Hsched Hget Hcheck Hgetn)
    as Heq.
  cbv zeta in Heq. rewrite Heq. clear Heq.
  set (st3 := set_schedule _ _).
  rewrite scheduleSelection_up by assumption. cbn [fst].
  unfold selection_armed.
  cbn [currentEntry timers selectionTimer set_selectionTimer set_timers].
  split; [reflexivity|].
  pose proof (next_occurrence_spec now s Hs) as (Hbound & Hstart).
  assert (Hopen : isCurrent (TimeScheduleEntry s t p) (next_occurrence now s) = true)
    by (apply isCurrent_time_spec; rewrite Hstart; lia).
  assert (Hlater : now < next_occurrence now s).
  { destruct (Z.eq_dec (next_occurrence now s) now) as [Heq|Hneq]; [|lia].
    rewrite Heq in Hopen.
    pose proof (Timerange_getCurrentEntry_first_match_none entries now Hnone) as Hall.
    rewrite Forall_forall in Hall.
    rewrite (Hall _ (proj2 (list_elem_of_In _ _) Hin)) in Hopen. discriminate. }
  eexists. eexists. exists (TimeScheduleEntry s t p).
  split; [reflexivity|]. split.
  { rewrite lookup_app_r by lia. rewrite Nat.sub_diag. reflexivity. }
  split; [reflexivity|].
  assert (Hdue : timer_due (mkTimer (getNextActivation (TimeScheduleEntry s t p) now - now)
                                    now Armed) = next_occurrence now s)
    by (unfold timer_due; cbn [timer_started timer_interval getNextActivation]; lia).
  rewrite Hdue. split; [lia|]. split; [exact Hin|]. split; [exact Hopen|].
  intros Hno.
  pose proof (Timerange_getCurrentEntry_first_match_none entries _ Hno) as Hall.
  rewrite Forall_forall in Hall.
  rewrite (Hall _ (proj2 (list_elem_of_In _ _) Hin)) in Hopen. discriminate.
Qed.

(** [selectProfile] keeps the schedule as [getCurrentEntry] left it. *)
Lemma selectProfile_schedule (st : State) (now : datetime) (s s' : Schedule) (e : ScheduleEntry) :
  hasClients USER (source st) = false ->
  schedule st = Some s ->
  Schedule_getCurrentEntry s now = (s', Ok (Some e)) ->
  schedule (fst (selectProfile now st)) = Some s'.
Proof.
  intros Huser Hsched Hget.
  rewrite (selectProfile_some st now s s' e Huser Hsched Hget), setCurrentEntry_some.
  pose proof (scheduleSelection_frame (set_currentEntry (Some e) (set_schedule (Some s') st))
                (Some (getScheduledEnd e now)) now) as (_ & _ & Hsch & _).
  pose proof (activation_frame (getProfile e)
                (fst (scheduleSelection (Some (getScheduledEnd e now)) now
                        (set_currentEntry (Some e) (set_schedule (Some s') st)))))
    as (_ & Hsch' & _).
  cbv zeta in Hsch, Hsch'. rewrite Hsch', Hsch. reflexivity.
Qed.

(** X22. A rotation with a positive interval over a non-empty list never
    leaves the scheduler without a profile: on a source without interactive
    clients that is enabled and has not failed, [selectProfile] selects a
    profile of the list and arms the timer for the end of its dwell, which
    is after the present.  An evaluation before the end of the dwell, as a
    trigger causes it, keeps the profile and the end time; an evaluation at
    or after the end moves the cursor one step and starts a dwell of one
    interval. *)
Theorem rotation_selectProfile
    (st : State) (now : datetime) (ps : list value) (I i : Z) (e : option datetime) :
  ps <> [] -> 0 <= i < Z.of_nat (List.length ps) -> 0 < I ->
  schedule st = Some (Rotation (mkRotation (VList ps) (VInt I) i e)) ->
  hasClients USER (source st) = false ->
  isEnabled (source st) = true ->
  isFailed (source st) = false ->
  let st' := fst (selectProfile now st) in
  exists i' t p,
    nth_error ps (Z.to_nat i') = Some p /\
    currentEntry st' = Some (RotationScheduleEntry now t p) /\
    schedule st' = Some (Rotation (mkRotation (VList ps) (VInt I) i' (Some t))) /\
    now < t /\
    selectionTimer st' = Some (length (timers st)) /\
    timers st' !! length (timers st) = Some (mkTimer (t - now) now Armed) /\
    match e with
    | Some t0 => if t0 <=? now
                 then i' = (i + 1) mod Z.of_nat (List.length ps) /\ t = now + I * us_per_second
                 else i' = i /\ t = t0
    | None => i' = i /\ t = now + I * us_per_second
    end.
Proof.
  intros Hne Hi HI Hsched Huser Hen Hfail st'. subst st'.
  destruct (getCurrentEntry_step ps I i e now Hne Hi)
    as (i' & t & p & Hi' & Hnth & Hread & Hpos & Hcase).
  assert (Hget : Schedule_getCurrentEntry (Rotation (mkRotation (VList ps) (VInt I) i e)) now =
                 (Rotation (mkRotation (VList ps) (VInt I) i' (Some t)),
                  Ok (Some (RotationScheduleEntry now t p))))
    by (cbn [Schedule_getCurrentEntry]; now rewrite Hread).
  destruct (selectProfile_arms st now _ _ _ Huser Hsched Hget Hen Hfail)
    as (Hentry & Htimer & Hlookup).
  pose proof (selectProfile_schedule st now _ _ _ Huser Hsched Hget) as Hsch.
  exists i', t, p. split; [exact Hnth|]. split; [exact Hentry|]. split; [exact Hsch|].
  split; [exact (Hpos HI)|]. split; [exact Htimer|]. split; [exact Hlookup | exact Hcase].
Qed.

(** X23. With an interval of zero, or a negative one, a rotation does not
    dwell: the entry of a read that starts a dwell ends no later than the
    read, so it is not current at the read, and the next read at that
    instant or later moves the cursor again. *)
Theorem RotationSchedule_no_dwell
    (ps : list value) (I i : Z) (now now' : datetime) :
  ps <> [] -> 0 <= i < Z.of_nat (List.length ps) -> I <= 0 -> now <= now' ->
  exists p q,
    RotationSchedule_getCurrentEntry (mkRotation (VList ps) (VInt I) i None) now =
      (mkRotation (VList ps) (VInt I) i (Some (now + I * us_per_second)),
       Ok (Some (RotationScheduleEntry now (now + I * us_per_second) p))) /\
    isCurrent (RotationScheduleEntry now (now + I * us_per_second) p) now = false /\
    nth_error ps (Z.to_nat ((i + 1) mod Z.of_nat (List.length ps))) = Some q /\
    snd (RotationSchedule_getCurrentEntry
           (mkRotation (VList ps) (VInt I) i (Some (now + I * us_per_second))) now') =
      Ok (Some (RotationScheduleEntry now' (now' + I * us_per_second) q)).
Proof.
  intros Hne Hi HI Hnow. pose proof (nonempty_length ps Hne) as HN.
  assert (Hus : 0 < us_per_second) by reflexivity.
  destruct (getCurrentEntry_fresh ps I i now Hne Hi) as (p & _ & Hread).
  assert (Hi' : 0 <= (i + 1) mod Z.of_nat (List.length ps) < Z.of_nat (List.length ps))
    by (apply Z.mod_pos_bound; lia).
  destruct (getCurrentEntry_fresh ps I _ now' Hne Hi') as (q & Hnth & Hread').
  exists p, q. split; [exact Hread|]. split.
  - cbn [isCurrent]. apply andb_false_iff. right. apply Z.ltb_ge. nia.
  - split; [exact Hnth|].
    rewrite getCurrentEntry_expired by (try assumption; nia). now rewrite Hread'.
Qed.

(** X24. A rotation without profiles selects nothing: [getCurrentEntry] and
    [getNextEntry] return [None] and leave the rotation as it is, and
    [selectProfile] clears the current entry, asks the source to re-evaluate
    its status and leaves the timers alone. *)
Theorem rotation_without_profiles
    (st : State) (now : datetime) (rs : RotationSchedule) (src1 : source_state) :
  py_truth (profiles rs) = false ->
  schedule st = Some (Rotation rs) ->
  hasClients USER (source st) = false ->
  checkStatus (source st) = (src1, Ok tt) ->
  RotationSchedule_getCurrentEntry rs now = (rs, Ok None) /\
  RotationSchedule_getNextEntry rs now = (rs, Ok None) /\
  selectProfile now st =
    (set_schedule (Some (Rotation rs))
       (set_source src1 (log_call CallCheckStatus
          (set_currentEntry None (set_schedule (Some (Rotation rs)) st)))), Ok tt) /\
  timers (fst (selectProfile now st)) = timers st /\
  currentEntry (fst (selectProfile now st)) = None.
Proof.
  intros Hempty Hsched Huser Hcheck.
  assert (Hcur : RotationSchedule_getCurrentEntry rs now = (rs, Ok None))
    by (unfold RotationSchedule_getCurrentEntry; now rewrite Hempty).
  assert (Hnext : RotationSchedule_getNextEntry rs now = (rs, Ok None))
    by (unfold RotationSchedule_getNextEntry; now rewrite Hempty).
  assert (Hget : Schedule_getCurrentEntry (Rotation rs) now = (Rotation rs, Ok None))
    by (cbn [Schedule_getCurrentEntry]; now rewrite Hcur).
  assert (Hgetn : Schedule_getNextEntry (Rotation rs) now = (Rotation rs, Ok None))
    by (cbn [Schedule_getNextEntry]; now rewrite Hnext).
  pose proof (selectProfile_no_entry_eq st now _ _ _ src1 _ Huser Hsched Hget Hcheck Hgetn)
    as Heq.
  cbv zeta in Heq.
  split; [exact Hcur|]. split; [exact Hnext|]. split; [exact Heq|].
  rewrite Heq. split; reflexivity.
Qed.

End ServiceSchedulerMore.

(** ** The further properties on the example source *)

Lemma onDisable_cancels_witness :
  let st := fst (run (OpTimerFires 0) at_0700 (scheduler_on source_wfm)) in
  armed_timers st = 1%nat /\
  armed_timers (fst (onDisable st)) = 0%nat /\
  currentEntry (fst (onDisable st)) = Some entry_wfm /\
  timer_fires 1 at_1800 (fst (onDisable st)) = (fst (onDisable st), Ok tt).
Proof.
  intros st.
  assert (Hreach : reachable st) by (apply reachable_step, reachable_init).
  destruct (onDisable_cancels st Hreach) as (Hnone & Hfire & Hcur & _).
  split; [reflexivity|]. split; [exact Hnone|]. split; [rewrite Hcur; reflexivity|].
  apply Hfire.
Defined.

Lemma scheduleSelection_one_timer_witness :
  let st := fst (run (OpTimerFires 0) at_0700 (scheduler_on source_wfm)) in
  let st' := fst (run OpOnFrequencyChange (at_0700 + timedelta 0 1 0) st) in
  armed_timers st' = 1%nat /\
  timers st' = [mkTimer (timedelta 0 0 10) at_0659_50 Fired;
                mkTimer (timedelta 11 0 0) at_0700 Cancelled;
                mkTimer (timedelta 0 0 10) (at_0700 + timedelta 0 1 0) Armed].
Proof.
  intros st st'.
  assert (Hreach : reachable st) by (apply reachable_step, reachable_init).
  destruct (scheduleSelection_one_timer st None (at_0700 + timedelta 0 1 0) Hreach)
    as (Hone & _ & Htrig); [reflexivity | reflexivity |].
  split; [|reflexivity].
  unfold st'. rewrite (Htrig OpOnFrequencyChange eq_refl eq_refl). exact Hone.
Defined.

(** The scheduler on the idle source at 05:00, an hour before the window
    "0600-1800" opens: nothing is current, and the timer is re-armed for
    06:00. *)
Lemma selectProfile_no_current_entry_witness :
  let st := scheduler_on source_wfm in
  let at_0500 := some_day + timedelta 5 0 0 in
  let st' := fst (selectProfile at_0500 st) in
  currentEntry st' = None /\
  calls st' = [CallAddClient; CallCheckStatus] /\
  timers st' = [mkTimer (timedelta 0 0 10) at_0659_50 Cancelled;
                mkTimer (timedelta 1 0 0) at_0500 Armed].
Proof.
  intros st at_0500 st'.
  destruct (selectProfile_no_current_entry st at_0500
              (StaticSchedule [entry_wfm]) (StaticSchedule [entry_wfm])
              (StaticSchedule [entry_wfm]) source_wfm (Some entry_wfm))
    as (_ & Hcur & _ & Hcalls & _ & _ & Htimers); try reflexivity.
  split; [exact Hcur|]. split; [exact Hcalls|].
  vm_compute in Htimers. vm_compute. exact (proj1 Htimers).
Defined.

(** A source without any schedule in its properties. *)
Lemma timer_fires_without_schedule_witness :
  let st := fst (@ServiceScheduler_init toy_source (mkToy true false false [] [] None)
                   at_0659_50) in
  schedule st = None /\
  armed_timers st = 1%nat /\
  armed_timers (fst (@timer_fires toy_source series_math london 0 at_0700 st)) = 0%nat /\
  calls (fst (@timer_fires toy_source series_math london 0 at_0700 st)) =
    [CallAddClient; CallCheckStatus].
Proof.
  intros st.
  assert (Hreach : reachable st) by apply reachable_init.
  destruct (@timer_fires_without_schedule toy_source series_math london st 0
              (mkTimer (timedelta 0 0 10) at_0659_50 Armed) at_0700 Hreach)
    as (Hnone & _ & _ & Hcalls & _); try reflexivity.
  split; [reflexivity|]. split; [reflexivity|]. split; [exact Hnone | exact Hcalls].
Defined.

(** The scheduler that selected "wfm" at 07:00: a new configuration with the
    window "0600-2400" is refused and nothing changes. *)
Lemma parseSchedule_static_witness :
  let st := fst (run (OpTimerFires 0) at_0700 (scheduler_on source_wfm)) in
  let st_new := fst (run (OpSourceChanges
                            (mkToy true false false config_2400 ["wfm"] None)) at_0700 st) in
  schedule st_new = Some (StaticSchedule [entry_wfm]) /\
  parseSchedule (at_0700 + timedelta 0 1 0) st_new = (st_new, Raise ValueError).
Proof.
  intros st st_new. split; [reflexivity|].
  apply (parseSchedule_static st_new (at_0700 + timedelta 0 1 0)
           [("type", VStr "static"); ("schedule", VDict [("0600-2400", VStr "wfm")])]
           [("0600-2400", VStr "wfm")]); reflexivity.
Defined.

Lemma shutdown_tears_down_witness :
  let st := fst (run (OpTimerFires 0) at_0700 (scheduler_on source_wfm)) in
  let st' := fst (shutdown st) in
  armed_timers st = 1%nat /\
  subscriptions st = [0%nat; 1%nat] /\
  subscriptions st' = [] /\
  armed_timers st' = 0%nat /\
  calls st' = [CallAddClient; CallActivateProfile (VStr "wfm"); CallStart; CallCheckStatus;
               CallCancelSubscription 1; CallCancelSubscription 0; CallRemoveClient] /\
  currentEntry st' = Some entry_wfm.
Proof.
  intros st st'.
  assert (Hreach : reachable st) by (apply reachable_step, reachable_init).
  destruct (shutdown_tears_down st Hreach) as (Hsubs & Hnone & _ & Hcalls & Hcur & _).
  split; [reflexivity|]. split; [reflexivity|]. split; [exact Hsubs|].
  split; [exact Hnone|]. split; [exact Hcalls | exact Hcur].
Defined.

Lemma static_schedule_timer_at_window_start_witness :
  let st := scheduler_on source_wfm in
  let at_2000 := some_day + timedelta 20 0 0 in
  exists i tm,
    selectionTimer (fst (selectProfile at_2000 st)) = Some i /\
    timers (fst (selectProfile at_2000 st)) !! i = Some tm /\
    at_2000 < timer_due tm < at_2000 + us_per_day /\
    Timerange_getCurrentEntry [entry_wfm] (timer_due tm) <> None.
Proof.
  intros st at_2000.
  destruct (static_schedule_timer_at_window_start st at_2000
              [("0600-1800", VStr "wfm")] [entry_wfm] source_wfm)
    as (_ & i & tm & n & Hsel & Hlookup & _ & Hdue & _ & _ & Hopen);
    try reflexivity; [discriminate|].
  exists i, tm. split; [exact Hsel|]. split; [exact Hlookup|]. split; [exact Hdue | exact Hopen].
Defined.

(** A rotation of "a" and "b" every five minutes on the idle source: the
    first evaluation selects "a" until five minutes later. *)
Lemma rotation_selectProfile_witness :
  let st := fst (@ServiceScheduler_init toy_source
                   (mkToy true false false
                      [("scheduler", VDict [("type", VStr "rotation"); ("schedule", rotation_ab)])]
                      ["a"; "b"] None) at_0659_50) in
  let st' := fst (@selectProfile toy_source series_math london at_0700 st) in
  currentEntry st' = Some (RotationScheduleEntry at_0700 (at_0700 + timedelta 0 5 0) (VStr "a")) /\
  timers st' !! 1%nat = Some (mkTimer (timedelta 0 5 0) at_0700 Armed).
Proof.
  intros st st'.
  assert (Hne : [VStr "a"; VStr "b"] <> []) by discriminate.
  assert (Hi : 0 <= 0 < Z.of_nat (List.length [VStr "a"; VStr "b"])) by (cbn; lia).
  assert (HI : 0 < 300) by lia.
  destruct (@rotation_selectProfile toy_source series_math london st at_0700
              [VStr "a"; VStr "b"] 300 0 None Hne Hi HI)
    as (i' & t & p & Hnth & Hcur & _ & _ & _ & Htimer & Hi' & Ht);
    try reflexivity.
  subst i' t. cbn in Hnth. injection Hnth as <-.
  split; [exact Hcur | exact Htimer].
Defined.

Lemma RotationSchedule_no_dwell_witness :
  exists p q,
    RotationSchedule_getCurrentEntry (mkRotation (VList [VStr "a"; VStr "b"]) (VInt 0) 0 None)
                                     at_0700 =
      (mkRotation (VList [VStr "a"; VStr "b"]) (VInt 0) 0 (Some at_0700),
       Ok (Some (RotationScheduleEntry at_0700 at_0700 p))) /\
    isCurrent (RotationScheduleEntry at_0700 at_0700 p) at_0700 = false /\
    snd (RotationSchedule_getCurrentEntry
           (mkRotation (VList [VStr "a"; VStr "b"]) (VInt 0) 0 (Some at_0700)) at_0700) =
      Ok (Some (RotationScheduleEntry at_0700 at_0700 q)) /\
    p = VStr "a" /\ q = VStr "b".
Proof.
  assert (Hne : [VStr "a"; VStr "b"] <> []) by discriminate.
  destruct (RotationSchedule_no_dwell [VStr "a"; VStr "b"] 0 0 at_0700 at_0700 Hne)
    as (p & q & Hread & Hcur & Hnth & Hnext); [cbn; lia | lia | lia |].
  exists p, q. cbn in Hnth. injection Hnth as <-.
  assert (Hp : p = VStr "a").
  { vm_compute in Hread. injection Hread as <-. reflexivity. }
  subst p. repeat split; assumption.
Defined.

Lemma rotation_without_profiles_witness :
  let st := fst (@ServiceScheduler_init toy_source
                   (mkToy true false false
                      [("scheduler", VDict [("type", VStr "rotation"); ("schedule", VDict [])])]
                      [] None) at_0659_50) in
  schedule st = Some (Rotation (mkRotation (VList []) (VInt 300) 0 None)) /\
  timers (fst (@selectProfile toy_source series_math london at_0700 st)) = timers st /\
  currentEntry (fst (@selectProfile toy_source series_math london at_0700 st)) = None.
Proof.
  intros st.
  destruct (@rotation_without_profiles toy_source series_math london st at_0700
              (mkRotation (VList []) (VInt 300) 0 None)
              (mkToy true false false
                 [("scheduler", VDict [("type", VStr "rotation"); ("schedule", VDict [])])]
                 [] None))
    as (_ & _ & _ & Htimers & Hcur); try reflexivity.
  split; [reflexivity|]. split; [exact Htimers | exact Hcur].
Defined.

(** ** The range of instants in the rotation *)

Lemma timedelta_seconds_checked_int (I : Z) :
  timedelta_min <= I * us_per_second <= timedelta_max ->
  timedelta_seconds_checked (VInt I) = Ok (I * us_per_second).
Proof.
  intros H. unfold timedelta_seconds_checked. cbn [timedelta_seconds rbind].
  replace ((timedelta_min <=? I * us_per_second) && (I * us_per_second <=? timedelta_max))
    with true by (symmetry; apply andb_true_iff; split; apply Z.leb_le; lia).
  reflexivity.
Qed.

Lemma datetime_add_in_range (now d : Z) :
  datetime_min <= now + d <= datetime_max -> datetime_add now d = Ok (now + d).
Proof.
  intros H. unfold datetime_add.
  replace ((datetime_min <=? now + d) && (now + d <=? datetime_max))
    with true by (symmetry; apply andb_true_iff; split; apply Z.leb_le; lia).
  reflexivity.
Qed.

(** The end time of a new dwell: the sum, or [OverflowError]. *)
Lemma dwell_end_cases (now I : Z) :
  (dwell_in_range now I /\
   (let? d := timedelta_seconds_checked (VInt I) in datetime_add now d) =
     Ok (now + I * us_per_second)) \/
  (~ dwell_in_range now I /\
   (let? d := timedelta_seconds_checked (VInt I) in datetime_add now d) =
     Raise OverflowError).
Proof.
  unfold dwell_in_range, timedelta_seconds_checked, datetime_add.
  cbn [timedelta_seconds rbind].
  destruct ((timedelta_min <=? I * us_per_second) && (I * us_per_second <=? timedelta_max))
    eqn:Ed; cbn [rbind].
  - apply andb_true_iff in Ed. destruct Ed as [E1 E2].
    apply Z.leb_le in E1. apply Z.leb_le in E2.
    destruct ((datetime_min <=? now + I * us_per_second) &&
              (now + I * us_per_second <=? datetime_max)) eqn:Es.
    + apply andb_true_iff in Es. destruct Es as [E3 E4].
      apply Z.leb_le in E3. apply Z.leb_le in E4. left. split; [lia | reflexivity].
    + right. split; [|reflexivity]. intros [_ H].
      apply andb_false_iff in Es. destruct Es as [Es|Es]; apply Z.leb_gt in Es; lia.
  - right. split; [|reflexivity]. intros [H _].
    apply andb_false_iff in Ed. destruct Ed as [Ed|Ed]; apply Z.leb_gt in Ed; lia.
Qed.

(** A read of a rotation that has no end time. *)
Lemma getCurrentEntry_clock_fresh (ps : list value) (I i : Z) (now start : datetime) :
  ps <> [] -> 0 <= i < Z.of_nat (List.length ps) ->
  exists p,
    nth_error ps (Z.to_nat i) = Some p /\
    RotationSchedule_getCurrentEntry_clock (mkRotation (VList ps) (VInt I) i None) now start =
      match (let? d := timedelta_seconds_checked (VInt I) in datetime_add now d) with
      | Ok t => (mkRotation (VList ps) (VInt I) i (Some t),
                 Ok (Some (RotationScheduleEntry start t p)))
      | Raise x => (mkRotation (VList ps) (VInt I) i None, Raise x)
      end.
Proof.
  intros Hne Hi. destruct (py_getitem_int_list ps i Hi) as (p & Hnth & Hget).
  exists p. split; [exact Hnth|].
  unfold RotationSchedule_getCurrentEntry_clock.
  cbn [profiles interval current_index current_end_time].
  rewrite (py_truth_list ps Hne). cbn [negb].
  destruct (let? d := timedelta_seconds_checked (VInt I) in datetime_add now d) as [t|x];
    [|reflexivity].
  cbn [profiles interval current_index current_end_time]. rewrite Hget. reflexivity.
Qed.

Lemma getCurrentEntry_clock_expired (ps : list value) (I i : Z) (t now start : datetime) :
  ps <> [] -> t <= now ->
  RotationSchedule_getCurrentEntry_clock (mkRotation (VList ps) (VInt I) i (Some t)) now start =
  RotationSchedule_getCurrentEntry_clock
    (mkRotation (VList ps) (VInt I) ((i + 1) mod Z.of_nat (List.length ps)) None) now start.
Proof.
  intros Hne Ht.
  unfold RotationSchedule_getCurrentEntry_clock.
  cbn [profiles interval current_index current_end_time].
  rewrite (py_truth_list ps Hne). cbn [negb py_len].
  replace (t <=? now) with true by (symmetry; apply Z.leb_le; exact Ht).
  reflexivity.
Qed.

Lemma getCurrentEntry_clock_running (ps : list value) (I i : Z) (t now start : datetime) :
  ps <> [] -> 0 <= i < Z.of_nat (List.length ps) -> now < t ->
  exists p,
    nth_error ps (Z.to_nat i) = Some p /\
    RotationSchedule_getCurrentEntry_clock (mkRotation (VList ps) (VInt I) i (Some t)) now start =
    (mkRotation (VList ps) (VInt I) i (Some t), Ok (Some (RotationScheduleEntry start t p))).
Proof.
  intros Hne Hi Ht. destruct (py_getitem_int_list ps i Hi) as (p & Hnth & Hget).
  exists p. split; [exact Hnth|].
  unfold RotationSchedule_getCurrentEntry_clock.
  cbn [profiles interval current_index current_end_time].
  rewrite (py_truth_list ps Hne). cbn [negb].
  replace (t <=? now) with false by (symmetry; apply Z.leb_gt; exact Ht).
  cbn [profiles interval current_index current_end_time]. rewrite Hget. reflexivity.
Qed.

(** One read, whatever the state of the rotation: it returns an entry for
    a profile of the list, or, when it has to start a dwell whose end is out
    of range, it raises [OverflowError]; the cursor stays inside the
    list. *)
Lemma getCurrentEntry_clock_step (ps : list value) (I : Z) (rs : RotationSchedule)
    (now start : datetime) :
  ps <> [] -> rotation_over ps I rs ->
  let r := RotationSchedule_getCurrentEntry_clock rs now start in
  rotation_over ps I (fst r) /\
  ((starts_dwell rs now -> dwell_in_range now I) ->
   exists p t,
     In p ps /\ snd r = Ok (Some (RotationScheduleEntry start t p)) /\
     current_end_time (fst r) = Some t /\ (0 < I -> now < t)) /\
  (starts_dwell rs now -> ~ dwell_in_range now I ->
   snd r = Raise OverflowError /\ current_end_time (fst r) = None).
Proof.
  intros Hne (Hps & HI & Hi) r. subst r.
  destruct rs as [ps' I' i e]. cbn in Hps, HI, Hi. subst ps' I'.
  pose proof (nonempty_length ps Hne) as HN.
  assert (Hus : 0 < us_per_second) by reflexivity.
  assert (Hfresh : forall j, 0 <= j < Z.of_nat (List.length ps) ->
            let r := RotationSchedule_getCurrentEntry_clock
                       (mkRotation (VList ps) (VInt I) j None) now start in
            rotation_over ps I (fst r) /\
            (dwell_in_range now I ->
             exists p t,
               In p ps /\ snd r = Ok (Some (RotationScheduleEntry start t p)) /\
               current_end_time (fst r) = Some t /\ (0 < I -> now < t)) /\
            (~ dwell_in_range now I ->
             snd r = Raise OverflowError /\ current_end_time (fst r) = None)).
  { intros j Hj r. subst r.
    destruct (getCurrentEntry_clock_fresh ps I j now start Hne Hj) as (p & Hnth & Hread).
    rewrite Hread.
    destruct (dwell_end_cases now I) as [[Hin Hsum]|[Hout Hsum]]; rewrite Hsum; cbn [fst snd].
    - split; [repeat split; cbn; lia|]. split; [|intros H; contradiction].
      intros _. exists p, (now + I * us_per_second).
      split; [eapply nth_error_In; exact Hnth|]. split; [reflexivity|].
      split; [reflexivity | nia].
    - split; [repeat split; cbn; lia|]. split; [intros H; contradiction|].
      intros _. split; reflexivity. }
  unfold starts_dwell. cbn [current_end_time].
  destruct e as [t0|].
  - destruct (Z_le_gt_dec t0 now) as [Hexp|Hrun].
    + rewrite getCurrentEntry_clock_expired by assumption.
      destruct (Hfresh ((i + 1) mod Z.of_nat (List.length ps)))
        as (Hover & Hok & Hraise); [apply Z.mod_pos_bound; lia|].
      split; [exact Hover|]. split.
      * intros H. apply Hok, H, Hexp.
      * intros _ H. apply Hraise, H.
    + destruct (getCurrentEntry_clock_running ps I i t0 now start Hne Hi) as (p & Hnth & Hread);
        [lia|].
      rewrite Hread. cbn [fst snd current_end_time].
      split; [repeat split; cbn; lia|]. split; [|intros H; lia].
      intros _. exists p, t0. split; [eapply nth_error_In; exact Hnth|].
      split; [reflexivity|]. split; [reflexivity | intros _; lia].
  - destruct (Hfresh i Hi) as (Hover & Hok & Hraise).
    split; [exact Hover|]. split.
    + intros H. apply Hok, H. exact Logic.I.
    + intros _ H. apply Hraise, H.
Qed.

Lemma rotation_over_reads_clock (ps : list value) (I : Z) (reads : list (datetime * datetime)) :
  forall rs, ps <> [] -> rotation_over ps I rs ->
             rotation_over ps I (rotation_reads_clock rs reads).
Proof.
  induction reads as [|[now start] reads IH]; intros rs Hne Hrs; [exact Hrs|].
  cbn [rotation_reads_clock fold_left]. apply IH; [exact Hne|].
  exact (proj1 (getCurrentEntry_clock_step ps I rs now start Hne Hrs)).
Qed.

(** X10. After any history of reads of a rotation over a non-empty list,
    reads that raised included, the cursor is inside the list.  A read of
    [getCurrentEntry] then returns an entry - it does not raise - provided
    that, when the read has to set a new end time, the sum of the clock and
    the interval is inside the range of [datetime]: the entry starts at the
    clock reading of its constructor, its profile is a member of the list
    and, when the interval is positive, it ends after the reading of the
    method.  When the read has to set a new end time and the sum is out of
    range, it raises [OverflowError] and leaves the rotation without an end
    time. *)
Theorem RotationSchedule_reads_return_entries
    (ps : list value) (I : Z) (reads : list (datetime * datetime)) (now start : datetime) :
  ps <> [] ->
  let rs := rotation_reads_clock (mkRotation (VList ps) (VInt I) 0 None) reads in
  let r := RotationSchedule_getCurrentEntry_clock rs now start in
  rotation_over ps I rs /\
  rotation_over ps I (fst r) /\
  ((starts_dwell rs now -> dwell_in_range now I) ->
   exists p t,
     In p ps /\ snd r = Ok (Some (RotationScheduleEntry start t p)) /\
     current_end_time (fst r) = Some t /\ (0 < I -> now < t)) /\
  (starts_dwell rs now -> ~ dwell_in_range now I ->
   snd r = Raise OverflowError /\ current_end_time (fst r) = None).
Proof.
  intros Hne rs r. pose proof (nonempty_length ps Hne) as HN.
  assert (Hrs : rotation_over ps I rs).
  { apply rotation_over_reads_clock; [exact Hne|]. repeat split; cbn; lia. }
  split; [exact Hrs|].
  exact (getCurrentEntry_clock_step ps I rs now start Hne Hrs).
Qed.

(** ** Threads in [scheduleSelection] *)

Section ThreadProperties.
Context `{Src : SdrSource} `{Mth : PyMath} `{Cfg : ReceiverConfig}.

(** A thread that runs its three statements with no other thread in between
    does what the method does in one step. *)
Lemma thread_alone (st : State) (time : option datetime) (now : datetime)
    (other : SelectionThread) :
  interleave now [First; First; First] (mkThreads st (AtGuard time) other) =
  mkThreads (fst (scheduleSelection time now st)) Returned other.
Proof.
  unfold interleave, scheduleSelection, bind, gets, ret.
  cbn [fold_left turn_step thread_step first second shared].
  destruct (negb (isEnabled (source st)) || isFailed (source st)); [reflexivity|].
  cbn [fold_left turn_step thread_step first second shared].
  unfold cancelTimer, start_timer, bind, gets, modify, ret.
  destruct (selectionTimer st); reflexivity.
Qed.

End ThreadProperties.

(** Two events reach the scheduler of the idle source at the same time, on
    two threads.  Each thread passes the test of the source and cancels the
    timer [selectionTimer] refers to before either has created its own; then
    each creates and starts a timer.  Both calls have returned and two timers
    are armed; [selectionTimer] refers to the second only, so [onDisable]
    leaves the first one armed. *)
Lemma interleaved_calls_arm_two_timers :
  let st := scheduler_on source_wfm in
  let c := @interleave toy_source at_0700 [First; First; Second; Second; First; Second]
             (mkThreads st (AtGuard None) (AtGuard None)) in
  reachable st /\
  armed_timers st = 1%nat /\
  first c = Returned /\ second c = Returned /\
  map timer_status (timers (shared c)) = [Cancelled; Armed; Armed] /\
  armed_timers (shared c) = 2%nat /\
  ~ (armed_timers (shared c) <= 1)%nat /\
  armed_timers (fst (onDisable (shared c))) = 1%nat.
Proof.
  intros st c.
  split; [apply reachable_init|].
  split; [reflexivity|]. split; [reflexivity|]. split; [reflexivity|].
  split; [reflexivity|]. split; [reflexivity|].
  split; [|reflexivity].
  intros H. vm_compute in H. lia.
Qed.

(** ** The clock readings of [selectProfile] *)

Lemma ticking_monotone (t0 : datetime) : monotone (ticking t0).
Proof. intros i j Hij. unfold ticking. lia. Qed.

Section ClockProperties.
Context `{Src : SdrSource} `{Mth : PyMath} `{Cfg : ReceiverConfig}.
Variable clock : nat -> datetime.

Lemma current_entries_In (entries : list ScheduleEntry) :
  forall k p, In p (current_entries clock entries k) -> In p entries.
Proof.
  induction entries as [|x rest IH]; intros k p Hin; [exact Hin|].
  cbn [current_entries] in Hin.
  destruct (isCurrent x (clock k)).
  - destruct Hin as [->|Hin]; [left; reflexivity | right; exact (IH _ _ Hin)].
  - right. exact (IH _ _ Hin).
Qed.

Lemma Timerange_getCurrentEntry_clock_In (entries : list ScheduleEntry) (k : nat)
    (e : ScheduleEntry) :
  snd (Timerange_getCurrentEntry_clock clock entries k) = Some e -> In e entries.
Proof.
  unfold Timerange_getCurrentEntry_clock. cbn [snd]. intros H.
  destruct (current_entries clock entries k) as [|x l] eqn:E; [discriminate|].
  injection H as ->. apply (current_entries_In entries k). rewrite E. left. reflexivity.
Qed.

Lemma scheduleSelection_clock_up (st : State) (time : datetime) (k : nat) :
  isEnabled (source st) = true -> isFailed (source st) = false ->
  scheduleSelection_clock clock (Some time) k st =
  (S (S k), selection_armed_clock time (clock k) (clock (S k)) st, Ok tt).
Proof.
  intros Hen Hfail. unfold scheduleSelection_clock, kbind, lift, gets, utcnow, kret.
  rewrite Hen, Hfail. cbn [negb orb].
  unfold cancelTimer, start_timer, selection_armed_clock, cancel_selection,
    bind, gets, modify, ret.
  destruct (selectionTimer st); reflexivity.
Qed.

(** [_setCurrentEntry] for a window between times of the day, on a source
    that is enabled and has not failed: four readings of the clock. *)
Lemma setCurrentEntry_clock_time (s t : timeofday) (p : value) (k : nat) (st : State) :
  isEnabled (source st) = true -> isFailed (source st) = false ->
  let e := TimeScheduleEntry s t p in
  let st1 := selection_armed_clock (getScheduledEnd e (clock (S k)))
               (clock (S (S k))) (clock (S (S (S k)))) (set_currentEntry (Some e) st) in
  _setCurrentEntry_clock clock (Some e) k st =
  (S (S (S (S k))), fst (activation p st1), snd (activation p st1)).
Proof.
  intros Hen Hfail e st1.
  unfold _setCurrentEntry_clock, kbind at 1 2 3 4 5, lift at 1, modify, call_entry.
  cbn [getScheduledEnd_clock e].
  rewrite scheduleSelection_clock_up by assumption.
  fold st1. unfold activation, lift, kbind, bind. cbn [getProfile e].
  destruct (try_except_KeyError _ st1) as [st2 [[]|x]]; [|reflexivity].
  destruct (call_source CallCheckStatus checkStatus st2) as [st3 r]. reflexivity.
Qed.

(** [selectProfile] on a static schedule that has a current window. *)
Lemma selectProfile_clock_static (st : State) (k : nat) (entries : list ScheduleEntry)
    (s t : timeofday) (p : value) :
  hasClients USER (source st) = false ->
  schedule st = Some (StaticSchedule entries) ->
  isEnabled (source st) = true -> isFailed (source st) = false ->
  snd (Timerange_getCurrentEntry_clock clock entries k) = Some (TimeScheduleEntry s t p) ->
  let e := TimeScheduleEntry s t p in
  let n := length entries in
  let st1 := selection_armed_clock (getScheduledEnd e (clock (k + n + 1)%nat))
               (clock (k + n + 2)%nat) (clock (k + n + 3)%nat)
               (set_currentEntry (Some e) (set_schedule (Some (StaticSchedule entries)) st)) in
  snd (fst (selectProfile_clock clock k st)) = fst (activation p st1).
Proof.
  intros Huser Hsched Hen Hfail Hget e n st1.
  unfold selectProfile_clock, kbind at 1 2 3, lift at 1 2, gets at 1 2.
  rewrite Huser, Hsched.
  unfold call_schedule_clock. rewrite Hsched. cbn [Schedule_getCurrentEntry_clock].
  unfold Timerange_getCurrentEntry_clock in *. cbn [snd] in Hget. rewrite Hget.
  unfold kbind at 1.
  rewrite (setCurrentEntry_clock_time s t p (k + length entries)
             (set_schedule (Some (StaticSchedule entries)) st)) by assumption.
  replace (S (k + length entries)) with (k + n + 1)%nat by (unfold n; lia).
  replace (S (k + n + 1)) with (k + n + 2)%nat by lia.
  replace (S (k + n + 2)) with (k + n + 3)%nat by lia.
  fold e. fold st1.
  pose proof (activation_frame p st1) as (Hcur & _).
  destruct (activation p st1) as [st2 [[]|x]]; cbn [fst snd] in *; [|reflexivity].
  unfold kbind, lift, gets. rewrite Hcur. reflexivity.
Qed.

(** X20. On a static schedule, when the window [selectProfile] selects is
    still open at the clock reading of its [getScheduledEnd], the timer is
    armed for the end of the window: the window is current at every instant
    from that reading up to its end, which is at most a day away, and -
    unless the window is the full day - is not current at its end.  The
    timer waits, from the instant [start()] is called, for the time between
    the clock reading of [scheduleSelection] and the end of the window: with
    a clock that does not go back it fires no earlier than the window ends,
    and later only by the time that passes between that reading and
    [start()]. *)
Theorem static_schedule_timer_at_window_end
    (st : State) (k : nat) (d : dict) (entries : list ScheduleEntry) (e : ScheduleEntry) :
  monotone clock ->
  static_entries d = Ok entries ->
  schedule st = Some (StaticSchedule entries) ->
  hasClients USER (source st) = false ->
  isEnabled (source st) = true ->
  isFailed (source st) = false ->
  snd (Timerange_getCurrentEntry_clock clock entries k) = Some e ->
  let n := length entries in
  let read_end := clock (k + n + 1)%nat in
  let read_delta := clock (k + n + 2)%nat in
  let started := clock (k + n + 3)%nat in
  isCurrent e read_end = true ->
  let st' := snd (fst (selectProfile_clock clock k st)) in
  let window_end := getScheduledEnd e read_end in
  currentEntry st' = Some e /\
  read_end <= window_end <= read_end + us_per_day /\
  (forall dt, read_end <= dt < window_end -> isCurrent e dt = true) /\
  (startTime e <> endTime e -> read_end < window_end /\ isCurrent e window_end = false) /\
  exists i tm,
    selectionTimer st' = Some i /\ timers st' !! i = Some tm /\ is_armed tm = true /\
    timer_interval tm = window_end - read_delta /\
    timer_started tm = started /\
    window_end <= timer_due tm /\
    timer_due tm - window_end = started - read_delta.
Proof.
  intros Hmono Hparse Hsched Huser Hen Hfail Hsel n read_end read_delta started Hopen
         st' window_end.
  pose proof (Timerange_getCurrentEntry_clock_In entries k e Hsel) as Hin.
  pose proof (static_entries_in_day d entries Hparse) as Hday.
  rewrite Forall_forall in Hday.
  apply list_elem_of_In in Hin. specialize (Hday e Hin).
  destruct e as [s t p| |]; try contradiction. destruct Hday as [Hs Ht].
  destruct (time_entry_until_end s t p read_end Hs Ht Hopen) as (Hbound & Hstay & Hend).
  pose proof (selectProfile_clock_static st k entries s t p Huser Hsched Hen Hfail Hsel) as Hst.
  cbv zeta in Hst. fold n read_end read_delta started window_end st' in Hst.
  set (st1 := selection_armed_clock window_end read_delta started _) in Hst.
  pose proof (activation_frame p st1) as (Hcur & _ & Hseltm & Htim & _).
  rewrite <- Hst in Hcur, Hseltm, Htim.
  assert (Hlen : length (cancel_selection st) = length (timers st)).
  { unfold cancel_selection. destruct (selectionTimer st); [apply length_alter | reflexivity]. }
  split; [rewrite Hcur; reflexivity|].
  split; [exact Hbound|]. split; [exact Hstay|]. split; [exact Hend|].
  exists (length (timers st)), (mkTimer (window_end - read_delta) started Armed).
  split.
  { rewrite Hseltm. unfold st1, selection_armed_clock. cbn [selectionTimer set_selectionTimer].
    change (cancel_selection (set_currentEntry _ (set_schedule _ st)))
      with (cancel_selection st).
    rewrite Hlen. reflexivity. }
  split.
  { rewrite Htim. unfold st1, selection_armed_clock.
    cbn [timers set_selectionTimer set_timers].
    change (cancel_selection (set_currentEntry _ (set_schedule _ st)))
      with (cancel_selection st).
    rewrite lookup_app_r by lia. rewrite Hlen, Nat.sub_diag. reflexivity. }
  split; [reflexivity|]. split; [reflexivity|]. split; [reflexivity|].
  assert (Hlat : read_delta <= started) by (apply Hmono; lia).
  unfold timer_due. cbn [timer_started timer_interval]. split; lia.
Qed.

End ClockProperties.

(** ** The finer model and the model of one clock value

    When the clock stands still during a call and no sum leaves the range,
    the finer definitions give what the definitions of one clock value
    give. *)

Lemma RotationSchedule_getCurrentEntry_clock_agrees (r : RotationSchedule) (now : datetime) :
  (forall d, timedelta_seconds (interval r) = Ok d ->
             timedelta_min <= d <= timedelta_max /\ datetime_min <= now + d <= datetime_max) ->
  RotationSchedule_getCurrentEntry_clock r now now = RotationSchedule_getCurrentEntry r now.
Proof.
  intros Hrange.
  assert (Hsum : (let? d := timedelta_seconds_checked (interval r) in datetime_add now d) =
                 (let? d := timedelta_seconds (interval r) in Ok (now + d))).
  { unfold timedelta_seconds_checked.
    destruct (timedelta_seconds (interval r)) as [d|x]; [|reflexivity].
    destruct (Hrange d eq_refl) as [Hd Hs]. cbn [rbind].
    replace ((timedelta_min <=? d) && (d <=? timedelta_max))
      with true by (symmetry; apply andb_true_iff; split; apply Z.leb_le; lia).
    cbn [rbind]. apply datetime_add_in_range. exact Hs. }
  unfold RotationSchedule_getCurrentEntry_clock, RotationSchedule_getCurrentEntry.
  destruct (negb (py_truth (profiles r))); [reflexivity|].
  destruct (match current_end_time r with Some t => t <=? now | None => false end).
  - destruct (py_len (profiles r)) as [n|x]; [|reflexivity].
    cbn [current_end_time interval profiles current_index].
    rewrite Hsum. destruct (timedelta_seconds (interval r)); reflexivity.
  - destruct (current_end_time r); [reflexivity|].
    rewrite Hsum. destruct (timedelta_seconds (interval r)); reflexivity.
Qed.

Lemma insert_by_keyed {A} (f : A -> Z) (x : A) (l : list (Z * A)) :
  Forall (fun q => fst q = f (snd q)) l ->
  map snd (insert_by fst (f x, x) l) = insert_by f x (map snd l) /\
  Forall (fun q => fst q = f (snd q)) (insert_by fst (f x, x) l).
Proof.
  induction l as [|[ky y] l IH]; intros Hall.
  - cbn. split; [reflexivity | repeat constructor].
  - inversion Hall as [|q l' Hq Hl]; subst. cbn [fst snd] in Hq. subst ky.
    cbn [insert_by map fst snd].
    destruct (f x <=? f y).
    + cbn [map snd]. split; [reflexivity|]. constructor; [reflexivity | exact Hall].
    + destruct (IH Hl) as [IH1 IH2]. cbn [map snd]. rewrite IH1.
      split; [reflexivity|]. constructor; [reflexivity | exact IH2].
Qed.

Lemma sorted_by_keyed {A} (f : A -> Z) (l : list A) :
  map snd (sorted_by fst (map (fun e => (f e, e)) l)) = sorted_by f l /\
  Forall (fun q => fst q = f (snd q)) (sorted_by fst (map (fun e => (f e, e)) l)).
Proof.
  induction l as [|x l [IH1 IH2]]; [split; [reflexivity | constructor]|].
  unfold sorted_by in *. cbn [map fold_right].
  destruct (insert_by_keyed f x _ IH2) as [H1 H2].
  rewrite H1, IH1. split; [reflexivity | exact H2].
Qed.

Section ConstantClock.
Context `{Src : SdrSource} `{Mth : PyMath} `{Cfg : ReceiverConfig}.
Variable clock : nat -> datetime.
Variable now : datetime.
Hypothesis clock_stands : forall k, clock k = now.

Lemma current_entries_constant (entries : list ScheduleEntry) :
  forall k, current_entries clock entries k = List.filter (fun p => isCurrent p now) entries.
Proof.
  induction entries as [|p rest IH]; intros k; [reflexivity|].
  cbn [current_entries List.filter]. rewrite clock_stands, IH. reflexivity.
Qed.

Lemma Timerange_getCurrentEntry_clock_constant (entries : list ScheduleEntry) (k : nat) :
  snd (Timerange_getCurrentEntry_clock clock entries k) = Timerange_getCurrentEntry entries now.
Proof.
  unfold Timerange_getCurrentEntry_clock, Timerange_getCurrentEntry. cbn [snd].
  rewrite current_entries_constant. reflexivity.
Qed.

Lemma activation_keys_constant (entries : list ScheduleEntry) :
  forall k, snd (activation_keys clock entries k) =
            map (fun e => (getNextActivation e now, e)) entries.
Proof.
  induction entries as [|e rest IH]; intros k; [reflexivity|].
  cbn [activation_keys map].
  destruct (getNextActivation_clock clock e k) as [k1 key] eqn:Ekey.
  specialize (IH k1). destruct (activation_keys clock rest k1) as [k2 keyed].
  cbn [snd] in *. rewrite IH.
  assert (Hk : key = getNextActivation e now).
  { destruct e; cbn in Ekey; injection Ekey as _ <-; rewrite ?clock_stands; reflexivity. }
  rewrite Hk. reflexivity.
Qed.

Lemma Timerange_getNextEntry_clock_constant (entries : list ScheduleEntry) (k : nat) :
  snd (Timerange_getNextEntry_clock clock entries k) = Timerange_getNextEntry entries now.
Proof.
  unfold Timerange_getNextEntry_clock, Timerange_getNextEntry.
  pose proof (activation_keys_constant entries k) as Hkeys.
  destruct (activation_keys clock entries k) as [k' keyed]. cbn [snd] in *. subst keyed.
  destruct (sorted_by_keyed (fun e => getNextActivation e now) entries) as [Hsort _].
  rewrite <- Hsort.
  destruct (sorted_by fst _) as [|[key e] l]; reflexivity.
Qed.

(** A schedule of time ranges: static or daylight. *)
Lemma Schedule_getCurrentEntry_clock_constant (s : Schedule) (k : nat) :
  (forall r, s <> Rotation r) ->
  let c := Schedule_getCurrentEntry_clock clock s k in
  (snd (fst c), snd c) = Schedule_getCurrentEntry s now.
Proof.
  intros Hs c. subst c. destruct s as [entries|d|r]; [| |now contradiction (Hs r)].
  - cbn [Schedule_getCurrentEntry_clock Schedule_getCurrentEntry].
    pose proof (Timerange_getCurrentEntry_clock_constant entries k) as H.
    destruct (Timerange_getCurrentEntry_clock clock entries k) as [k' r]. cbn [snd fst] in *.
    now rewrite H.
  - cbn [Schedule_getCurrentEntry_clock Schedule_getCurrentEntry]. rewrite clock_stands.
    destruct (DaylightSchedule_getEntries d now) as [entries|x]; [|reflexivity].
    pose proof (Timerange_getCurrentEntry_clock_constant entries (S k)) as H.
    destruct (Timerange_getCurrentEntry_clock clock entries (S k)) as [k' r].
    cbn [snd fst rbind] in *. now rewrite H.
Qed.

Lemma Schedule_getNextEntry_clock_constant (s : Schedule) (k : nat) :
  (forall r, s <> Rotation r) ->
  let c := Schedule_getNextEntry_clock clock s k in
  (snd (fst c), snd c) = Schedule_getNextEntry s now.
Proof.
  intros Hs c. subst c. destruct s as [entries|d|r]; [| |now contradiction (Hs r)].
  - cbn [Schedule_getNextEntry_clock Schedule_getNextEntry].
    pose proof (Timerange_getNextEntry_clock_constant entries k) as H.
    destruct (Timerange_getNextEntry_clock clock entries k) as [k' r]. cbn [snd fst] in *.
    now rewrite H.
  - cbn [Schedule_getNextEntry_clock Schedule_getNextEntry]. rewrite clock_stands.
    destruct (DaylightSchedule_getEntries d now) as [entries|x]; [|reflexivity].
    pose proof (Timerange_getNextEntry_clock_constant entries (S k)) as H.
    destruct (Timerange_getNextEntry_clock clock entries (S k)) as [k' r].
    cbn [snd fst rbind] in *. now rewrite H.
Qed.

Lemma scheduleSelection_clock_constant (time : option datetime) (k : nat) (st : State) :
  exists k', scheduleSelection_clock clock time k st =
             (k', fst (scheduleSelection time now st), snd (scheduleSelection time now st)).
Proof.
  unfold scheduleSelection_clock, scheduleSelection, kbind, lift, bind, gets, utcnow, kret, ret.
  destruct (negb (isEnabled (source st)) || isFailed (source st)); [eexists; reflexivity|].
  unfold cancelTimer, start_timer, bind, gets, modify, ret.
  destruct time as [t|]; destruct (selectionTimer st); cbn [fst snd];
    rewrite ?clock_stands; eexists; reflexivity.
Qed.

Lemma setCurrentEntry_keeps_schedule (entry : option ScheduleEntry) (t : datetime) (st : State) :
  schedule (fst (_setCurrentEntry entry t st)) = schedule st.
Proof.
  destruct entry as [e|].
  - rewrite setCurrentEntry_some.
    pose proof (activation_frame (getProfile e)
                  (fst (scheduleSelection (Some (getScheduledEnd e t)) t
                          (set_currentEntry (Some e) st)))) as (_ & Hsch & _).
    pose proof (scheduleSelection_frame (set_currentEntry (Some e) st)
                  (Some (getScheduledEnd e t)) t) as (_ & _ & Hsch2 & _).
    cbv zeta in Hsch, Hsch2. rewrite Hsch, Hsch2. reflexivity.
  - unfold _setCurrentEntry, bind, modify, ret, call_source.
    destruct (checkStatus (source (set_currentEntry None st))) as [s1 r]. reflexivity.
Qed.

Lemma setCurrentEntry_clock_constant (entry : option ScheduleEntry) (k : nat) (st : State) :
  exists k', _setCurrentEntry_clock clock entry k st =
             (k', fst (_setCurrentEntry entry now st), snd (_setCurrentEntry entry now st)).
Proof.
  destruct entry as [e|].
  - rewrite setCurrentEntry_some.
    unfold _setCurrentEntry_clock.
    unfold kbind at 1 2 3 4 5, lift at 1, modify at 1, call_entry.
    destruct (getScheduledEnd_clock clock e k) as [k1 t1] eqn:E1.
    destruct (getScheduledEnd_clock clock e k1) as [k2 t2] eqn:E2.
    assert (Ht2 : t2 = getScheduledEnd e now).
    { destruct e; cbn in E2; injection E2 as _ <-; rewrite ?clock_stands; reflexivity. }
    subst t2.
    destruct (scheduleSelection_clock_constant (Some (getScheduledEnd e now)) k2
                (set_currentEntry (Some e) st)) as [k3 Hsel].
    rewrite Hsel, scheduleSelection_returns.
    set (st3 := fst (scheduleSelection _ _ _)).
    unfold activation, lift, bind.
    destruct (try_except_KeyError _ st3) as [st4 [[]|x]]; [|eexists; reflexivity].
    destruct (call_source CallCheckStatus checkStatus st4) as [st5 r5]. eexists; reflexivity.
  - unfold _setCurrentEntry_clock, _setCurrentEntry, kbind, lift, bind, modify, kret, ret.
    destruct (call_source CallCheckStatus checkStatus (set_currentEntry None st)) as [st5 r5].
    eexists; reflexivity.
Qed.

(** The request for the next activation, at the end of [selectProfile]. *)
Lemma next_activation_clock_constant (n : ScheduleEntry) (k : nat) (st : State) :
  exists k',
    kbind (call_entry (getNextActivation_clock clock n))
          (fun time => scheduleSelection_clock clock (Some time)) k st =
    (k', fst (scheduleSelection (Some (getNextActivation n now)) now st),
     snd (scheduleSelection (Some (getNextActivation n now)) now st)).
Proof.
  unfold kbind, call_entry.
  destruct (getNextActivation_clock clock n k) as [k4 t4] eqn:E4.
  assert (Ht4 : t4 = getNextActivation n now).
  { destruct n; cbn in E4; injection E4 as _ <-; rewrite ?clock_stands; reflexivity. }
  subst t4. apply scheduleSelection_clock_constant.
Qed.

Lemma call_schedule_clock_getCurrentEntry_constant (s : Schedule) (k : nat) (st : State) :
  (forall r, s <> Rotation r) -> schedule st = Some s ->
  exists k',
    call_schedule_clock (Schedule_getCurrentEntry_clock clock) k st =
    (k', fst (call_schedule Schedule_getCurrentEntry now st),
     snd (call_schedule Schedule_getCurrentEntry now st)).
Proof.
  intros Hs Hsched. unfold call_schedule_clock, call_schedule. rewrite Hsched.
  pose proof (Schedule_getCurrentEntry_clock_constant s k Hs) as Hcur. cbv zeta in Hcur.
  destruct (Schedule_getCurrentEntry_clock clock s k) as [[k1 s1] r1].
  cbn [fst snd] in Hcur. rewrite <- Hcur. eexists; reflexivity.
Qed.

Lemma call_schedule_clock_getNextEntry_constant (s : Schedule) (k : nat) (st : State) :
  (forall r, s <> Rotation r) -> schedule st = Some s ->
  exists k',
    call_schedule_clock (Schedule_getNextEntry_clock clock) k st =
    (k', fst (call_schedule Schedule_getNextEntry now st),
     snd (call_schedule Schedule_getNextEntry now st)).
Proof.
  intros Hs Hsched. unfold call_schedule_clock, call_schedule. rewrite Hsched.
  pose proof (Schedule_getNextEntry_clock_constant s k Hs) as Hcur. cbv zeta in Hcur.
  destruct (Schedule_getNextEntry_clock clock s k) as [[k1 s1] r1].
  cbn [fst snd] in Hcur. rewrite <- Hcur. eexists; reflexivity.
Qed.

(** A schedule of time ranges is not changed by its methods. *)
Lemma call_schedule_timerange (s : Schedule) (st : State) :
  (forall r, s <> Rotation r) -> schedule st = Some s ->
  schedule (fst (call_schedule Schedule_getCurrentEntry now st)) = Some s.
Proof.
  intros Hs Hsched. unfold call_schedule. rewrite Hsched.
  destruct s as [entries|d|r]; [reflexivity | reflexivity | now contradiction (Hs r)].
Qed.

(** With a schedule of time ranges, or none, the finer [selectProfile] on a
    clock that stands still is [selectProfile] at that instant. *)
Lemma selectProfile_clock_constant (k : nat) (st : State) :
  (forall r, schedule st <> Some (Rotation r)) ->
  exists k', selectProfile_clock clock k st =
             (k', fst (selectProfile now st), snd (selectProfile now st)).
Proof.
  intros Hs. destruct (selectProfile now st) as [st' r] eqn:Ec. cbn [fst snd].
  unfold selectProfile in Ec. unfold selectProfile_clock.
  unfold bind at 1 2, gets at 1 2 in Ec. unfold kbind at 1 2, lift at 1 2, gets at 1 2.
  destruct (hasClients USER (source st)).
  { injection Ec as <- <-. eexists; reflexivity. }
  destruct (schedule st) as [s|] eqn:Hsched.
  2: { destruct (setCurrentEntry_clock_constant None k st) as [k' H].
       exists k'. rewrite H, Ec. reflexivity. }
  assert (Hs' : forall r, s <> Rotation r) by (intros r0 ->; exact (Hs r0 eq_refl)).
  unfold bind at 1 in Ec. unfold kbind at 1.
  destruct (call_schedule_clock_getCurrentEntry_constant s k st Hs' Hsched) as [k1 Hcur].
  pose proof (call_schedule_timerange s st Hs' Hsched) as Hkeep.
  rewrite Hcur.
  destruct (call_schedule Schedule_getCurrentEntry now st) as [st1 r1].
  cbn [fst snd] in *.
  destruct r1 as [entry|x].
  2: { injection Ec as <- <-. eexists; reflexivity. }
  unfold bind at 1 in Ec. unfold kbind at 1.
  destruct (setCurrentEntry_clock_constant entry k1 st1) as [k2 Hset].
  pose proof (setCurrentEntry_keeps_schedule entry now st1) as Hkeep2.
  rewrite Hset.
  destruct (_setCurrentEntry entry now st1) as [st2 r2].
  cbn [fst snd] in *.
  destruct r2 as [[]|x].
  2: { injection Ec as <- <-. eexists; reflexivity. }
  unfold bind at 1, gets at 1 in Ec. unfold kbind at 1, lift at 1, gets at 1.
  destruct (currentEntry st2).
  { injection Ec as <- <-. eexists; reflexivity. }
  unfold bind at 1 in Ec. unfold kbind at 1.
  assert (Hsched2 : schedule st2 = Some s) by (rewrite Hkeep2; exact Hkeep).
  destruct (call_schedule_clock_getNextEntry_constant s k2 st2 Hs' Hsched2) as [k3 Hnext].
  rewrite Hnext.
  destruct (call_schedule Schedule_getNextEntry now st2) as [st3 r3].
  cbn [fst snd] in *.
  destruct r3 as [[n|]|x]; try (injection Ec as <- <-; eexists; reflexivity).
  destruct (next_activation_clock_constant n k3 st3) as [k4 H4].
  exists k4. unfold kbind in H4 |- *. rewrite H4, Ec. reflexivity.
Qed.

End ConstantClock.

(** ** The properties of the finer model on examples *)

(** The rotation of "a" and "b" every five minutes, read at 0, after six
    minutes and after an hour: the read after two hours returns an entry
    that starts at the reading of its constructor.  With an interval of
    10^10 minutes the first read raises. *)
Lemma RotationSchedule_reads_return_entries_witness :
  (exists p t,
     In p [VStr "a"; VStr "b"] /\
     snd (RotationSchedule_getCurrentEntry_clock
            (rotation_reads_clock (mkRotation (VList [VStr "a"; VStr "b"]) (VInt 300) 0 None)
               [(0, 1); (timedelta 0 6 0, timedelta 0 6 0 + 1);
                (timedelta 1 0 0, timedelta 1 0 0 + 1)])
            (timedelta 2 0 0) (timedelta 2 0 0 + 1)) =
       Ok (Some (RotationScheduleEntry (timedelta 2 0 0 + 1) t p))) /\
  snd (RotationSchedule_getCurrentEntry_clock
         (mkRotation (VList [VStr "a"; VStr "b"]) (VInt (10 ^ 10 * 60)) 0 None)
         at_0700 (at_0700 + 1)) = Raise OverflowError.
Proof.
  assert (Hne : [VStr "a"; VStr "b"] <> []) by discriminate.
  split.
  - destruct (RotationSchedule_reads_return_entries [VStr "a"; VStr "b"] 300
                [(0, 1); (timedelta 0 6 0, timedelta 0 6 0 + 1);
                 (timedelta 1 0 0, timedelta 1 0 0 + 1)]
                (timedelta 2 0 0) (timedelta 2 0 0 + 1) Hne)
      as (_ & _ & Hok & _).
    destruct Hok as (p & t & Hin & Hread & _).
    + intros _. vm_compute. repeat split; discriminate.
    + exists p, t. split; [exact Hin | exact Hread].
  - destruct (RotationSchedule_reads_return_entries [VStr "a"; VStr "b"] (10 ^ 10 * 60)
                [] at_0700 (at_0700 + 1) Hne)
      as (_ & _ & _ & Hraise).
    apply Hraise; [exact Logic.I|].
    intros [_ [_ H]]. vm_compute in H. apply H. reflexivity.
Defined.

(** The scheduler on the idle source with the window "0600-1800", evaluated
    with a clock that shows 07:00 at the first reading: the timer waits from
    the fifth reading for the time between the fourth reading and 18:00, so
    it is due a microsecond after 18:00. *)
Lemma static_schedule_timer_at_window_end_witness :
  let st := scheduler_on source_wfm in
  let st' := snd (fst (@selectProfile_clock toy_source series_math london
                         (ticking at_0700) 0%nat st)) in
  currentEntry st' = Some entry_wfm /\
  exists i tm,
    selectionTimer st' = Some i /\ timers st' !! i = Some tm /\
    timer_interval tm = at_1800 - (at_0700 + 3) /\
    timer_started tm = at_0700 + 4 /\
    timer_due tm = at_1800 + 1 /\
    isCurrent entry_wfm at_1800 = false.
Proof.
  intros st st'.
  assert (Hparse : static_entries [("0600-1800", VStr "wfm")] = Ok [entry_wfm])
    by (vm_compute; reflexivity).
  assert (Hsched : schedule st = Some (StaticSchedule [entry_wfm]))
    by (vm_compute; reflexivity).
  assert (Huser : hasClients USER (source st) = false) by (vm_compute; reflexivity).
  assert (Hen : isEnabled (source st) = true) by (vm_compute; reflexivity).
  assert (Hfail : isFailed (source st) = false) by (vm_compute; reflexivity).
  assert (Hsel : snd (Timerange_getCurrentEntry_clock (ticking at_0700) [entry_wfm] 0) =
                 Some entry_wfm) by (vm_compute; reflexivity).
  assert (Hopen : isCurrent entry_wfm (ticking at_0700 (0 + length [entry_wfm] + 1)) = true)
    by (vm_compute; reflexivity).
  pose proof (@static_schedule_timer_at_window_end toy_source series_math london
                (ticking at_0700) st 0%nat [("0600-1800", VStr "wfm")] [entry_wfm] entry_wfm
                (ticking_monotone at_0700) Hparse Hsched Huser Hen Hfail Hsel Hopen)
    as (Hcur & _ & _ & _ & i & tm & Hseltm & Hlookup & _ & Hint & Hstart & _).
  split; [exact Hcur|]. exists i, tm.
  split; [exact Hseltm|]. split; [exact Hlookup|].
  split; [rewrite Hint; vm_compute; reflexivity|].
  split; [rewrite Hstart; vm_compute; reflexivity|].
  split; [|vm_compute; reflexivity].
  unfold timer_due. rewrite Hint, Hstart. vm_compute. reflexivity.
Defined.
